(** * llm-smart-router: the routing decision engine

    A shallow embedding of [smart_router/models.py], [heuristics.py],
    [classifier.py] and [router.py], and the properties of the routing
    engine proved over it.

    Modelling conventions.
    - A Python [str] is a [string] whose characters are read as code
      points below 256 (Latin-1); this covers every character the
      patterns of the program mention.
    - A Python [float] is carried by the rational it denotes, kept
      reduced. Where the program computes with floats (a numeral read by
      [float], a literal, [+], [-], [*], [round]) the result is rounded
      to binary64 as IEEE 754 prescribes, by the Standard Library's
      specification of binary floating point. Clock readings and the
      cache lifetime are compared as the rationals they denote.
    - An exception is a value of [exn]; code that can raise returns a
      [result].
    - Module-level globals ([_registry], [_config]) live in a [World]
      that stateful code threads explicitly. *)

From Stdlib Require Import List String Ascii Bool Arith ZArith QArith Qround Lia Lqa.
From Stdlib Require Import SpecFloat.
Import ListNotations.

Set Implicit Arguments.
Close Scope Q_scope.
Open Scope nat_scope.
Open Scope list_scope.

(* ===================================================================== *)
(** ** Python runtime: exceptions, floats, [max]/[min] with a key        *)
(* ===================================================================== *)

Module Py.

Inductive exn : Type :=
| ValueError | TypeError | KeyError | IndexError | AttributeError
| OverflowError
| HTTPError          (* transport failure, timeout, or error status *)
| JSONDecodeError
| RuntimeError (msg : string).

Inductive result (A : Type) : Type :=
| Ok (a : A)
| Raise (e : exn).
Arguments Ok {A} a.
Arguments Raise {A} e.

Definition rbind {A B} (r : result A) (f : A -> result B) : result B :=
  match r with Ok a => f a | Raise e => Raise e end.

(** [try: body except Exception: handler] *)
Definition try_except {A} (body : result A) (handler : result A) : result A :=
  match body with Ok a => Ok a | Raise _ => handler end.

Definition Qlt_bool (a b : Q) : bool := negb (Qle_bool b a).

(** Truthiness of a float: [0.0] is falsy. *)
Definition truthy (q : Q) : bool := negb (Qeq_bool q 0%Q).

(** [a or b] on optional floats: [a] when it is truthy, else [b]. *)
Definition or_opt (a b : option Q) : option Q :=
  match a with
  | Some q => if truthy q then Some q else b
  | None => b
  end.

(** [max(l, key=key)]: the first element whose key is maximal;
    [None] stands for the [ValueError] on an empty sequence. *)
Definition max_by {A} (key : A -> Q) (l : list A) : option A :=
  match l with
  | [] => None
  | x :: t =>
      Some (fold_left (fun best y => if Qlt_bool (key best) (key y) then y else best) t x)
  end.

(** [min(l, key=key)]: the first element whose key is minimal. *)
Definition min_by {A} (key : A -> Q) (l : list A) : option A :=
  match l with
  | [] => None
  | x :: t =>
      Some (fold_left (fun best y => if Qlt_bool (key y) (key best) then y else best) t x)
  end.

Definition chars (s : string) : list ascii := list_ascii_of_string s.
Definition str (l : list ascii) : string := string_of_list_ascii l.

Definition code (c : ascii) : nat := nat_of_ascii c.

Definition between (lo hi n : nat) : bool := (lo <=? n) && (n <=? hi).

(** [\d] *)
Definition is_digit (c : ascii) : bool := between 48 57 (code c).

(** [\s]: [str.isspace] on the code points below 256. *)
Definition is_space (c : ascii) : bool :=
  let n := code c in
  between 9 13 n || between 28 32 n || (n =? 133) || (n =? 160).

(** [\w]: [str.isalnum] or underscore, on the code points below 256. *)
Definition is_word (c : ascii) : bool :=
  let n := code c in
  between 48 57 n || between 65 90 n || (n =? 95) || between 97 122 n
  || (n =? 170) || between 178 179 n || (n =? 181) || between 185 186 n
  || between 188 190 n || between 192 214 n || between 216 246 n
  || between 248 255 n.

(** [str.lower] on one code point below 256. *)
Definition lower (c : ascii) : ascii :=
  let n := code c in
  if between 65 90 n || (between 192 222 n && negb (n =? 215))
  then ascii_of_nat (n + 32) else c.

Definition value_of_digit (c : ascii) : Z := Z.of_nat (code c - 48).

Definition digits_value (l : list ascii) : Z :=
  fold_left (fun acc c => (10 * acc + value_of_digit c)%Z) l 0%Z.

Fixpoint split_at_dot (l : list ascii) : list ascii * option (list ascii) :=
  match l with
  | [] => ([], None)
  | c :: t =>
      if Ascii.eqb c "."%char then ([], Some t)
      else let '(a, b) := split_at_dot t in (c :: a, b)
  end.

Definition nonempty_digits (l : list ascii) : bool :=
  negb (Nat.eqb (List.length l) 0) && forallb is_digit l.

(** *** binary64 *)

Definition prec : Z := 53.
Definition emax : Z := 1024.

(** The binary64 number nearest to [n / d], a tie going to the even
    significand: the quotient is developed to the bits the format keeps
    and rounded once, as [SFdiv] rounds the quotient of two floats. A
    value beyond the largest finite float rounds to infinity. *)
Definition nearest (n d : positive) : spec_float :=
  let '(q, e, l) := SFdiv_core_binary prec emax (Zpos n) 0 (Zpos d) 0 in
  binary_round_aux prec emax false q e l.

(** The rational a non-negative float denotes. Infinity is carried by
    [2 ^ 1024], which is above every finite float: the program only
    compares the floats that can be infinite (parameter counts). *)
Definition float_value (f : spec_float) : Q :=
  match f with
  | S754_finite _ m e =>
      match e with
      | Zneg k => Qred (Qmake (Zpos m) (Pos.pow 2 k))
      | _ => Qmake (Zpos m * 2 ^ e) 1
      end
  | S754_infinity _ => Qmake (2 ^ emax) 1
  | _ => 0%Q
  end.

(** Rounding of an exact value to binary64; it is symmetric about 0. *)
Definition to_float (q : Q) : Q :=
  match Qnum q with
  | Z0 => 0%Q
  | Zpos n => float_value (nearest n (Qden q))
  | Zneg n => (- float_value (nearest n (Qden q)))%Q
  end.

(** [a + b], [a - b] and [a * b] on floats: the exact result, rounded. *)
Definition float_add (a b : Q) : Q := to_float (a + b)%Q.
Definition float_sub (a b : Q) : Q := to_float (a - b)%Q.
Definition float_mul (a b : Q) : Q := to_float (a * b)%Q.

(** [float(n)] for an [int], as [*] applies it to an [int] operand (a
    count of matches, far below the range where it overflows). *)
Definition float_of_int (n : Z) : Q := to_float (Qmake n 1).

(** [float(p)] for the numerals the parameter patterns capture,
    [digits] or [digits.digits]: the float nearest to the decimal. Any
    other text is the [ValueError] Python's [float] raises on it. *)
Definition float_of (l : list ascii) : result Q :=
  match split_at_dot l with
  | (ip, None) =>
      if nonempty_digits ip then Ok (to_float (Qmake (digits_value ip) 1))
      else Raise ValueError
  | (ip, Some fp) =>
      if nonempty_digits ip && nonempty_digits fp
      then Ok (to_float (Qmake (digits_value (ip ++ fp))
                               (Pos.pow 10 (Pos.of_nat (List.length fp)))))
      else Raise ValueError
  end.

(** The parts as strings, when each is a [str] ([None] stands for a
    part that is not). *)
Fixpoint all_str (parts : list (option string)) : option (list string) :=
  match parts with
  | [] => Some []
  | Some s :: rest =>
      match all_str rest with
      | Some l => Some (s :: l)
      | None => None
      end
  | None :: _ => None
  end.

(** [sep.join(parts)]: a part that is no [str] is a [TypeError]. *)
Definition join (sep : string) (parts : list (option string)) : result string :=
  match all_str parts with
  | Some l => Ok (String.concat sep l)
  | None => Raise TypeError
  end.

Fixpoint mapM {A B} (f : A -> result B) (l : list A) : result (list B) :=
  match l with
  | [] => Ok []
  | x :: t => rbind (f x) (fun y => rbind (mapM f t) (fun ys => Ok (y :: ys)))
  end.

End Py.

(* ===================================================================== *)
(** ** Regular expressions: a backtracking matcher in the style of [re]  *)
(* ===================================================================== *)

Module Re.
Import Py.

Inductive regex : Type :=
| Eps
| Cls (p : ascii -> bool)        (* one character of a class *)
| Seq (r1 r2 : regex)
| Alt (r1 r2 : regex)            (* r1|r2, r1 tried first *)
| Star (r : regex)               (* r*, greedy *)
| LazyStar (r : regex)           (* r*?, reluctant *)
| Grp (r : regex)                (* the capturing group 1 *)
| WordB                          (* \b *)
| Eos.                           (* $ *)

(** A position in the subject: what was consumed (most recent first),
    what remains, and the text of group 1 if it took part. *)
Record pos : Type := Pos {
  before : list ascii;
  after : list ascii;
  group1 : option (list ascii)
}.

Definition at_word_boundary (s : pos) : bool :=
  let prev := match before s with c :: _ => is_word c | [] => false end in
  let next := match after s with c :: _ => is_word c | [] => false end in
  xorb prev next.

Definition at_end (s : pos) : bool :=
  match after s with
  | [] => true
  | [c] => Ascii.eqb c "010"%char
  | _ => false
  end.

Definition orelse {A} (a b : option A) : option A :=
  match a with Some x => Some x | None => b end.

(** [run r s k]: match [r] at [s], then continue with [k]; alternatives
    are explored in the priority order of a backtracking engine. A
    repetition gives up an iteration that consumed nothing. *)
Fixpoint run (r : regex) (s : pos) (k : pos -> option pos) : option pos :=
  match r with
  | Eps => k s
  | Cls p =>
      match after s with
      | c :: rest =>
          if p c then k (Pos (c :: before s) rest (group1 s)) else None
      | [] => None
      end
  | Seq r1 r2 => run r1 s (fun s' => run r2 s' k)
  | Alt r1 r2 => orelse (run r1 s k) (run r2 s k)
  | Star r1 =>
      (fix loop (n : nat) (s0 : pos) : option pos :=
         match n with
         | O => k s0
         | S n' =>
             orelse
               (run r1 s0 (fun s' =>
                  if List.length (after s') <? List.length (after s0)
                  then loop n' s' else None))
               (k s0)
         end) (List.length (after s)) s
  | LazyStar r1 =>
      (fix loop (n : nat) (s0 : pos) : option pos :=
         match n with
         | O => k s0
         | S n' =>
             orelse
               (k s0)
               (run r1 s0 (fun s' =>
                  if List.length (after s') <? List.length (after s0)
                  then loop n' s' else None))
         end) (List.length (after s)) s
  | Grp r1 =>
      run r1 s (fun s' =>
        let n := List.length (before s') - List.length (before s) in
        k (Pos (before s') (after s') (Some (rev (firstn n (before s'))))))
  | WordB => if at_word_boundary s then k s else None
  | Eos => if at_end s then k s else None
  end.

(** A match: where it started (as the length of what remained there)
    and the position it ended at. *)
Record found : Type := Found { start_left : nat; stop : pos }.

Definition matched_text (m : found) : list ascii :=
  rev (firstn (start_left m - List.length (after (stop m))) (before (stop m))).

(** [pattern.search]: the first start position, left to right, at
    which the pattern matches. *)
Fixpoint search_from (r : regex) (pre rest : list ascii) : option found :=
  match run r (Pos pre rest None) Some with
  | Some s' => Some (Found (List.length rest) s')
  | None =>
      match rest with
      | [] => None
      | c :: rest' => search_from r (c :: pre) rest'
      end
  end.

Definition search (r : regex) (s : string) : option found :=
  search_from r [] (chars s).

Definition contains (r : regex) (s : string) : bool :=
  match search r s with Some _ => true | None => false end.

(** [pattern.finditer]: successive non-overlapping matches. None of
    the program's patterns matches the empty string; after an empty
    match the scan moves on by one character. *)
Fixpoint finditer_from (fuel : nat) (r : regex) (pre rest : list ascii) : list found :=
  match fuel with
  | O => []
  | S fuel' =>
      match search_from r pre rest with
      | None => []
      | Some m =>
          let e := stop m in
          if List.length (after e) <? start_left m
          then m :: finditer_from fuel' r (before e) (after e)
          else match after e with
               | [] => [m]
               | c :: t => m :: finditer_from fuel' r (c :: before e) t
               end
      end
  end.

Definition finditer (r : regex) (s : string) : list found :=
  finditer_from (S (String.length s)) r [] (chars s).

(** [pattern.findall] for a pattern with one group: the text of
    group 1 of every match. *)
Definition findall1 (r : regex) (s : string) : list (list ascii) :=
  map (fun m => match group1 (stop m) with Some g => g | None => [] end)
      (finditer r s).

(** Pattern constructors. *)
Definition chr (c : ascii) : regex := Cls (Ascii.eqb c).
Definition ichr (c : ascii) : regex := Cls (fun x => Ascii.eqb (lower x) (lower c)).
Definition oneof (l : list ascii) : regex := Cls (fun x => existsb (Ascii.eqb x) l).
Definition ioneof (l : list ascii) : regex :=
  Cls (fun x => existsb (fun c => Ascii.eqb (lower x) (lower c)) l).
Definition any : regex := Cls (fun _ => true).                 (* [\s\S] *)
Definition dot : regex := Cls (fun c => negb (Ascii.eqb c "010"%char)).
Definition digit : regex := Cls is_digit.
Definition space : regex := Cls is_space.
Definition plus (r : regex) : regex := Seq r (Star r).
Definition opt (r : regex) : regex := Alt r Eps.

Fixpoint seqs (l : list regex) : regex :=
  match l with
  | [] => Eps
  | [r] => r
  | r :: t => Seq r (seqs t)
  end.

Fixpoint alts (l : list regex) : regex :=
  match l with
  | [] => Cls (fun _ => false)
  | [r] => r
  | r :: t => Alt r (alts t)
  end.

(** A literal word, case-sensitive and case-insensitive. *)
Definition lit (s : string) : regex := seqs (map chr (chars s)).
Definition ilit (s : string) : regex := seqs (map ichr (chars s)).

End Re.

(* ===================================================================== *)
(** ** JSON documents exchanged with the backend                         *)
(* ===================================================================== *)

Module Json.
Import Py.

(** A float as [json.loads] can produce it. *)
Inductive pyfloat : Type :=
| FNan
| FInf (negative : bool)
| FFin (q : Q).

#[warnings="-register-all"]
Inductive json : Type :=
| JNull
| JBool (b : bool)
| JInt (z : Z)
| JFloat (f : pyfloat)
| JStr (s : string)
| JArr (items : list json)
| JObj (fields : list (string * json)).

Fixpoint assoc {V} (k : string) (l : list (string * V)) : option V :=
  match l with
  | [] => None
  | (k', v) :: t => if String.eqb k k' then Some v else assoc k t
  end.

(** [d[key]] with a string key. *)
Definition getitem (d : json) (key : string) : result json :=
  match d with
  | JObj fields =>
      match assoc key fields with Some v => Ok v | None => Raise KeyError end
  | _ => Raise TypeError
  end.

(** [l[i]] with an integer index [i >= 0]. *)
Definition getindex (d : json) (i : nat) : result json :=
  match d with
  | JArr items =>
      match nth_error items i with Some v => Ok v | None => Raise IndexError end
  | JStr s =>
      match nth_error (chars s) i with
      | Some c => Ok (JStr (String c EmptyString))
      | None => Raise IndexError
      end
  | JObj _ => Raise KeyError
  | _ => Raise TypeError
  end.

(** [d.get(key, default)]: only a dict has [get]. *)
Definition get (d : json) (key : string) (default : json) : result json :=
  match d with
  | JObj fields =>
      Ok (match assoc key fields with Some v => v | None => default end)
  | _ => Raise AttributeError
  end.

(** The items [for entry in x] runs over. *)
Definition iterate (x : json) : result (list json) :=
  match x with
  | JArr items => Ok items
  | JObj fields => Ok (map (fun kv => JStr (fst kv)) fields)
  | JStr s => Ok (map (fun c => JStr (String c EmptyString)) (chars s))
  | _ => Raise TypeError
  end.

End Json.

(* ===================================================================== *)
(** ** config.py: the fields of [RouterConfig] the engine reads          *)
(* ===================================================================== *)

Module Config.

Record RouterConfig : Type := {
  tier1_max_params : Q;
  tier2_max_params : Q;
  heuristic_low_threshold : Q;
  heuristic_high_threshold : Q;
  classifier_model : string;
  model_cache_ttl : Q;
  filter_mode : string;
  allowed_models : list string;
  excluded_models : list string;
  tier_overrides : list (string * string)
}.

(** [RouterConfig()] *)
Definition default : RouterConfig := {|
  tier1_max_params := 8 # 1;
  tier2_max_params := 27 # 1;
  heuristic_low_threshold := Py.to_float (3 # 10);
  heuristic_high_threshold := Py.to_float (7 # 10);
  classifier_model := "";
  model_cache_ttl := 300 # 1;
  filter_mode := "blocklist";
  allowed_models := [];
  excluded_models := [];
  tier_overrides := []
|}.

Definition mem (x : string) (l : list string) : bool := existsb (String.eqb x) l.

Definition is_model_enabled (self : RouterConfig) (model_id : string) : bool :=
  if String.eqb (filter_mode self) "allowlist"
  then mem model_id (allowed_models self)
  else negb (mem model_id (excluded_models self)).

Definition get_tier_override (self : RouterConfig) (model_id : string) : option string :=
  Json.assoc model_id (tier_overrides self).

End Config.

(* ===================================================================== *)
(** ** models.py                                                         *)
(* ===================================================================== *)

Module Models.
Import Py Re Json Config.

(** [EMBEDDING_PATTERNS = re.compile(r"embed|embedding", re.IGNORECASE)] *)
Definition EMBEDDING_PATTERNS : regex := alts [ilit "embed"; ilit "embedding"].

(** [EXCLUDE_PATTERNS = re.compile(r"ocr|whisper|tts|rerank", re.IGNORECASE)] *)
Definition EXCLUDE_PATTERNS : regex :=
  alts [ilit "ocr"; ilit "whisper"; ilit "tts"; ilit "rerank"].

(** [\d+(?:\.\d+)?] *)
Definition number : regex := Seq (plus digit) (opt (Seq (chr ".") (plus digit))).

(** [PARAM_PATTERN = re.compile(r"(\d+(?:\.\d+)?)\s*[bB](?:\b|$)")] *)
Definition PARAM_PATTERN : regex :=
  seqs [Grp number; Star space; oneof ["b"; "B"]%char; Alt WordB Eos].

(** [MOE_ACTIVE_PATTERN = re.compile(r"[Aa](\d+(?:\.\d+)?)[bB]")] *)
Definition MOE_ACTIVE_PATTERN : regex :=
  seqs [oneof ["A"; "a"]%char; Grp number; oneof ["b"; "B"]%char].

(** [r"coder|code"] with [re.IGNORECASE] *)
Definition CODER_PATTERN : regex := alts [ilit "coder"; ilit "code"].

Inductive Tier : Type := SMALL | MEDIUM | LARGE.

(** The [IntEnum] values. *)
Definition tier_value (t : Tier) : Z :=
  match t with SMALL => 1 | MEDIUM => 2 | LARGE => 3 end.

(** [list(Tier)]: the members in definition order. *)
Definition all_tiers : list Tier := [SMALL; MEDIUM; LARGE].

Definition tier_eqb (a b : Tier) : bool := Z.eqb (tier_value a) (tier_value b).
Definition tier_ltb (a b : Tier) : bool := Z.ltb (tier_value a) (tier_value b).
Definition tier_le (a b : Tier) : Prop := (tier_value a <= tier_value b)%Z.

Definition tier_name (t : Tier) : string :=
  match t with SMALL => "SMALL" | MEDIUM => "MEDIUM" | LARGE => "LARGE" end.

(** [Tier[name]]; [None] is the [KeyError]. *)
Definition tier_by_name (name : string) : option Tier :=
  find (fun t => String.eqb (tier_name t) name) all_tiers.

Record ModelInfo : Type := {
  id : string;
  total_params : option Q;
  active_params : option Q;
  tier : Tier;
  is_coder : bool
}.

(** [return self.total_params or self.active_params or 0.0] *)
Definition effective_params (self : ModelInfo) : Q :=
  match or_opt (or_opt (total_params self) (active_params self)) (Some 0%Q) with
  | Some q => q
  | None => 0%Q
  end.

(** The [models] dict keeps insertion order, which [values()] follows. *)
Record ModelRegistry : Type := {
  models : list (string * ModelInfo);
  _last_refresh : Q
}.

(** [ModelRegistry()] *)
Definition empty_registry : ModelRegistry := {| models := []; _last_refresh := 0%Q |}.

Definition values (d : list (string * ModelInfo)) : list ModelInfo := map snd d.

(** [d[k] = v]: an existing key keeps its place. *)
Fixpoint setitem (d : list (string * ModelInfo)) (k : string) (v : ModelInfo)
  : list (string * ModelInfo) :=
  match d with
  | [] => [(k, v)]
  | (k', v') :: t =>
      if String.eqb k k' then (k', v) :: t else (k', v') :: setitem t k v
  end.

(** *** The process state: registry objects and the two globals *)

(** Registry objects live at addresses; [_registry] holds the address
    of the current one, so that a reader which obtained the registry
    earlier keeps an alias to the object it was given. *)
Record World : Type := {
  registries : list ModelRegistry;
  _registry : nat;
  _config : RouterConfig
}.

Definition M (A : Type) : Type := World -> result A * World.

Definition ret {A} (a : A) : M A := fun w => (Ok a, w).
Definition raise {A} (e : exn) : M A := fun w => (Raise e, w).
Definition bind {A B} (m : M A) (f : A -> M B) : M B :=
  fun w => match m w with
           | (Ok a, w') => f a w'
           | (Raise e, w') => (Raise e, w')
           end.
Definition lift {A} (r : result A) : M A := fun w => (r, w).

Declare Scope m_scope.
Delimit Scope m_scope with M.
Notation "x <- c1 ;; c2" := (bind c1 (fun x => c2))
  (at level 61, c1 at next level, right associativity) : m_scope.
Notation "c1 ;;; c2" := (bind c1 (fun _ => c2))
  (at level 61, right associativity) : m_scope.
Local Open Scope m_scope.

(** The state at import: [_registry = ModelRegistry()] and
    [_config = RouterConfig()]. *)
Definition initial_world : World :=
  {| registries := [empty_registry]; _registry := 0; _config := Config.default |}.

(** Reading the object at an address. *)
Definition deref (w : World) (self : nat) : ModelRegistry :=
  nth self (registries w) empty_registry.

Definition load (self : nat) : M ModelRegistry := fun w => (Ok (deref w self), w).

(** [get_config()] and [get_registry()] *)
Definition get_config : M RouterConfig := fun w => (Ok (_config w), w).
Definition get_registry : M nat := fun w => (Ok (_registry w), w).

(** [max(l, key=lambda m: m.effective_params)] *)
Definition largest (l : list ModelInfo) : M ModelInfo :=
  match max_by effective_params l with
  | Some m => ret m
  | None => raise ValueError
  end.

Definition is_empty {A} (l : list A) : bool :=
  match l with [] => true | _ => false end.

(** [ModelRegistry.by_tier] *)
Definition by_tier (self : nat) (t : Tier) : M (list ModelInfo) :=
  r <- load self ;;
  ret (filter (fun m => tier_eqb (tier m) t) (values (models r))).

(** The two fallback loops of [get_model_for_tier]:
    [for fallback_tier in tiers: if keep(fallback_tier):
       candidates = self.by_tier(fallback_tier); if candidates: break] *)
Fixpoint fallback_loop (self : nat) (keep : Tier -> bool) (tiers : list Tier)
         (candidates : list ModelInfo) : M (list ModelInfo) :=
  match tiers with
  | [] => ret candidates
  | fallback_tier :: rest =>
      if keep fallback_tier then
        c <- by_tier self fallback_tier ;;
        if is_empty c then fallback_loop self keep rest c else ret c
      else fallback_loop self keep rest candidates
  end.

(** The loop over the other tiers for a non-coder model; [Some m] is
    the [return] inside the loop, [None] is the loop running out. *)
Fixpoint general_loop (self : nat) (t : Tier) (tiers : list Tier) : M (option ModelInfo) :=
  match tiers with
  | [] => ret None
  | fallback_tier :: rest =>
      if negb (tier_eqb fallback_tier t) then
        c <- by_tier self fallback_tier ;;
        let adj_general := filter (fun m => negb (is_coder m)) c in
        if is_empty adj_general then general_loop self t rest
        else (m <- largest adj_general ;; ret (Some m))
      else general_loop self t rest
  end.

(** [ModelRegistry.get_model_for_tier] up to line 66: the candidates. *)
Definition select_candidates (self : nat) (t : Tier) : M (list ModelInfo) :=
  c0 <- by_tier self t ;;
  c1 <- (if is_empty c0
         then fallback_loop self (fun ft => tier_ltb t ft) all_tiers c0
         else ret c0) ;;
  (if is_empty c1
   then fallback_loop self (fun ft => tier_ltb ft t) (rev all_tiers) c1
   else ret c1).

(** [ModelRegistry.get_model_for_tier] *)
Definition get_model_for_tier (self : nat) (t : Tier) (prefer_coder : bool)
  : M (option ModelInfo) :=
  candidates <- select_candidates self t ;;
  if is_empty candidates then ret None
  else
    let last_resort := (m <- largest candidates ;; ret (Some m)) in
    if prefer_coder then
      let coders := filter is_coder candidates in
      if is_empty coders then last_resort
      else (m <- largest coders ;; ret (Some m))
    else
      let general := filter (fun m => negb (is_coder m)) candidates in
      if is_empty general then
        found <- general_loop self t all_tiers ;;
        match found with
        | Some m => ret (Some m)
        | None => last_resort
        end
      else (m <- largest general ;; ret (Some m)).

(** *** Building a [ModelInfo] from a model id *)

(** [max(float(p) for p in ps)] *)
Definition max_float (ps : list (list ascii)) : result Q :=
  rbind (mapM float_of ps) (fun qs =>
    match max_by (fun q => q) qs with
    | Some q => Ok q
    | None => Raise ValueError
    end).

(** [max(float(p) for p in ps if float(p) != a)] *)
Definition max_float_except (a : Q) (ps : list (list ascii)) : result Q :=
  rbind (mapM float_of ps) (fun qs =>
    match max_by (fun q => q) (filter (fun q => negb (Qeq_bool q a)) qs) with
    | Some q => Ok q
    | None => Raise ValueError
    end).

Definition _extract_params (model_id : string) : result (option Q * option Q) :=
  let moe_match := search MOE_ACTIVE_PATTERN model_id in
  rbind (match moe_match with
         | Some m =>
             rbind (float_of (match group1 (stop m) with Some g => g | None => [] end))
                   (fun q => Ok (Some q))
         | None => Ok None
         end) (fun active_params =>
  let all_params := findall1 PARAM_PATTERN model_id in
  if negb (is_empty all_params) then
    rbind (max_float all_params) (fun total_params =>
      match active_params with
      | Some a =>
          if truthy a && Qeq_bool total_params a && (1 <? List.length all_params)
          then rbind (max_float_except a all_params) (fun total_params' =>
                 Ok (Some total_params', active_params))
          else Ok (Some total_params, active_params)
      | None => Ok (Some total_params, active_params)
      end)
  else Ok (None, active_params)).

Definition _classify_tier (cfg : RouterConfig) (effective_params : Q) : Tier :=
  if Qle_bool effective_params (tier1_max_params cfg) then SMALL
  else if Qle_bool effective_params (tier2_max_params cfg) then MEDIUM
  else LARGE.

Definition _is_chat_model (model_id : string) : bool :=
  if contains EMBEDDING_PATTERNS model_id then false
  else if contains EXCLUDE_PATTERNS model_id then false
  else true.

(** [_build_model_info]; [cfg] is what [get_config()] returns. *)
Definition _build_model_info (cfg : RouterConfig) (model_id : string)
  : result (option ModelInfo) :=
  if negb (_is_chat_model model_id) then Ok None
  else
    rbind (_extract_params model_id) (fun '(total_params, active_params) =>
      let effective := or_opt total_params active_params in
      let tier :=
        match effective with
        | Some e => _classify_tier cfg e
        | None => MEDIUM
        end in
      let is_coder := contains CODER_PATTERN model_id in
      Ok (Some {| id := model_id;
                  total_params := total_params;
                  active_params := active_params;
                  tier := tier;
                  is_coder := is_coder |})).

(** *** Refreshing the registry *)

(** [load_config()]: installs what the configuration file yields as the
    global configuration, the defaults when the file is missing or
    cannot be read, and returns it. It catches its own failures. *)
Definition load_config (disk : option RouterConfig) : M RouterConfig :=
  fun w =>
    let cfg := match disk with Some c => c | None => Config.default end in
    (Ok cfg, {| registries := registries w; _registry := _registry w; _config := cfg |}).

(** [model_id = entry["id"]], which the patterns accept only as a [str]. *)
Definition model_id_of (entry : json) : result string :=
  rbind (getitem entry "id") (fun v =>
    match v with JStr s => Ok s | _ => Raise TypeError end).

Definition with_tier (info : ModelInfo) (t : Tier) : ModelInfo :=
  {| id := id info;
     total_params := total_params info;
     active_params := active_params info;
     tier := t;
     is_coder := is_coder info |}.

(** Lines 184-191: the tier override, an unknown tier name being
    logged and ignored. *)
Definition apply_tier_override (router_cfg : RouterConfig) (model_id : string)
           (info : ModelInfo) : ModelInfo :=
  match get_tier_override router_cfg model_id with
  | Some tier_override =>
      if String.eqb tier_override "" then info
      else match tier_by_name tier_override with
           | Some t => with_tier info t
           | None => info
           end
  | None => info
  end.

(** The loop of lines 173-201 over the listed entries. *)
Fixpoint build_models (cfg router_cfg : RouterConfig) (entries : list json)
         (new_models : list (string * ModelInfo)) : result (list (string * ModelInfo)) :=
  match entries with
  | [] => Ok new_models
  | entry :: rest =>
      rbind (model_id_of entry) (fun model_id =>
      rbind (_build_model_info cfg model_id) (fun built =>
        match built with
        | None => build_models cfg router_cfg rest new_models
        | Some info =>
            if negb (is_model_enabled router_cfg model_id)
            then build_models cfg router_cfg rest new_models
            else build_models cfg router_cfg rest
                   (setitem new_models model_id
                      (apply_tier_override router_cfg model_id info))
        end))
  end.

(** [_registry = ModelRegistry(...)]: a new object, and the global
    rebound to it. *)
Definition publish (r : ModelRegistry) : M unit :=
  fun w => (Ok tt, {| registries := registries w ++ [r];
                      _registry := List.length (registries w);
                      _config := _config w |}).

(** The body of the [try] of [refresh_models]. [listing] is what the
    request for the model list ends in: the decoded document, or the
    exception of the transport, of [raise_for_status] or of the decoder. *)
Definition refresh_body (now : Q) (listing : result json) (disk : option RouterConfig)
  : M unit :=
  data <- lift listing ;;
  router_cfg <- load_config disk ;;
  cfg <- get_config ;;
  entries <- lift (rbind (get data "data" (JArr [])) iterate) ;;
  new_models <- lift (build_models cfg router_cfg entries []) ;;
  publish {| models := new_models; _last_refresh := now |}.

(** [try: body except Exception: handler]; what the body did to the
    state before raising stays done. *)
Definition try_catch {A} (body : M A) (handler : exn -> M A) : M A :=
  fun w => match body w with
           | (Ok a, w') => (Ok a, w')
           | (Raise e, w') => handler e w'
           end.

(** [refresh_models]; the result is the registry object returned. *)
Definition refresh_models (force : bool) (now : Q) (listing : result json)
           (disk : option RouterConfig) : M nat :=
  cur <- get_registry ;;
  reg <- load cur ;;
  cfg <- get_config ;;
  if negb force && Qlt_bool (now - _last_refresh reg)%Q (model_cache_ttl cfg)
  then ret cur
  else
    try_catch (refresh_body now listing disk)
      (fun e =>
         cur' <- get_registry ;;
         reg' <- load cur' ;;
         if is_empty (models reg') then raise e else ret tt) ;;;
    get_registry.

End Models.

(* ===================================================================== *)
(** ** Chat messages                                                     *)
(* ===================================================================== *)

Module Messages.

(** One part of a structured content: a dict whose ["type"] is
    ["text"], with its ["text"] when that is a [str] ([""] when the key
    is absent) or with a ["text"] that is no [str] (null, a number, a
    list, ...); a dict whose ["type"] is ["image_url"]; or anything
    else. *)
Inductive block : Type :=
| TextBlock (text : string)
| BadTextBlock
| ImageBlock
| OtherBlock.

Inductive body : Type :=
| Text (s : string)
| Parts (blocks : list block).

(** A message dict: [msg.get("role")] and [msg.get("content", "")]. *)
Record message : Type := {
  role : option string;
  content : body
}.

Definition has_role (r : string) (m : message) : bool :=
  match role m with Some r' => String.eqb r' r | None => false end.

(** A tool declaration; only the length of the tool list is used. *)
Inductive tool : Type := Tool (name : string).

Definition nl : string := String "010"%char EmptyString.

End Messages.

(* ===================================================================== *)
(** ** heuristics.py                                                     *)
(* ===================================================================== *)

Module Heuristics.
Import Py Re Config Messages.

(** Reasons are kept structured: the formatted text of each is
    determined by its fields. [sample] is [matches[:3]], whose set of
    elements the text lists. *)
Inductive reason : Type :=
| VeryShort (tokens : nat)
| MediumLength (tokens : nat)
| Long (tokens : nat)
| VeryLong (tokens : nat)
| DeepConversation (turns : nat)
| MultiTurn (turns : nat)
| ManyTools (count : nat)
| ToolUse (count : nat)
| ComplexSystemPrompt (tokens : nat)
| MultipleCodeBlocks (count : nat)
| ContainsImages
| ComplexKeywords (count : nat) (sample : list string)
| ModerateKeywords (count : nat) (sample : list string)
| SimpleKeywords (sample : list string).

Record HeuristicResult : Type := {
  score : Q;
  reasons : list reason;
  confident : bool
}.

(** Pieces the keyword patterns share. *)
Definition sp : regex := plus space.                       (* \s+ *)
Definition a_uml : regex := ioneof ["228"; "a"]%char.       (* [äa] *)
Definition u_uml : regex := ioneof ["252"; "u"]%char.       (* [üu] *)
Definition dash_sp : regex := oneof ["-"; " "]%char.        (* [- ] *)
Definition e_sp : regex := ioneof ["e"; " "]%char.          (* [e ] *)
Definition keywords (l : list regex) : regex := seqs [WordB; alts l; WordB].

Definition MODERATE_KEYWORDS : regex := keywords [
  seqs [ilit "analy"; ioneof ["s"; "z"]%char; ilit "e"];
  ilit "compare"; ilit "contrast"; ilit "explain"; ilit "evaluate";
  ilit "discuss"; ilit "review";
  seqs [ilit "trade"; opt dash_sp; ilit "off"; opt (ilit "s")];
  seqs [ilit "pro"; opt (ilit "s"); sp; ilit "and"; sp; ilit "con"; opt (ilit "s")];
  seqs [ilit "advantage"; opt (ilit "s"); sp; ilit "and"; sp;
        ilit "disadvantage"; opt (ilit "s")];
  ilit "analysiere"; ilit "vergleiche";
  seqs [ilit "erkl"; a_uml; ilit "re"];
  ilit "bewerte"; ilit "diskutiere";
  seqs [u_uml; ilit "berpr"; u_uml; ilit "fe"];
  seqs [ilit "Vor"; opt (chr "-"); Star space; ilit "und"; sp; ilit "Nachteile"];
  seqs [ilit "Abw"; a_uml; ilit "gung"];
  seqs [ilit "Pro"; sp; ilit "und"; sp; ilit "Contra"]
].

Definition COMPLEX_KEYWORDS : regex := keywords [
  seqs [ilit "explain"; sp; ilit "in"; sp; ilit "detail"];
  seqs [ilit "step"; dash_sp; ilit "by"; dash_sp; ilit "step"];
  ilit "implement"; ilit "architect"; ilit "design"; ilit "refactor";
  ilit "optimize"; ilit "debug";
  seqs [ilit "write"; sp; opt (Seq (ilit "a") sp);
        alts [ilit "complete"; ilit "full"; ilit "entire"]];
  seqs [ilit "multi"; dash_sp; ilit "step"];
  ilit "comprehensive"; ilit "thorough";
  seqs [ilit "in"; dash_sp; ilit "depth"];
  seqs [ilit "Schritt"; sp; ilit "f"; u_uml; ilit "r"; sp; ilit "Schritt"];
  seqs [ilit "im"; sp; ilit "Detail"];
  ilit "implementiere"; ilit "entwirf"; ilit "entwerfe"; ilit "optimiere";
  ilit "debugge";
  seqs [ilit "schreib"; e_sp; Star dot;
        alts [ilit "komplett"; seqs [ilit "vollst"; a_uml; ilit "ndig"]; ilit "ganz"]];
  ilit "umfassend";
  seqs [ilit "gr"; u_uml; ilit "ndlich"];
  seqs [ilit "ausf"; u_uml; ilit "hrlich"];
  ilit "detailliert"; ilit "tiefgehend"; ilit "mehrschrittig";
  ilit "mehrstufig"; ilit "Architektur";
  seqs [ilit "Konzept"; sp; ilit "erstell"]
].

Definition SIMPLE_KEYWORDS : regex := keywords [
  ilit "translate"; ilit "summarize"; ilit "summarise"; ilit "tldr"; ilit "tl;dr";
  seqs [ilit "yes"; sp; ilit "or"; sp; ilit "no"];
  seqs [ilit "true"; sp; ilit "or"; sp; ilit "false"];
  seqs [ilit "what"; sp; ilit "is"];
  seqs [ilit "who"; sp; ilit "is"];
  seqs [ilit "when"; sp; ilit "did"];
  seqs [ilit "where"; sp; ilit "is"];
  ilit "define"; ilit "list"; ilit "name"; ilit "count";
  seqs [ilit "fix"; sp; alts [ilit "this"; ilit "the"]; sp;
        alts [ilit "typo"; ilit "spelling"; ilit "grammar"]];
  ilit "convert"; ilit "format"; ilit "reformat";
  seqs [u_uml; ilit "bersetz"; e_sp];
  ilit "zusammenfass";
  seqs [ilit "fass"; e_sp; Star dot; ilit "zusammen"];
  seqs [ilit "ja"; sp; ilit "oder"; sp; ilit "nein"];
  seqs [ilit "richtig"; sp; ilit "oder"; sp; ilit "falsch"];
  seqs [ilit "was"; sp; ilit "ist"];
  seqs [ilit "wer"; sp; ilit "ist"];
  seqs [ilit "wann"; sp; ilit "war"];
  seqs [ilit "wo"; sp; ilit "ist"];
  seqs [ilit "wie"; sp; ilit "hei"; ioneof ["223"; "s"]%char; ilit "t"];
  ilit "definiere";
  seqs [ilit "z"; a_uml; ilit "hl"; e_sp];
  ilit "nenne"; ilit "auflisten";
  seqs [ilit "korrigiere"; sp; alts [ilit "den"; ilit "die"; ilit "das"]; sp;
        alts [ilit "Tippfehler"; ilit "Rechtschreibung"; ilit "Grammatik"]];
  ilit "konvertiere"; ilit "formatiere"; ilit "umwandeln"
].

(** [CODE_BLOCK_PATTERN = re.compile(r"```[\s\S]*?```")] *)
Definition CODE_BLOCK_PATTERN : regex := seqs [lit "```"; LazyStar any; lit "```"].

Definition _estimate_tokens (text : string) : nat := String.length text / 4.

(** What a part appends to [parts]; [None] is a ["text"] that is no
    [str]. *)
Definition block_text (b : block) : list (option string) :=
  match b with
  | TextBlock t => [Some t]
  | BadTextBlock => [None]
  | ImageBlock => [Some "[IMAGE]"%string]
  | OtherBlock => []
  end.

(** [_extract_text]; the [join] at its end raises [TypeError] when a
    text part brought a ["text"] that is no [str]. *)
Definition _extract_text (messages : list message) : result string :=
  join nl
    (flat_map (fun msg =>
                 match content msg with
                 | Text s => [Some s]
                 | Parts blocks => flat_map block_text blocks
                 end) messages).

(** [[m.group() for m in pattern.finditer(text)]] *)
Definition matches (r : regex) (text : string) : list string :=
  map (fun m => str (matched_text m)) (finditer r text).

(** [l[-1:]] *)
Definition last_one {A} (l : list A) : list A := skipn (List.length l - 1) l.

Definition Qmin (a b : Q) : Q := if Qlt_bool b a then b else a.   (* min(a, b) *)
Definition Qmax (a b : Q) : Q := if Qlt_bool a b then b else a.   (* max(a, b) *)

(** [round(x, 3)]: the decimal with 3 places nearest to the exact
    value of [x], a tie to the even one, read back as a float. *)
Definition round3 (x : Q) : Q :=
  let y := (x * (1000 # 1))%Q in
  let f := Qfloor y in
  let r := (y - (f # 1))%Q in
  let n := if Qlt_bool r (1 # 2) then f
           else if Qlt_bool (1 # 2) r then (f + 1)%Z
           else if Z.even f then f else (f + 1)%Z in
  to_float (n # 1000).

(** A float literal of the source: the float nearest to the decimal. *)
Definition lit64 (q : Q) : Q := to_float q.

(** What a signal does to [score]: nothing, [score += x], [score -= x]. *)
Inductive update : Type :=
| Unchanged
| Plus (x : Q)
| Minus (x : Q).

Definition apply_update (score : Q) (u : update) : Q :=
  match u with
  | Unchanged => score
  | Plus x => float_add score x
  | Minus x => float_sub score x
  end.

(** The signals of [score_request], each with what it does to the
    score and the reasons it appends. *)
Definition token_signal (total_tokens : nat) : update * list reason :=
  if total_tokens <? 50 then (Plus (lit64 (0 # 1)), [VeryShort total_tokens])
  else if total_tokens <? 200 then (Plus (lit64 (1 # 10)), [])
  else if total_tokens <? 800 then (Plus (lit64 (25 # 100)), [MediumLength total_tokens])
  else if total_tokens <? 2000 then (Plus (lit64 (4 # 10)), [Long total_tokens])
  else (Plus (lit64 (5 # 10)), [VeryLong total_tokens]).

Definition depth_signal (num_turns : nat) : update * list reason :=
  if 10 <? num_turns then (Plus (lit64 (15 # 100)), [DeepConversation num_turns])
  else if 4 <? num_turns then (Plus (lit64 (8 # 100)), [MultiTurn num_turns])
  else (Unchanged, []).

Definition tool_signal (tools : option (list tool)) : update * list reason :=
  match tools with
  | None => (Unchanged, [])
  | Some [] => (Unchanged, [])
  | Some tools =>
      let tool_count := List.length tools in
      if 3 <? tool_count then (Plus (lit64 (2 # 10)), [ManyTools tool_count])
      else (Plus (lit64 (1 # 10)), [ToolUse tool_count])
  end.

Definition system_signal (messages : list message) : result (update * list reason) :=
  let system_msgs := filter (has_role "system") messages in
  match system_msgs with
  | [] => Ok (Unchanged, [])
  | _ =>
      rbind (_extract_text system_msgs) (fun system_text =>
      let system_tokens := _estimate_tokens system_text in
      Ok (if 500 <? system_tokens
          then (Plus (lit64 (15 # 100)), [ComplexSystemPrompt system_tokens])
          else if 100 <? system_tokens then (Plus (lit64 (5 # 100)), [])
          else (Unchanged, [])))
  end.

Definition code_signal (full_text : string) : update * list reason :=
  let code_blocks := matches CODE_BLOCK_PATTERN full_text in
  if 2 <? List.length code_blocks
  then (Plus (lit64 (15 # 100)), [MultipleCodeBlocks (List.length code_blocks)])
  else if negb (Nat.eqb (List.length code_blocks) 0) then (Plus (lit64 (5 # 100)), [])
  else (Unchanged, []).

Definition image_signal (full_text : string) : update * list reason :=
  if contains (lit "[IMAGE]") full_text then (Plus (lit64 (1 # 10)), [ContainsImages])
  else (Unchanged, []).

(** [min(0.7, 0.2 + 0.15 * len(complex_matches))] *)
Definition complex_keyword_score (n : nat) : Q :=
  Qmin (lit64 (7 # 10))
       (float_add (lit64 (2 # 10)) (float_mul (lit64 (15 # 100)) (float_of_int (Z.of_nat n)))).

Definition complex_signal (complex_matches : list string) : update * list reason :=
  match complex_matches with
  | [] => (Unchanged, [])
  | _ =>
      let n := List.length complex_matches in
      (Plus (complex_keyword_score n), [ComplexKeywords n (firstn 3 complex_matches)])
  end.

(** [min(0.2, 0.1 * len(moderate_matches))] *)
Definition moderate_keyword_score (n : nat) : Q :=
  Qmin (lit64 (2 # 10)) (float_mul (lit64 (1 # 10)) (float_of_int (Z.of_nat n))).

Definition moderate_signal (moderate_matches : list string) : update * list reason :=
  match moderate_matches with
  | [] => (Unchanged, [])
  | _ =>
      let n := List.length moderate_matches in
      (Plus (moderate_keyword_score n), [ModerateKeywords n (firstn 3 moderate_matches)])
  end.

Definition simple_signal (simple_matches complex_matches moderate_matches : list string)
  : update * list reason :=
  match simple_matches, complex_matches, moderate_matches with
  | _ :: _, [], [] => (Minus (lit64 (15 # 100)), [SimpleKeywords (firstn 3 simple_matches)])
  | _, _, _ => (Unchanged, [])
  end.

(** The score before the clamp, with the reasons in the order they
    are appended. *)
Definition raw_score (messages : list message) (tools : option (list tool))
  : result (Q * list reason) :=
  rbind (_extract_text messages) (fun full_text =>
  let total_tokens := _estimate_tokens full_text in
  let num_turns := List.length messages in
  rbind (system_signal messages) (fun system =>
  let user_msgs := filter (has_role "user") messages in
  rbind (match user_msgs with
         | [] => Ok ""%string
         | _ => _extract_text (last_one user_msgs)
         end) (fun last_user_text =>
  let complex_matches := matches COMPLEX_KEYWORDS last_user_text in
  let moderate_matches := matches MODERATE_KEYWORDS last_user_text in
  let simple_matches := matches SIMPLE_KEYWORDS last_user_text in
  Ok (fold_left (fun acc sig => (apply_update (fst acc) (fst sig), snd acc ++ snd sig))
        [ token_signal total_tokens;
          depth_signal num_turns;
          tool_signal tools;
          system;
          code_signal full_text;
          image_signal full_text;
          complex_signal complex_matches;
          moderate_signal moderate_matches;
          simple_signal simple_matches complex_matches moderate_matches ]
        (lit64 (0 # 1), []))))).

(** [max(0.0, min(1.0, score))] *)
Definition clamp01 (x : Q) : Q := Qmax (lit64 (0 # 1)) (Qmin (lit64 (1 # 1)) x).

Definition is_confident (cfg : RouterConfig) (score : Q) : bool :=
  let low_thresh := heuristic_low_threshold cfg in
  let high_thresh := heuristic_high_threshold cfg in
  let margin := lit64 (1 # 10) in
  Qlt_bool score (float_sub low_thresh margin)
  || (Qle_bool (float_add low_thresh margin) score
      && Qle_bool score (float_sub high_thresh margin))
  || Qlt_bool (float_add high_thresh margin) score.

(** [score_request]; [cfg] is what [get_config()] returns. *)
Definition score_request (cfg : RouterConfig) (messages : list message)
           (tools : option (list tool)) : result HeuristicResult :=
  rbind (raw_score messages tools) (fun '(raw, reasons) =>
  let score := clamp01 raw in
  Ok {| score := round3 score;
        reasons := reasons;
        confident := is_confident cfg score |}).

End Heuristics.

(* ===================================================================== *)
(** ** classifier.py                                                     *)
(* ===================================================================== *)

Module Classifier.
Import Py Re Json Config Models Messages.
Local Open Scope m_scope.
Local Open Scope string_scope.

Definition condense_block (b : block) : list (option string) :=
  match b with
  | TextBlock t => [Some t]
  | BadTextBlock => [None]
  | ImageBlock => [Some "[image]"]
  | OtherBlock => []
  end.

(** [s[:n]] and [s[-n:]] *)
Definition prefix_of (n : nat) (s : string) : string := substring 0 n s.
Definition suffix_of (n : nat) (s : string) : string :=
  substring (String.length s - n) n s.

(** One turn of the loop of [_condense_messages]: the line a message
    contributes; the [join] of a structured content raises [TypeError]
    on a ["text"] that is no [str]. *)
Definition condense_message (msg : message) : result string :=
  let role := match role msg with Some r => r | None => "unknown" end in
  rbind (match content msg with
         | Text s => Ok s
         | Parts blocks => join " " (flat_map condense_block blocks)
         end) (fun content =>
  Ok (role ++ ": " ++ content)).

Definition _condense_messages (messages : list message) (max_chars : nat)
  : result string :=
  rbind (mapM condense_message messages) (fun parts =>
  let full_text := String.concat nl parts in
  Ok (if Nat.ltb max_chars (String.length full_text)
      then prefix_of 500 full_text ++ nl ++ "..." ++ nl ++ suffix_of 1500 full_text
      else full_text)).

Fixpoint drop_while (p : ascii -> bool) (l : list ascii) : list ascii :=
  match l with
  | c :: t => if p c then drop_while p t else l
  | [] => []
  end.

(** [s.strip()] and [s.strip(chars)] *)
Definition strip_by (p : ascii -> bool) (s : string) : string :=
  str (rev (drop_while p (rev (drop_while p (chars s))))).
Definition strip (s : string) : string := strip_by is_space s.

Definition startswith (p s : string) : bool := String.prefix p s.

Definition removeprefix (p s : string) : string :=
  if String.prefix p s
  then substring (String.length p) (String.length s - String.length p) s
  else s.

(** [Tier(n)] for [n] already clamped to [1..3]. *)
Definition tier_of_value (n : Z) : result Tier :=
  match find (fun t => Z.eqb (tier_value t) n) all_tiers with
  | Some t => Ok t
  | None => Raise ValueError
  end.

(** Truthiness of a decoded JSON value. *)
Definition json_truthy (v : json) : bool :=
  match v with
  | JNull => false
  | JBool b => b
  | JInt z => negb (Z.eqb z 0)
  | JFloat (FFin q) => truthy q
  | JFloat _ => true
  | JStr s => negb (String.eqb s "")
  | JArr items => negb (is_empty items)
  | JObj fields => negb (is_empty fields)
  end.

Section Backend.

(** The library decoders the classifier calls: [json.loads] on a
    text, and [int] on a text. They are whatever they are; each may
    raise. *)
Variable json_loads : string -> result json.
Variable int_of_str : string -> result Z.

(** The backend: given the model and the condensed conversation
    posted to it, what [client.post], [raise_for_status] and
    [resp.json()] end in: the decoded reply, or the exception of a
    transport failure, a timeout, an error status or a body that is
    no JSON. *)
Variable backend : string -> string -> result json.

(** [int(x)] *)
Definition py_int (x : json) : result Z :=
  match x with
  | JInt z => Ok z
  | JBool b => Ok (if b then 1 else 0)%Z
  | JFloat FNan => Raise ValueError
  | JFloat (FInf _) => Raise OverflowError
  | JFloat (FFin q) => Ok (Z.quot (Qnum q) (Z.pos (Qden q)))
  | JStr s => int_of_str s
  | JNull | JArr _ | JObj _ => Raise TypeError
  end.

(** [x.strip()], which only a [str] has. *)
Definition str_strip (x : json) : result string :=
  match x with
  | JStr s => Ok (strip s)
  | _ => Raise AttributeError
  end.

(** Line 75: [resp.json()["choices"][0]["message"]["content"].strip()] *)
Definition reply_text (resp_json : json) : result string :=
  rbind (getitem resp_json "choices") (fun choices =>
  rbind (getindex choices 0) (fun choice =>
  rbind (getitem choice "message") (fun message =>
  rbind (getitem message "content") str_strip))).

(** Lines 79-80: a reply wrapped in a code fence loses its fence. *)
Definition unfence (result_text : string) : string :=
  if startswith "```" result_text
  then strip (removeprefix "json" (strip_by (Ascii.eqb "`"%char) result_text))
  else result_text.

(** Lines 82-85: the verdict read off the decoded object. *)
Definition verdict (parsed : json) : result (Tier * json) :=
  rbind (getitem parsed "tier") (fun tier_field =>
  rbind (py_int tier_field) (fun tier_num =>
  rbind (get parsed "reason" (JStr "")) (fun reason =>
  rbind (tier_of_value (Z.max 1 (Z.min 3 tier_num))) (fun tier =>
    Ok (tier, reason))))).

(** The body of the [try] of [classify_complexity], lines 60-91. *)
Definition classify_body (classifier_model condensed : string) : result (Tier * json) :=
  rbind (backend classifier_model condensed) (fun resp_json =>
  rbind (reply_text resp_json) (fun result_text =>
  rbind (json_loads (unfence result_text)) verdict)).

(** [min(l, key=lambda m: m.effective_params).id] *)
Definition smallest_id (l : list ModelInfo) : M string :=
  match min_by effective_params l with
  | Some m => ret (id m)
  | None => raise ValueError
  end.

(** Lines 35-54: the model that classifies, [None] when there is
    none to ask. *)
Definition choose_classifier_model : M (option string) :=
  registry <- get_registry ;;
  cfg <- get_config ;;
  let configured := classifier_model cfg in
  if negb (String.eqb configured "") then ret (Some configured)
  else
    small_models <- by_tier registry SMALL ;;
    if negb (is_empty small_models)
    then (i <- smallest_id small_models ;; ret (Some i))
    else
      reg <- load registry ;;
      if negb (is_empty (models reg))
      then (i <- smallest_id (values (models reg)) ;; ret (Some i))
      else ret None.

Definition classifier_error : Tier * json :=
  (MEDIUM, JStr "classifier error, defaulting to medium").

(** [classify_complexity]; the reason is the decoded ["reason"]
    field, whatever its type. The conversation is condensed (line 57)
    before the [try] is entered (line 59). *)
Definition classify_complexity (messages : list message) : M (Tier * json) :=
  chosen <- choose_classifier_model ;;
  match chosen with
  | None => ret (MEDIUM, JStr "no classifier model available")
  | Some classifier_model =>
      condensed <- lift (_condense_messages messages 2000) ;;
      lift (try_except (classify_body classifier_model condensed)
                       (Ok classifier_error))
  end.

End Backend.

End Classifier.

(* ===================================================================== *)
(** ** router.py                                                         *)
(* ===================================================================== *)

Module Router.
Import Py Re Json Config Models Messages Heuristics Classifier.
Local Open Scope m_scope.
Local Open Scope string_scope.

Definition _score_to_tier (cfg : RouterConfig) (score : Q) : Tier :=
  if Qle_bool score (heuristic_low_threshold cfg) then SMALL
  else if Qle_bool (heuristic_high_threshold cfg) score then LARGE
  else MEDIUM.

Definition code_indicators : regex := keywords (map ilit [
  "code"; "function"; "class"; "implement"; "bug"; "error"; "exception";
  "stacktrace"; "api"; "endpoint"; "database"; "query"; "sql"; "html"; "css";
  "javascript"; "python"; "typescript"; "rust"; "golang"; "java"; "refactor";
  "test"; "unittest";
  "implementiere"; "debugge"; "Quellcode"; "Quelltext"; "Programmier";
  "kompilier"; "Algorithmus"; "Algorithmen"; "Skript" ]).

Definition code_fence : regex := lit "```".

Definition looks_like_code (text : string) : bool :=
  contains code_indicators text || contains code_fence text.

(** [l[-3:]] *)
Definition last_three {A} (l : list A) : list A := skipn (List.length l - 3) l.

(** The loop over the parts of one content: [True] at the first text
    that looks like code; [search] raises [TypeError] on a ["text"] that
    is no [str]. *)
Fixpoint scan_blocks (blocks : list block) : result bool :=
  match blocks with
  | [] => Ok false
  | TextBlock text :: rest => if looks_like_code text then Ok true else scan_blocks rest
  | BadTextBlock :: _ => Raise TypeError
  | _ :: rest => scan_blocks rest
  end.

(** The loop over the messages. *)
Fixpoint scan_messages (user_msgs : list message) : result bool :=
  match user_msgs with
  | [] => Ok false
  | msg :: rest =>
      match content msg with
      | Text s => if looks_like_code s then Ok true else scan_messages rest
      | Parts blocks =>
          rbind (scan_blocks blocks) (fun hit =>
          if hit then Ok true else scan_messages rest)
      end
  end.

Definition _is_coding_request (messages : list message) : result bool :=
  scan_messages (last_three (filter (has_role "user") messages)).

(** The values a metadata dict holds. *)
Inductive value : Type :=
| VStr (s : string)
| VFloat (q : Q)
| VBool (b : bool)
| VReasons (l : list reason)
| VJson (v : json).

Definition metadata : Type := list (string * value).

Section Environment.

Variable json_loads : string -> result json.
Variable int_of_str : string -> result Z.
Variable backend : string -> string -> result json.

(** What the refresh at the head of the request meets: the clock,
    the outcome of the model listing, the configuration file. *)
Variable now : Q.
Variable listing : result json.
Variable disk : option RouterConfig.

Definition route_request (messages : list message) (tools : option (list tool))
           (requested_model : option string) : M (ModelInfo * metadata) :=
  registry <- refresh_models false now listing disk ;;
  reg <- load registry ;;
  let explicit :=
    match requested_model with
    | Some name => if String.eqb name "" then None
                   else match assoc name (models reg) with
                        | Some model => Some (name, model)
                        | None => None
                        end
    | None => None
    end in
  match explicit with
  | Some (name, model) =>
      ret (model, [("routing", VStr "explicit"); ("requested_model", VStr name)])
  | None =>
      cfg <- get_config ;;
      heuristic <- lift (score_request cfg messages tools) ;;
      decided <-
        (if confident heuristic
         then ret (_score_to_tier cfg (score heuristic), "heuristic", JStr "")
         else
           tr <- classify_complexity json_loads int_of_str backend messages ;;
           ret (fst tr, "classifier", snd tr)) ;;
      let '(tier, routing_method, classifier_reason) := decided in
      prefer_coder <- lift (_is_coding_request messages) ;;
      selected <- get_model_for_tier registry tier prefer_coder ;;
      match selected with
      | None => raise (RuntimeError "No models available for routing")
      | Some model =>
          let metadata :=
            [ ("routing", VStr routing_method);
              ("heuristic_score", VFloat (score heuristic));
              ("heuristic_reasons", VReasons (reasons heuristic));
              ("tier", VStr (tier_name tier));
              ("selected_model", VStr (id model));
              ("prefer_coder", VBool prefer_coder) ] in
          ret (model,
               if json_truthy classifier_reason
               then (metadata ++ [("classifier_reason", VJson classifier_reason)])%list
               else metadata)
      end
  end.

End Environment.

End Router.

(* ===================================================================== *)
(** ** The specification's vocabulary                                    *)
(* ===================================================================== *)

Module Spec.
Import Py Json Config Models Messages Heuristics Classifier Router.

(** The models of tier [t], in the order of the registry. *)
Definition in_tier (reg : ModelRegistry) (t : Tier) : list ModelInfo :=
  filter (fun m => tier_eqb (tier m) t) (values (models reg)).

(** The models of the first tier of [tiers] that has any. *)
Definition first_nonempty (reg : ModelRegistry) (tiers : list Tier) : list ModelInfo :=
  match find (fun ft => negb (is_empty (in_tier reg ft))) tiers with
  | Some ft => in_tier reg ft
  | None => []
  end.

(** The strictly higher tiers in ascending order, the strictly lower
    tiers in descending order. *)
Definition higher_ascending (t : Tier) : list Tier :=
  filter (fun ft => tier_ltb t ft) [SMALL; MEDIUM; LARGE].
Definition lower_descending (t : Tier) : list Tier :=
  filter (fun ft => tier_ltb ft t) [LARGE; MEDIUM; SMALL].

(** The candidates as the specification words them: the models of [t];
    if there are none, those of the first non-empty strictly higher
    tier; if there is none, those of the first non-empty strictly lower
    tier. *)
Definition spec_candidates (reg : ModelRegistry) (t : Tier) : list ModelInfo :=
  if negb (is_empty (in_tier reg t)) then in_tier reg t
  else if negb (is_empty (first_nonempty reg (higher_ascending t)))
       then first_nonempty reg (higher_ascending t)
       else first_nonempty reg (lower_descending t).

(** [m] is a model of [l] of largest [effective_params]. *)
Definition largest_of (l : list ModelInfo) (m : ModelInfo) : Prop :=
  In m l /\ forall x, In x l -> (effective_params x <= effective_params m)%Q.

Definition non_coder (m : ModelInfo) : bool := negb (is_coder m).

(** The non-coder models of tier [t]. *)
Definition noncoders (reg : ModelRegistry) (t : Tier) : list ModelInfo :=
  filter non_coder (in_tier reg t).

(** The first tier, in enumeration order, that has a non-coder model. *)
Definition first_noncoder_tier (reg : ModelRegistry) : option Tier :=
  find (fun ft => negb (is_empty (noncoders reg ft))) all_tiers.

(** What the loops of [get_model_for_tier] compute, as functions of the
    registry read. *)
Fixpoint fallback_pure (reg : ModelRegistry) (keep : Tier -> bool) (tiers : list Tier)
         (c : list ModelInfo) : list ModelInfo :=
  match tiers with
  | [] => c
  | ft :: rest =>
      if keep ft
      then (if is_empty (in_tier reg ft) then fallback_pure reg keep rest (in_tier reg ft)
            else in_tier reg ft)
      else fallback_pure reg keep rest c
  end.

Fixpoint general_pure (reg : ModelRegistry) (t : Tier) (tiers : list Tier) : option ModelInfo :=
  match tiers with
  | [] => None
  | ft :: rest =>
      if negb (tier_eqb ft t)
      then (if is_empty (noncoders reg ft) then general_pure reg t rest
            else max_by effective_params (noncoders reg ft))
      else general_pure reg t rest
  end.

Definition get_model_pure (reg : ModelRegistry) (t : Tier) (prefer_coder : bool)
  : option ModelInfo :=
  let c := spec_candidates reg t in
  if is_empty c then None
  else if prefer_coder then
    (if is_empty (filter is_coder c) then max_by effective_params c
     else max_by effective_params (filter is_coder c))
  else
    (if is_empty (filter non_coder c)
     then match general_pure reg t all_tiers with
          | Some m => Some m
          | None => max_by effective_params c
          end
     else max_by effective_params (filter non_coder c)).

(** A model listing as the backend sends it. *)
Definition listing_of (ids : list string) : json :=
  JObj [("data"%string,
         JArr (map (fun i => JObj [("id"%string, JStr i); ("object"%string, JStr "model")]) ids));
        ("object"%string, JStr "list")].

(** The process after one forced refresh against a backend that lists
    [ids], with no configuration file. *)
Definition world_listing (ids : list string) : World :=
  snd (refresh_models true (1000 # 1) (Ok (listing_of ids)) None initial_world).

(** The rule for a request that does not prefer a coder, in the words
    "returns the largest non-coder found among the other tiers": when
    every candidate is a coder model, no non-coder model of the registry
    exceeds the returned one. *)
Definition other_tier_rule_as_stated (w : World) (self : nat) (t : Tier) : Prop :=
  let reg := deref w self in
  (forall x, In x (spec_candidates reg t) -> is_coder x = true) ->
  forall m, fst (get_model_for_tier self t false w) = Ok (Some m) ->
  forall x, In x (values (models reg)) -> is_coder x = false ->
            (effective_params x <= effective_params m)%Q.

(** [effective_params] in the words "total if present (a zero included),
    else active if present, else 0". *)
Definition effective_params_as_stated (m : ModelInfo) : Q :=
  match total_params m with
  | Some q => q
  | None => match active_params m with Some a => a | None => 0%Q end
  end.

(** [effective_params] with a zero count read as absent. *)
Definition effective_params_amended (m : ModelInfo) : Q :=
  let otherwise := match active_params m with Some a => a | None => 0%Q end in
  match total_params m with
  | Some q => if Qeq_bool q 0%Q then otherwise else q
  | None => otherwise
  end.

(** The model carries a parameter count to classify by: a total count
    that is not zero, or an active count. *)
Definition params_known (m : ModelInfo) : Prop :=
  (exists q, total_params m = Some q /\ ~ (q == 0)%Q)
  \/ (exists a, active_params m = Some a).

(** Tier monotonicity over every two model ids, as stated. *)
Definition tier_monotone_as_stated : Prop :=
  forall id1 id2 m1 m2,
    _build_model_info Config.default id1 = Ok (Some m1) ->
    _build_model_info Config.default id2 = Ok (Some m2) ->
    (effective_params m1 <= effective_params m2)%Q ->
    tier_le (tier m1) (tier m2).

(** A refresh is due: [refresh_models] is forced or the
    cached registry is older than the TTL. *)
Definition refresh_due (force : bool) (now : Q) (w : World) : Prop :=
  negb force
  && Qlt_bool (now - _last_refresh (deref w (_registry w)))%Q (model_cache_ttl (_config w))
  = false.

(** The configuration [load_config] installs. *)
Definition loaded_config (disk : option RouterConfig) : RouterConfig :=
  match disk with Some c => c | None => Config.default end.

(** The registry a listing yields under a configuration: rebuilt from
    the listing alone. *)
Definition built_registry (cfg : RouterConfig) (now : Q) (data : json)
  : result ModelRegistry :=
  rbind (rbind (get data "data" (JArr [])) iterate) (fun entries =>
  rbind (build_models cfg cfg entries []) (fun new_models =>
    Ok {| models := new_models; _last_refresh := now |})).

(** The six entries the specification lists for the metadata record. *)
Definition audit_keys : list string :=
  ["routing"; "heuristic_score"; "heuristic_reasons"; "tier"; "selected_model";
   "prefer_coder"]%string.

Definition has_key (k : string) (md : metadata) : Prop := assoc k md <> None.

(** The metadata of every routed request holds all six, as stated. *)
Definition metadata_complete_as_stated : Prop :=
  forall json_loads int_of_str backend now listing disk messages tools requested_model
         w model md w',
    route_request json_loads int_of_str backend now listing disk
                  messages tools requested_model w = (Ok (model, md), w') ->
    forall k, In k audit_keys -> has_key k md.

(** What the loop of [refresh_models] registers under the key [k]: the
    [ModelInfo] built from [k], enabled by the configuration, with the
    tier override applied. *)
Definition registered (cfg router_cfg : RouterConfig) (k : string) (m : ModelInfo) : Prop :=
  exists info,
    _build_model_info cfg k = Ok (Some info) /\
    is_model_enabled router_cfg k = true /\
    m = apply_tier_override router_cfg k info.

(** Every text part of the messages carries a [str] as its ["text"]. *)
Definition text_is_str (b : block) : bool :=
  match b with BadTextBlock => false | _ => true end.

Definition texts_are_str (messages : list message) : bool :=
  forallb (fun msg => match content msg with
                      | Text _ => true
                      | Parts blocks => forallb text_is_str blocks
                      end) messages.

(** The strings [_extract_text] joins when every text is a [str]. *)
Definition text_of_block (b : block) : list string :=
  match b with
  | TextBlock t => [t]
  | ImageBlock => ["[IMAGE]"%string]
  | _ => []
  end.

Definition text_parts (messages : list message) : list string :=
  flat_map (fun msg => match content msg with
                       | Text s => [s]
                       | Parts blocks => flat_map text_of_block blocks
                       end) messages.

(** What a signal may do to the score: add at most [c], or deduct [c]. *)
Definition adds_at_most (c : Q) (u : update) : Prop :=
  match u with
  | Unchanged => True
  | Plus x => (0 <= x <= c)%Q
  | Minus _ => False
  end.

Definition deducts (c : Q) (u : update) : Prop :=
  match u with
  | Unchanged => True
  | Plus _ => False
  | Minus x => x = c
  end.

(** [score_request] returns a score in [0, 1] for every list of
    messages, as stated. *)
Definition score_in_unit_interval_as_stated : Prop :=
  forall cfg messages tools, exists h,
    score_request cfg messages tools = Ok h /\ (0 <= score h <= 1)%Q.

(** [classify_complexity] never raises, for every list of messages, as
    stated. *)
Definition never_raises_as_stated : Prop :=
  forall json_loads int_of_str backend messages w, exists t r,
    fst (classify_complexity json_loads int_of_str backend messages w) = Ok (t, r).

(** The bounds of the confidence test under the default thresholds, as
    binary64 computes them: [0.3 - 0.1], [0.3 + 0.1], [0.7 - 0.1] and
    [0.7 + 0.1], that is 0.19999999999999998, 0.4, 0.6 and
    0.7999999999999999. *)
Definition small_below : Q := 7205759403792793 # 36028797018963968.
Definition medium_from : Q := 3602879701896397 # 9007199254740992.
Definition medium_upto : Q := 5404319552844595 # 9007199254740992.
Definition large_above : Q := 7205759403792793 # 9007199254740992.

End Spec.

(* ===================================================================== *)
(** ** Proofs                                                            *)
(* ===================================================================== *)

Import Py Re Json Config Models Messages Heuristics Classifier Router Spec.
Unset Implicit Arguments.

(** *** Running monadic code *)

Lemma bind_run {A B} (m : M A) (f : A -> M B) w a w' (H : m w = (Ok a, w')) :
  bind m f w = f a w'.
Proof. unfold bind. rewrite H. reflexivity. Qed.
Arguments bind_run {A B m} f {w a w'} H.

Lemma is_empty_false {A} (l : list A) : is_empty l = false -> l <> [].
Proof. destruct l; simpl; congruence. Qed.

Lemma is_empty_true {A} (l : list A) : is_empty l = true -> l = [].
Proof. destruct l; simpl; congruence. Qed.

(** *** [max] with a key *)

Lemma Qlt_bool_true a b : Qlt_bool a b = true -> (a < b)%Q.
Proof.
  unfold Qlt_bool. intros H. apply negb_true_iff in H.
  apply Qnot_le_lt. intros Hle. apply Qle_bool_iff in Hle. congruence.
Qed.

Lemma Qlt_bool_false a b : Qlt_bool a b = false -> (b <= a)%Q.
Proof.
  unfold Qlt_bool. intros H. apply negb_false_iff in H. apply Qle_bool_iff, H.
Qed.

Lemma fold_max_spec {A} (key : A -> Q) (t : list A) : forall x,
  let m := fold_left (fun best y => if Qlt_bool (key best) (key y) then y else best) t x in
  (m = x \/ In m t) /\ (key x <= key m)%Q /\ forall y, In y t -> (key y <= key m)%Q.
Proof.
  induction t as [|a t IH]; intros x; simpl.
  - split; [now left|]. split; [apply Qle_refl|]. intros y [].
  - specialize (IH (if Qlt_bool (key x) (key a) then a else x)).
    simpl in IH. destruct IH as (Hin & Hle & Hall).
    destruct (Qlt_bool (key x) (key a)) eqn:E.
    + apply Qlt_bool_true in E.
      split; [destruct Hin as [->|Hin]; auto|].
      split; [eapply Qle_trans; [apply Qlt_le_weak, E | exact Hle]|].
      intros y [<-|Hy]; auto.
    + apply Qlt_bool_false in E.
      split; [destruct Hin as [->|Hin]; auto|].
      split; [exact Hle|].
      intros y [<-|Hy]; auto. eapply Qle_trans; eauto.
Qed.

Lemma max_by_spec {A} (key : A -> Q) (l : list A) m :
  max_by key l = Some m -> In m l /\ forall x, In x l -> (key x <= key m)%Q.
Proof.
  destruct l as [|x t]; simpl; [discriminate|].
  intros H. injection H as <-.
  destruct (fold_max_spec key t x) as (Hin & Hle & Hall).
  split; [destruct Hin as [->|Hin]; auto|].
  intros y [<-|Hy]; auto.
Qed.

Lemma max_by_some {A} (key : A -> Q) (l : list A) :
  l <> [] -> exists m, max_by key l = Some m.
Proof. destruct l; [congruence|]. intros _. simpl. eauto. Qed.

(** *** The registry queries, run *)

Lemma by_tier_run self t w : by_tier self t w = (Ok (in_tier (deref w self) t), w).
Proof. reflexivity. Qed.

Lemma fallback_loop_run tiers : forall self keep c w,
  fallback_loop self keep tiers c w = (Ok (fallback_pure (deref w self) keep tiers c), w).
Proof.
  induction tiers as [|ft rest IH]; intros self keep c w; simpl.
  - reflexivity.
  - destruct (keep ft).
    + rewrite (bind_run _ (by_tier_run self ft w)).
      destruct (is_empty (in_tier (deref w self) ft)); [apply IH | reflexivity].
    + apply IH.
Qed.

(** Case analysis on which tiers of a registry have models. *)
Ltac tier_cases reg :=
  let ES := fresh "ES" in
  let EM := fresh "EM" in
  let EL := fresh "EL" in
  cbn [all_tiers rev app fallback_pure tier_ltb tier_value Z.ltb Z.compare
       Pos.compare Pos.compare_cont filter find];
  destruct (in_tier reg SMALL) eqn:ES;
  destruct (in_tier reg MEDIUM) eqn:EM;
  destruct (in_tier reg LARGE) eqn:EL;
  cbn [is_empty negb find]; rewrite ?ES, ?EM, ?EL; cbn [is_empty negb find].

Lemma select_candidates_run self t w :
  select_candidates self t w = (Ok (spec_candidates (deref w self) t), w).
Proof.
  unfold select_candidates.
  rewrite (bind_run _ (by_tier_run self t w)).
  set (reg := deref w self).
  assert (H1 : (if is_empty (in_tier reg t)
                then fallback_loop self (fun ft => tier_ltb t ft) all_tiers (in_tier reg t)
                else ret (in_tier reg t)) w
               = (Ok (if is_empty (in_tier reg t)
                      then fallback_pure reg (fun ft => tier_ltb t ft) all_tiers (in_tier reg t)
                      else in_tier reg t), w)).
  { destruct (is_empty (in_tier reg t)); [apply fallback_loop_run | reflexivity]. }
  rewrite (bind_run _ H1). clear H1.
  match goal with |- (if is_empty ?c then _ else _) w = _ => set (c1 := c) end.
  assert (H2 : (if is_empty c1
                then fallback_loop self (fun ft => tier_ltb ft t) (rev all_tiers) c1
                else ret c1) w
               = (Ok (if is_empty c1
                      then fallback_pure reg (fun ft => tier_ltb ft t) (rev all_tiers) c1
                      else c1), w)).
  { destruct (is_empty c1); [apply fallback_loop_run | reflexivity]. }
  rewrite H2. f_equal. f_equal. subst c1.
  unfold spec_candidates, first_nonempty, higher_ascending, lower_descending.
  destruct t; tier_cases reg; reflexivity.
Qed.

Lemma largest_some_run l w :
  l <> [] ->
  bind (largest l) (fun m => ret (Some m)) w = (Ok (max_by effective_params l), w).
Proof.
  intros Hl. destruct l as [|x l]; [congruence|]. reflexivity.
Qed.

Lemma general_loop_run tiers : forall self t w,
  general_loop self t tiers w = (Ok (general_pure (deref w self) t tiers), w).
Proof.
  induction tiers as [|ft rest IH]; intros self t w; simpl.
  - reflexivity.
  - destruct (negb (tier_eqb ft t)); [|apply IH].
    rewrite (bind_run _ (by_tier_run self ft w)).
    change (filter (fun m => negb (is_coder m)) (in_tier (deref w self) ft))
      with (noncoders (deref w self) ft).
    destruct (is_empty (noncoders (deref w self) ft)) eqn:E; [apply IH|].
    apply largest_some_run, is_empty_false, E.
Qed.

Lemma get_model_for_tier_run self t pc w :
  get_model_for_tier self t pc w = (Ok (get_model_pure (deref w self) t pc), w).
Proof.
  unfold get_model_for_tier, get_model_pure.
  rewrite (bind_run _ (select_candidates_run self t w)).
  set (c := spec_candidates (deref w self) t).
  destruct (is_empty c) eqn:Ec; [reflexivity|].
  apply is_empty_false in Ec.
  destruct pc.
  - destruct (is_empty (filter is_coder c)) eqn:E.
    + apply largest_some_run, Ec.
    + apply largest_some_run, is_empty_false, E.
  - change (filter (fun m => negb (is_coder m)) c) with (filter non_coder c).
    destruct (is_empty (filter non_coder c)) eqn:E.
    + rewrite (bind_run _ (general_loop_run all_tiers self t w)).
      destruct (general_pure (deref w self) t all_tiers); [reflexivity|].
      apply largest_some_run, Ec.
    + apply largest_some_run, is_empty_false, E.
Qed.

(** *** Where the selected model comes from *)

Lemma in_in_tier reg m :
  In m (values (models reg)) -> In m (in_tier reg (tier m)).
Proof.
  intros H. unfold in_tier. apply filter_In. split; [exact H|].
  unfold tier_eqb. apply Z.eqb_refl.
Qed.

Lemma in_tier_sub reg t m :
  In m (in_tier reg t) -> In m (values (models reg)) /\ tier m = t.
Proof.
  unfold in_tier. intros H. apply filter_In in H. destruct H as [H1 H2]. split; [exact H1|].
  unfold tier_eqb in H2. apply Z.eqb_eq in H2.
  destruct (tier m), t; simpl in H2; congruence.
Qed.

Lemma candidates_cases reg t :
  spec_candidates reg t = []
  \/ exists ft, spec_candidates reg t = in_tier reg ft /\ in_tier reg ft <> [].
Proof.
  unfold spec_candidates, first_nonempty, higher_ascending, lower_descending.
  destruct t; tier_cases reg;
  first [ now left
        | right; exists SMALL; rewrite ES; split; [reflexivity|discriminate]
        | right; exists MEDIUM; rewrite EM; split; [reflexivity|discriminate]
        | right; exists LARGE; rewrite EL; split; [reflexivity|discriminate] ].
Qed.

Lemma candidates_empty reg t :
  spec_candidates reg t = [] -> models reg = [].
Proof.
  intros H.
  destruct (models reg) as [|[k m] l] eqn:E; [reflexivity|exfalso].
  assert (Hin : In m (in_tier reg (tier m))).
  { apply in_in_tier. rewrite E. now left. }
  revert H Hin.
  unfold spec_candidates, first_nonempty, higher_ascending, lower_descending.
  destruct t; tier_cases reg;
  try discriminate; intros _; destruct (tier m); rewrite ?ES, ?EM, ?EL; intros [].
Qed.

Lemma candidates_nil reg t : models reg = [] -> spec_candidates reg t = [].
Proof.
  intros H.
  assert (Hn : forall ft, in_tier reg ft = []) by (intros ft; unfold in_tier; rewrite H; reflexivity).
  unfold spec_candidates, first_nonempty.
  rewrite Hn. cbn [is_empty negb].
  assert (Hf : forall l, find (fun ft => negb (is_empty (in_tier reg ft))) l = None).
  { induction l as [|a l IH]; simpl; [reflexivity|]. rewrite Hn. simpl. exact IH. }
  rewrite !Hf. reflexivity.
Qed.

Lemma candidates_sub reg t m : In m (spec_candidates reg t) -> In m (values (models reg)).
Proof.
  destruct (candidates_cases reg t) as [->|(ft & -> & _)]; [intros []|].
  intros H. apply in_tier_sub in H. tauto.
Qed.

Lemma general_pure_sub reg t tiers m :
  general_pure reg t tiers = Some m -> In m (values (models reg)).
Proof.
  induction tiers as [|ft rest IH]; simpl; [discriminate|].
  destruct (negb (tier_eqb ft t)); [|exact IH].
  destruct (is_empty (noncoders reg ft)); [exact IH|].
  intros H. apply max_by_spec in H. destruct H as [H _].
  unfold noncoders in H. apply filter_In in H. destruct H as [H _].
  apply in_tier_sub in H. tauto.
Qed.

Lemma get_model_pure_sub reg t pc m :
  get_model_pure reg t pc = Some m -> In m (values (models reg)).
Proof.
  unfold get_model_pure.
  destruct (is_empty (spec_candidates reg t)); [discriminate|].
  assert (Hc : forall l, (forall x, In x l -> In x (spec_candidates reg t)) ->
                         max_by effective_params l = Some m -> In m (values (models reg))).
  { intros l Hl H. apply max_by_spec in H. apply (candidates_sub reg t), Hl, H. }
  destruct pc.
  - destruct (is_empty (filter is_coder (spec_candidates reg t))).
    + apply Hc; auto.
    + apply Hc. intros x Hx. apply filter_In in Hx. tauto.
  - destruct (is_empty (filter non_coder (spec_candidates reg t))).
    + destruct (general_pure reg t all_tiers) eqn:G.
      * intros H. injection H as <-. eapply general_pure_sub, G.
      * apply Hc; auto.
    + apply Hc. intros x Hx. apply filter_In in Hx. tauto.
Qed.

Lemma get_model_pure_none reg t pc :
  get_model_pure reg t pc = None <-> models reg = [].
Proof.
  split.
  - unfold get_model_pure.
    destruct (is_empty (spec_candidates reg t)) eqn:E.
    + intros _. apply (candidates_empty reg t), is_empty_true, E.
    + apply is_empty_false in E.
      destruct (max_by_some effective_params _ E) as [m0 Hm0].
      destruct pc.
      * destruct (is_empty (filter is_coder (spec_candidates reg t))) eqn:E2.
        -- congruence.
        -- apply is_empty_false in E2.
           destruct (max_by_some effective_params _ E2) as [m1 ->]. discriminate.
      * destruct (is_empty (filter non_coder (spec_candidates reg t))) eqn:E2.
        -- destruct (general_pure reg t all_tiers); congruence.
        -- apply is_empty_false in E2.
           destruct (max_by_some effective_params _ E2) as [m1 ->]. discriminate.
  - intros H. unfold get_model_pure. rewrite (candidates_nil reg t H). reflexivity.
Qed.

Lemma filter_non_coder_empty l x :
  filter non_coder l = [] -> In x l -> is_coder x = true.
Proof.
  intros E Hx. destruct (is_coder x) eqn:C; [reflexivity|].
  assert (H : In x (filter non_coder l)).
  { apply filter_In. split; [exact Hx|]. unfold non_coder. rewrite C. reflexivity. }
  rewrite E in H. destruct H.
Qed.

Lemma general_pure_non_coder reg t tiers m :
  general_pure reg t tiers = Some m -> is_coder m = false.
Proof.
  induction tiers as [|ft rest IH]; simpl; [discriminate|].
  destruct (negb (tier_eqb ft t)); [|exact IH].
  destruct (is_empty (noncoders reg ft)); [exact IH|].
  intros H. apply max_by_spec in H. destruct H as [H _].
  unfold noncoders in H. apply filter_In in H. destruct H as [_ H].
  unfold non_coder in H. destruct (is_coder m); [discriminate|reflexivity].
Qed.

Lemma medium_only_filters (l : list ModelInfo) :
  (forall m, In m l -> tier m = MEDIUM) ->
  filter (fun m => tier_eqb (tier m) SMALL) l = [] /\
  filter (fun m => tier_eqb (tier m) MEDIUM) l = l.
Proof.
  induction l as [|a l IH]; intros H; [split; reflexivity|].
  destruct IH as [IH1 IH2]; [intros m Hm; apply H; now right|].
  simpl. rewrite (H a (or_introl eq_refl)). simpl. rewrite IH1, IH2. split; reflexivity.
Qed.

Lemma medium_only_candidates reg :
  models reg <> [] ->
  (forall m, In m (values (models reg)) -> tier m = MEDIUM) ->
  spec_candidates reg SMALL = values (models reg).
Proof.
  intros Hne Hall.
  destruct (medium_only_filters _ Hall) as [HS HM].
  assert (Hv : values (models reg) <> []).
  { unfold values. destruct (models reg); [congruence|discriminate]. }
  assert (HM' : negb (is_empty (in_tier reg MEDIUM)) = true).
  { unfold in_tier. rewrite HM. destruct (values (models reg)); [congruence|reflexivity]. }
  unfold spec_candidates, first_nonempty, higher_ascending.
  change (in_tier reg SMALL) with (filter (fun m => tier_eqb (tier m) SMALL) (values (models reg))).
  rewrite HS. cbn [is_empty negb filter tier_ltb tier_value Z.ltb Z.compare Pos.compare
                   Pos.compare_cont find].
  rewrite HM'. rewrite HM'. unfold in_tier. exact HM.
Qed.

(** Where the model returned comes from: it is one of the candidates,
    unless the request does not prefer a coder and every candidate is a
    coder model, when it may be a non-coder model of another tier. *)
Lemma get_model_pure_origin reg t pc m :
  get_model_pure reg t pc = Some m ->
  In m (spec_candidates reg t) \/
  (pc = false /\ (forall x, In x (spec_candidates reg t) -> is_coder x = true)
   /\ is_coder m = false).
Proof.
  unfold get_model_pure.
  destruct (is_empty (spec_candidates reg t)); [discriminate|].
  assert (Hc : forall l, (forall x, In x l -> In x (spec_candidates reg t)) ->
                         max_by effective_params l = Some m -> In m (spec_candidates reg t)).
  { intros l Hl H. apply max_by_spec in H. apply Hl, H. }
  destruct pc.
  - destruct (is_empty (filter is_coder (spec_candidates reg t))).
    + intros H. left. revert H. apply Hc; auto.
    + intros H. left. revert H. apply Hc. intros x Hx. apply filter_In in Hx. tauto.
  - destruct (is_empty (filter non_coder (spec_candidates reg t))) eqn:E.
    + destruct (general_pure reg t all_tiers) eqn:G.
      * intros H. injection H as <-. right. split; [reflexivity|]. split.
        -- intros x. apply filter_non_coder_empty, is_empty_true, E.
        -- eapply general_pure_non_coder, G.
      * intros H. left. revert H. apply Hc; auto.
    + intros H. left. revert H. apply Hc. intros x Hx. apply filter_In in Hx. tauto.
Qed.

(** *** C1 *)

(** C1. [get_model_for_tier] always returns; it returns [None] exactly
    when the registry has no models; its candidates are the models of
    the requested tier, else of the first non-empty strictly higher tier
    in ascending order, else of the first non-empty strictly lower tier
    in descending order; the model it returns is a model of the registry
    and one of these candidates, unless the request does not prefer a
    coder and every candidate is a coder model, when it is a candidate
    or a non-coder model of the registry; and on a registry whose models
    are all MEDIUM a SMALL request returns a MEDIUM model of the
    registry, one of the candidates. *)
Theorem get_model_for_tier_null_iff_empty (w : World) (self : nat) (t : Tier)
        (prefer_coder : bool) :
  let reg := deref w self in
  (exists r, fst (get_model_for_tier self t prefer_coder w) = Ok r) /\
  (fst (get_model_for_tier self t prefer_coder w) = Ok None <-> models reg = []) /\
  fst (select_candidates self t w) = Ok (spec_candidates reg t) /\
  (forall m, fst (get_model_for_tier self t prefer_coder w) = Ok (Some m) ->
     In m (values (models reg)) /\
     (In m (spec_candidates reg t) \/
      (prefer_coder = false /\
       (forall x, In x (spec_candidates reg t) -> is_coder x = true) /\
       is_coder m = false))) /\
  (models reg <> [] ->
   (forall m, In m (values (models reg)) -> tier m = MEDIUM) ->
   spec_candidates reg SMALL = values (models reg) /\
   exists m, fst (get_model_for_tier self SMALL prefer_coder w) = Ok (Some m)
             /\ tier m = MEDIUM /\ In m (spec_candidates reg SMALL)).
Proof.
  intros reg. rewrite !get_model_for_tier_run, select_candidates_run. cbn [fst].
  fold reg. split; [eauto|]. split.
  - split.
    + intros H. injection H as H. apply (get_model_pure_none reg t prefer_coder), H.
    + intros H. f_equal. apply get_model_pure_none, H.
  - split; [reflexivity|]. split.
    + intros m H. injection H as H. split.
      * eapply get_model_pure_sub, H.
      * eapply get_model_pure_origin, H.
    + intros Hne Hall.
      assert (Hc : spec_candidates reg SMALL = values (models reg))
        by (apply medium_only_candidates; assumption).
      split; [exact Hc|].
      destruct (get_model_pure reg SMALL prefer_coder) as [m|] eqn:E.
      * exists m. split; [reflexivity|].
        pose proof (get_model_pure_sub _ _ _ _ E) as Hin.
        split; [apply Hall, Hin|]. rewrite Hc. exact Hin.
      * apply get_model_pure_none in E. contradiction.
Qed.

(** A backend that lists two MEDIUM models only: the SMALL request is
    served by a MEDIUM model, one of the two. *)
Lemma get_model_for_tier_medium_only_witness :
  let w := world_listing ["Mistral-Small-3.2-24B"; "gemma-3-27b"]%string in
  models (deref w (_registry w)) <> [] /\
  (forall m, In m (values (models (deref w (_registry w)))) -> tier m = MEDIUM) /\
  exists m, fst (get_model_for_tier (_registry w) SMALL false w) = Ok (Some m)
            /\ tier m = MEDIUM
            /\ In m (spec_candidates (deref w (_registry w)) SMALL).
Proof.
  intros w.
  assert (Hne : models (deref w (_registry w)) <> []) by (vm_compute; discriminate).
  assert (Hall : forall m, In m (values (models (deref w (_registry w)))) -> tier m = MEDIUM).
  { vm_compute. intros m [<-|[<-|[]]]; reflexivity. }
  split; [exact Hne|]. split; [exact Hall|].
  exact (proj2 (proj2 (proj2 (proj2 (proj2
           (get_model_for_tier_null_iff_empty w (_registry w) SMALL false)))) Hne Hall)).
Defined.

(** *** C10 *)

(** C10. [by_tier] and [get_model_for_tier] are read-only: the process
    state after the call, every registry object with its keys and every
    field of every [ModelInfo] included, is the state before it. *)
Theorem registry_queries_read_only (w : World) (self : nat) (t : Tier)
        (prefer_coder : bool) :
  snd (by_tier self t w) = w /\
  snd (get_model_for_tier self t prefer_coder w) = w /\
  models (deref (snd (get_model_for_tier self t prefer_coder w)) self) = models (deref w self).
Proof. rewrite by_tier_run, get_model_for_tier_run. repeat split; reflexivity. Qed.

(** *** C2 *)

Lemma filter_non_coder_nil l :
  (forall x, In x l -> is_coder x = true) -> filter non_coder l = [].
Proof.
  induction l as [|a l IH]; intros H; simpl; [reflexivity|].
  unfold non_coder at 1. rewrite (H a (or_introl eq_refl)). simpl.
  apply IH. intros x Hx. apply H. now right.
Qed.

Lemma filter_non_coder_nonempty l :
  (exists x, In x l /\ is_coder x = false) -> filter non_coder l <> [].
Proof.
  intros (x & Hx & Hc) E.
  assert (H : In x (filter non_coder l)).
  { apply filter_In. split; [exact Hx|]. unfold non_coder. rewrite Hc. reflexivity. }
  rewrite E in H. exact H.
Qed.

Lemma noncoders_requested reg t :
  (forall x, In x (spec_candidates reg t) -> is_coder x = true) -> noncoders reg t = [].
Proof.
  intros H. unfold noncoders. apply filter_non_coder_nil.
  intros x Hx. apply H. unfold spec_candidates.
  destruct (in_tier reg t); [destruct Hx|exact Hx].
Qed.

Lemma general_pure_first reg t :
  noncoders reg t = [] ->
  general_pure reg t all_tiers =
  match first_noncoder_tier reg with
  | Some ft => max_by effective_params (noncoders reg ft)
  | None => None
  end.
Proof.
  intros H. unfold first_noncoder_tier.
  destruct t; cbn -[noncoders max_by]; rewrite ?H; cbn -[noncoders max_by];
  repeat match goal with
         | |- context [is_empty (noncoders reg ?ft)] =>
             destruct (noncoders reg ft) eqn:?; cbn -[noncoders max_by]
         end;
  reflexivity || congruence.
Qed.

Lemma first_noncoder_none reg :
  (forall x, In x (values (models reg)) -> is_coder x = true) ->
  first_noncoder_tier reg = None.
Proof.
  intros H.
  assert (Hn : forall ft, noncoders reg ft = []).
  { intros ft. apply filter_non_coder_nil. intros x Hx. apply H.
    apply in_tier_sub in Hx. tauto. }
  unfold first_noncoder_tier. cbn -[noncoders]. rewrite !Hn. reflexivity.
Qed.

(** C2, amended. For a non-empty registry and a request that does not
    prefer a coder: if some candidate is not a coder model, the largest
    non-coder candidate is returned; if every candidate is a coder
    model, the largest non-coder of the first tier, in enumeration
    order, that has a non-coder model is returned; and if the registry
    has no non-coder model at all, the largest candidate is returned. *)
Theorem get_model_for_tier_general_request (w : World) (self : nat) (t : Tier) :
  let reg := deref w self in
  let c := spec_candidates reg t in
  let result := fst (get_model_for_tier self t false w) in
  models reg <> [] ->
  ((exists x, In x c /\ is_coder x = false) ->
   exists m, result = Ok (Some m) /\ largest_of (filter non_coder c) m /\ is_coder m = false) /\
  ((forall x, In x c -> is_coder x = true) ->
   forall ft, first_noncoder_tier reg = Some ft ->
   exists m, result = Ok (Some m) /\ largest_of (noncoders reg ft) m /\ is_coder m = false) /\
  ((forall x, In x (values (models reg)) -> is_coder x = true) ->
   exists m, result = Ok (Some m) /\ largest_of c m).
Proof.
  intros reg c result Hne. subst result.
  rewrite get_model_for_tier_run. cbn [fst]. fold reg.
  unfold get_model_pure. fold c.
  assert (Hc : c <> []).
  { intros E. apply Hne. exact (candidates_empty reg t E). }
  destruct (is_empty c) eqn:Ec; [apply is_empty_true in Ec; contradiction|].
  assert (Hnc : forall l m, max_by effective_params (filter non_coder l) = Some m ->
                            is_coder m = false).
  { intros l m Hm. apply max_by_spec in Hm. destruct Hm as [Hm _].
    apply filter_In in Hm. destruct Hm as [_ Hm]. unfold non_coder in Hm.
    destruct (is_coder m); [discriminate|reflexivity]. }
  split; [|split].
  - intros Hex. apply filter_non_coder_nonempty in Hex.
    destruct (is_empty (filter non_coder c)) eqn:E;
      [apply is_empty_true in E; contradiction|].
    destruct (max_by_some effective_params _ Hex) as [m Hm].
    exists m. rewrite Hm. split; [reflexivity|]. split.
    + exact (max_by_spec _ _ _ Hm).
    + exact (Hnc _ _ Hm).
  - intros Hall ft Hft.
    rewrite (filter_non_coder_nil c Hall). cbn [is_empty].
    rewrite (general_pure_first reg t (noncoders_requested reg t Hall)), Hft.
    assert (Hft' : noncoders reg ft <> []).
    { unfold first_noncoder_tier in Hft. apply find_some in Hft. destruct Hft as [_ Hft].
      apply negb_true_iff in Hft. apply is_empty_false, Hft. }
    destruct (max_by_some effective_params _ Hft') as [m Hm].
    exists m. rewrite Hm. split; [reflexivity|]. split.
    + exact (max_by_spec _ _ _ Hm).
    + exact (Hnc _ _ Hm).
  - intros Hall.
    assert (Hallc : forall x, In x c -> is_coder x = true).
    { intros x Hx. apply Hall. exact (candidates_sub reg t x Hx). }
    rewrite (filter_non_coder_nil c Hallc). cbn [is_empty].
    rewrite (general_pure_first reg t (noncoders_requested reg t Hallc)).
    rewrite (first_noncoder_none reg Hall).
    destruct (max_by_some effective_params _ Hc) as [m Hm].
    exists m. rewrite Hm. split; [reflexivity|].
    exact (max_by_spec _ _ _ Hm).
Qed.

(** A backend with a 7B general model, a 14B coder and a 70B general
    model: a MEDIUM request that does not prefer a coder is served by the
    7B model of SMALL, the first tier with a non-coder. *)
Lemma get_model_for_tier_general_request_witness :
  let w := world_listing ["mistral-7b"; "qwen2.5-coder-14b"; "llama-70b"]%string in
  models (deref w (_registry w)) <> [] /\
  exists m, fst (get_model_for_tier (_registry w) MEDIUM false w) = Ok (Some m)
            /\ largest_of (noncoders (deref w (_registry w)) SMALL) m
            /\ is_coder m = false.
Proof.
  intros w.
  assert (Hne : models (deref w (_registry w)) <> []) by (vm_compute; discriminate).
  split; [exact Hne|].
  refine (proj1 (proj2 (get_model_for_tier_general_request w (_registry w) MEDIUM Hne))
                _ SMALL _).
  - vm_compute. intros x [<-|[]]. reflexivity.
  - vm_compute. reflexivity.
Defined.

(** C2 as stated fails: with the same backend the 70B general model of
    LARGE is a larger non-coder than the 7B model returned. *)
Lemma other_tier_rule_counterexample :
  ~ other_tier_rule_as_stated
      (world_listing ["mistral-7b"; "qwen2.5-coder-14b"; "llama-70b"]%string) 1 MEDIUM.
Proof.
  unfold other_tier_rule_as_stated. intros H.
  assert (Hq : (70 # 1 <= 7 # 1)%Q).
  { refine (H _ {| id := "mistral-7b"; total_params := Some (7 # 1)%Q; active_params := None;
                   tier := SMALL; is_coder := false |} _
              {| id := "llama-70b"; total_params := Some (70 # 1)%Q; active_params := None;
                 tier := LARGE; is_coder := false |} _ _).
    - vm_compute. intros x [<-|[]]. reflexivity.
    - vm_compute. reflexivity.
    - vm_compute. right. right. left. reflexivity.
    - reflexivity. }
  apply Qle_bool_iff in Hq. vm_compute in Hq. discriminate.
Qed.

(** *** C6 *)

(** C6, amended. [effective_params] is [total_params] if that is present
    and not zero, else [active_params] if present, else 0. *)
Theorem effective_params_zero_is_absent (m : ModelInfo) :
  (effective_params m == effective_params_amended m)%Q.
Proof.
  unfold effective_params, effective_params_amended, or_opt, truthy.
  destruct (total_params m) as [q|], (active_params m) as [a|];
    try destruct (Qeq_bool q 0) eqn:Eq; cbn [negb];
    try destruct (Qeq_bool a 0) eqn:Ea; cbn [negb];
    rewrite ?Eq, ?Ea; cbn [negb]; try reflexivity;
    symmetry; apply Qeq_bool_iff; assumption.
Qed.

(** C6 as stated fails on the model built from the id ["0b-a3b"]: its
    total is 0 and its active count 3, and [effective_params] is 3. *)
Lemma effective_params_zero_total_counterexample :
  exists m, _build_model_info Config.default "0b-a3b" = Ok (Some m)
            /\ total_params m = Some (0 # 1)%Q
            /\ ~ (effective_params m == effective_params_as_stated m)%Q.
Proof.
  eexists. split; [vm_compute; reflexivity|]. split; [reflexivity|].
  intros H. apply Qeq_bool_iff in H. vm_compute in H. discriminate.
Qed.

(** *** C7 *)

Lemma build_model_info_tier cfg model_id m :
  _build_model_info cfg model_id = Ok (Some m) ->
  tier m = match or_opt (total_params m) (active_params m) with
           | Some e => _classify_tier cfg e
           | None => MEDIUM
           end.
Proof.
  unfold _build_model_info.
  destruct (negb (_is_chat_model model_id)); [discriminate|].
  destruct (_extract_params model_id) as [[tp ap]|e]; cbn [rbind]; [|discriminate].
  intros H. injection H as <-. reflexivity.
Qed.

Lemma effective_params_known m e :
  or_opt (total_params m) (active_params m) = Some e -> (effective_params m == e)%Q.
Proof.
  unfold effective_params. intros ->. unfold or_opt, truthy.
  destruct (Qeq_bool e 0) eqn:E; cbn [negb]; [|reflexivity].
  symmetry. apply Qeq_bool_iff, E.
Qed.

Lemma effective_params_unknown m :
  or_opt (total_params m) (active_params m) = None -> effective_params m = 0%Q.
Proof. unfold effective_params. intros ->. reflexivity. Qed.

Lemma classify_tier_compat cfg a b : (a == b)%Q -> _classify_tier cfg a = _classify_tier cfg b.
Proof.
  intros H. unfold _classify_tier.
  rewrite (Qleb_comp a b H (tier1_max_params cfg) (tier1_max_params cfg) (Qeq_refl _)).
  rewrite (Qleb_comp a b H (tier2_max_params cfg) (tier2_max_params cfg) (Qeq_refl _)).
  reflexivity.
Qed.

Lemma classify_tier_monotone cfg a b :
  (a <= b)%Q -> tier_le (_classify_tier cfg a) (_classify_tier cfg b).
Proof.
  intros H. unfold _classify_tier, tier_le.
  destruct (Qle_bool b (tier1_max_params cfg)) eqn:B1.
  - apply Qle_bool_iff in B1.
    assert (A1 : Qle_bool a (tier1_max_params cfg) = true)
      by (apply Qle_bool_iff; eapply Qle_trans; eauto).
    rewrite A1. cbn. lia.
  - destruct (Qle_bool a (tier1_max_params cfg)).
    + destruct (Qle_bool b (tier2_max_params cfg)); cbn; lia.
    + destruct (Qle_bool b (tier2_max_params cfg)) eqn:B2.
      * apply Qle_bool_iff in B2.
        assert (A2 : Qle_bool a (tier2_max_params cfg) = true)
          by (apply Qle_bool_iff; eapply Qle_trans; eauto).
        rewrite A2. cbn. lia.
      * destruct (Qle_bool a (tier2_max_params cfg)); cbn; lia.
Qed.

Lemma params_known_iff m :
  params_known m <-> or_opt (total_params m) (active_params m) <> None.
Proof.
  unfold params_known, or_opt, truthy. split.
  - intros [(q & -> & Hq)|(a & ->)].
    + destruct (Qeq_bool q 0) eqn:E; [apply Qeq_bool_iff in E; contradiction|].
      cbn [negb]. discriminate.
    + destruct (total_params m) as [q|]; [|discriminate].
      destruct (negb (Qeq_bool q 0)); discriminate.
  - destruct (total_params m) as [q|].
    + destruct (Qeq_bool q 0) eqn:E; cbn [negb].
      * intros H. right. destruct (active_params m) as [a|]; [eauto|congruence].
      * intros _. left. exists q. split; [reflexivity|].
        intros Hq. apply Qeq_bool_iff in Hq. congruence.
    + intros H. right. destruct (active_params m) as [a|]; [eauto|congruence].
Qed.

(** C7, amended. Under the default boundaries the tier given to a built
    [ModelInfo] is monotonic in [effective_params] from every model that
    carries a total count other than zero or an active count: if [m1]
    is such a model and [effective_params m1 <= effective_params m2]
    then [tier m1 <= tier m2]. A built model that carries neither (no
    count in its id, or a total of zero alone) has [effective_params] 0
    and the tier MEDIUM. For the boundaries (8, 27): 4 is SMALL, 27 is
    MEDIUM, 32 is LARGE. *)
Theorem tier_monotone_from_known_params :
  (forall id1 id2 m1 m2,
     _build_model_info Config.default id1 = Ok (Some m1) ->
     _build_model_info Config.default id2 = Ok (Some m2) ->
     params_known m1 ->
     (effective_params m1 <= effective_params m2)%Q ->
     tier_le (tier m1) (tier m2)) /\
  (forall id1 m1,
     _build_model_info Config.default id1 = Ok (Some m1) ->
     ~ params_known m1 ->
     tier m1 = MEDIUM /\ effective_params m1 = 0%Q) /\
  _classify_tier Config.default (4 # 1) = SMALL /\
  _classify_tier Config.default (27 # 1) = MEDIUM /\
  _classify_tier Config.default (32 # 1) = LARGE.
Proof.
  split; [|split; [|repeat split; reflexivity]]; cycle 1.
  { intros id1 m1 H1 K1.
    assert (E : or_opt (total_params m1) (active_params m1) = None).
    { destruct (or_opt (total_params m1) (active_params m1)) eqn:E; [|reflexivity].
      exfalso. apply K1, params_known_iff. rewrite E. discriminate. }
    split.
    - rewrite (build_model_info_tier _ _ _ H1), E. reflexivity.
    - apply effective_params_unknown, E. }
  intros id1 id2 m1 m2 H1 H2 K1 Hle.
  rewrite (build_model_info_tier _ _ _ H1), (build_model_info_tier _ _ _ H2).
  apply params_known_iff in K1.
  destruct (or_opt (total_params m1) (active_params m1)) as [e1|] eqn:E1; [|congruence].
  pose proof (effective_params_known m1 e1 E1) as Q1.
  destruct (or_opt (total_params m2) (active_params m2)) as [e2|] eqn:E2.
  - pose proof (effective_params_known m2 e2 E2) as Q2.
    apply classify_tier_monotone. rewrite <- Q1, <- Q2. exact Hle.
  - rewrite (effective_params_unknown m2 E2) in Hle.
    rewrite <- (classify_tier_compat Config.default _ _ Q1).
    assert (S : _classify_tier Config.default (effective_params m1) = SMALL).
    { unfold _classify_tier.
      assert (A : Qle_bool (effective_params m1) (tier1_max_params Config.default) = true).
      { apply Qle_bool_iff. eapply Qle_trans; [exact Hle|]. cbn. discriminate. }
      rewrite A. reflexivity. }
    rewrite S. unfold tier_le. cbn. lia.
Qed.

(** The ids of a 4B and a 27B model: both counts are known, 4 <= 27,
    and SMALL <= MEDIUM. *)
Lemma tier_monotone_from_known_params_witness :
  exists m1 m2,
    _build_model_info Config.default "gemma-3-4b" = Ok (Some m1) /\
    _build_model_info Config.default "gemma-3-27b" = Ok (Some m2) /\
    params_known m1 /\
    (effective_params m1 <= effective_params m2)%Q /\
    tier_le (tier m1) (tier m2).
Proof.
  eexists. eexists.
  assert (H1 : _build_model_info Config.default "gemma-3-4b"
               = Ok (Some {| id := "gemma-3-4b"; total_params := Some (4 # 1)%Q;
                             active_params := None; tier := SMALL; is_coder := false |}))
    by (vm_compute; reflexivity).
  assert (H2 : _build_model_info Config.default "gemma-3-27b"
               = Ok (Some {| id := "gemma-3-27b"; total_params := Some (27 # 1)%Q;
                             active_params := None; tier := MEDIUM; is_coder := false |}))
    by (vm_compute; reflexivity).
  assert (K : params_known {| id := "gemma-3-4b"; total_params := Some (4 # 1)%Q;
                              active_params := None; tier := SMALL; is_coder := false |}).
  { left. exists (4 # 1)%Q. split; [reflexivity|discriminate]. }
  assert (L : (effective_params {| id := "gemma-3-4b"; total_params := Some (4 # 1)%Q;
                                   active_params := None; tier := SMALL; is_coder := false |}
               <= effective_params {| id := "gemma-3-27b"; total_params := Some (27 # 1)%Q;
                                      active_params := None; tier := MEDIUM; is_coder := false |})%Q)
    by (vm_compute; discriminate).
  split; [exact H1|]. split; [exact H2|]. split; [exact K|]. split; [exact L|].
  exact (proj1 tier_monotone_from_known_params _ _ _ _ H1 H2 K L).
Defined.

(** C7 as stated fails: ["gpt-4o"] carries no parameter count, so its
    [effective_params] is 0 and its tier the default MEDIUM, while
    ["llama-7b"] has 7 and is SMALL. The id ["x-0b"], whose only count
    is a total of zero, fails it the same way. *)
Lemma tier_monotone_counterexample : ~ tier_monotone_as_stated.
Proof.
  intros H.
  specialize (H "gpt-4o"%string "llama-7b"%string
                {| id := "gpt-4o"; total_params := None; active_params := None;
                   tier := MEDIUM; is_coder := false |}
                {| id := "llama-7b"; total_params := Some (7 # 1)%Q; active_params := None;
                   tier := SMALL; is_coder := false |}).
  assert (T : tier_le MEDIUM SMALL).
  { apply H; [vm_compute; reflexivity | vm_compute; reflexivity | vm_compute; discriminate]. }
  unfold tier_le in T. cbn in T. lia.
Qed.

(** The id ["x-0b"]: a count is found, a total of zero, and the model
    is MEDIUM with [effective_params] 0 all the same. *)
Example build_model_info_zero_total :
  _build_model_info Config.default "x-0b"
  = Ok (Some {| id := "x-0b"; total_params := Some (0 # 1)%Q; active_params := None;
                tier := MEDIUM; is_coder := false |}).
Proof. vm_compute. reflexivity. Qed.

(** *** C5 *)

(** C5. The id ["A3B-3B"]: the active pattern finds 3, the total
    candidates are 3 and 3, the largest equals the active value and
    there is more than one, and the [max] over the candidates other than
    3 is a [max] of nothing: [_extract_params] raises [ValueError]. *)
Theorem extract_params_raises_on_repeated_active :
  _extract_params "A3B-3B" = Raise ValueError.
Proof. vm_compute. reflexivity. Qed.

(** What it costs: one such id in the listing fails the refresh, and on
    a process that has no registry yet the failure reaches the caller. *)
Lemma refresh_fails_on_repeated_active :
  fst (refresh_models true (1000 # 1) (Ok (listing_of ["mistral-7b"; "moe-a3b-3b"]%string))
         None initial_world) = Raise ValueError.
Proof. vm_compute. reflexivity. Qed.

(** *** binary64 *)

Lemma float_value_nonneg f : (0 <= float_value f)%Q.
Proof.
  destruct f as [s|s| |s m e]; cbn [float_value]; try discriminate.
  destruct e as [|k|k].
  - unfold Qle. cbn. lia.
  - assert (0 <= 2 ^ Z.pos k)%Z by (apply Z.pow_nonneg; lia).
    unfold Qle. cbn [Qnum Qden]. nia.
  - rewrite Qred_correct. discriminate.
Qed.

Lemma to_float_nonneg q : (0 <= q)%Q -> (0 <= to_float q)%Q.
Proof.
  intros H. unfold to_float. destruct q as [n d]. cbn [Qnum Qden].
  destruct n as [|p|p].
  - discriminate.
  - apply float_value_nonneg.
  - exfalso. unfold Qle in H. cbn in H. lia.
Qed.

Lemma lit64_one : lit64 (1 # 1) = 1%Q.
Proof. vm_compute. reflexivity. Qed.

(** Known values of binary64: 0.1 is 3602879701896397 / 2^55; 0.1 + 0.2
    is 0.30000000000000004, not 0.3; 0.7 + 0.1 is 0.7999999999999999,
    below 0.8; 2^53 + 1 is a tie and goes to the even 2^53, 2^53 + 3 to
    2^53 + 4; 10^23 reads as 99999999999999991611392; a numeral of 401
    digits is infinite; 10^-320 is subnormal. *)
Example binary64_samples :
  to_float (1 # 10) = (3602879701896397 # 36028797018963968)%Q /\
  float_add (to_float (1 # 10)) (to_float (2 # 10))
  = (1351079888211149 # 4503599627370496)%Q /\
  to_float (3 # 10) = (5404319552844595 # 18014398509481984)%Q /\
  (float_add (to_float (7 # 10)) (to_float (1 # 10)) < to_float (8 # 10))%Q /\
  to_float (9007199254740993 # 1) = (9007199254740992 # 1)%Q /\
  to_float (9007199254740995 # 1) = (9007199254740996 # 1)%Q /\
  to_float (100000000000000000000000 # 1) = (99999999999999991611392 # 1)%Q /\
  nearest (10 ^ 400) 1 = S754_infinity false /\
  nearest 1 (10 ^ 320) = S754_finite false 2024 (-1074).
Proof. vm_compute. repeat split; reflexivity. Qed.

(** Every decimal with 3 places between 0 and 1 reads back as a float
    between 0 and 1. *)
Lemma to_float_thousandths (n : Z) :
  (0 <= n <= 1000)%Z -> (0 <= to_float (n # 1000) <= 1)%Q.
Proof.
  intros Hn.
  assert (H : forallb (fun k => Qle_bool 0 (to_float (Z.of_nat k # 1000))
                                && Qle_bool (to_float (Z.of_nat k # 1000)) 1)
                      (seq 0 1001) = true) by (vm_compute; reflexivity).
  rewrite forallb_forall in H.
  specialize (H (Z.to_nat n)).
  rewrite Z2Nat.id in H by lia.
  assert (Hin : In (Z.to_nat n) (seq 0 1001)) by (apply in_seq; lia).
  apply H in Hin. apply andb_true_iff in Hin. destruct Hin as [H0 H1].
  split; apply Qle_bool_iff; assumption.
Qed.

(** *** Text parts that are no [str] *)

Lemma all_str_some l : all_str (map Some l) = Some l.
Proof. induction l as [|a l IH]; simpl; [reflexivity|]. rewrite IH. reflexivity. Qed.

Lemma all_str_none parts : In None parts -> all_str parts = None.
Proof.
  induction parts as [|p parts IH]; intros H; [destruct H|].
  destruct p as [s|]; [|reflexivity].
  destruct H as [H|H]; [discriminate|].
  simpl. rewrite (IH H). reflexivity.
Qed.

Lemma join_some sep l : join sep (map Some l) = Ok (String.concat sep l).
Proof. unfold join. rewrite all_str_some. reflexivity. Qed.

Lemma join_none sep parts : In None parts -> join sep parts = Raise TypeError.
Proof. intros H. unfold join. rewrite (all_str_none _ H). reflexivity. Qed.

Lemma block_texts_str blocks :
  forallb text_is_str blocks = true ->
  flat_map block_text blocks = map Some (flat_map text_of_block blocks).
Proof.
  induction blocks as [|b blocks IH]; intros H; [reflexivity|].
  simpl in H. apply andb_true_iff in H. destruct H as [Hb H].
  cbn [flat_map]. rewrite map_app, (IH H).
  destruct b; try discriminate; reflexivity.
Qed.

Lemma block_texts_bad blocks :
  forallb text_is_str blocks = false -> In None (flat_map block_text blocks).
Proof.
  induction blocks as [|b blocks IH]; intros H; [discriminate|].
  simpl in H. cbn [flat_map]. apply in_or_app.
  destruct b; cbn [text_is_str andb] in H;
    first [ left; left; reflexivity | right; apply IH, H ].
Qed.

Lemma extract_text_ok messages :
  texts_are_str messages = true ->
  _extract_text messages = Ok (String.concat nl (text_parts messages)).
Proof.
  intros H. unfold _extract_text. rewrite <- join_some. f_equal.
  induction messages as [|msg messages IH]; [reflexivity|].
  unfold texts_are_str in H. cbn [forallb] in H.
  apply andb_true_iff in H. destruct H as [Hm H].
  unfold text_parts. cbn [flat_map]. rewrite map_app. fold (text_parts messages).
  rewrite (IH H). f_equal.
  destruct (content msg) as [s|blocks]; [reflexivity|].
  apply block_texts_str, Hm.
Qed.

Lemma extract_text_raises messages :
  texts_are_str messages = false -> _extract_text messages = Raise TypeError.
Proof.
  intros H. unfold _extract_text. apply join_none.
  induction messages as [|msg messages IH]; [discriminate|].
  unfold texts_are_str in H. cbn [forallb] in H.
  cbn [flat_map]. apply in_or_app.
  destruct (content msg) as [s|blocks].
  - right. apply IH, H.
  - destruct (forallb text_is_str blocks) eqn:E.
    + right. apply IH, H.
    + left. apply block_texts_bad, E.
Qed.

Lemma texts_are_str_filter p messages :
  texts_are_str messages = true -> texts_are_str (filter p messages) = true.
Proof.
  unfold texts_are_str. intros H. apply forallb_forall.
  intros x Hx. apply filter_In in Hx. destruct Hx as [Hx _].
  rewrite forallb_forall in H. apply H, Hx.
Qed.

Lemma in_skipn {A} n (l : list A) x : In x (skipn n l) -> In x l.
Proof.
  revert l. induction n as [|n IH]; intros l H; [exact H|].
  destruct l as [|a l]; [destruct H|]. right. apply IH, H.
Qed.

Lemma texts_are_str_skipn n messages :
  texts_are_str messages = true -> texts_are_str (skipn n messages) = true.
Proof.
  unfold texts_are_str. intros H. apply forallb_forall.
  intros x Hx. apply in_skipn in Hx.
  rewrite forallb_forall in H. apply H, Hx.
Qed.

(** *** C8 *)

Lemma Qmin_le_l a b : (Heuristics.Qmin a b <= a)%Q.
Proof.
  unfold Heuristics.Qmin. destruct (Qlt_bool b a) eqn:E.
  - apply Qlt_le_weak, Qlt_bool_true, E.
  - apply Qle_refl.
Qed.

Lemma Qmin_ge a b c : (c <= a)%Q -> (c <= b)%Q -> (c <= Heuristics.Qmin a b)%Q.
Proof. unfold Heuristics.Qmin. intros Ha Hb. destruct (Qlt_bool b a); assumption. Qed.

Lemma clamp01_bounds x : (0 <= clamp01 x <= 1)%Q.
Proof.
  unfold clamp01. rewrite lit64_one. change (lit64 (0 # 1)) with 0%Q.
  unfold Heuristics.Qmax.
  destruct (Qlt_bool 0 (Heuristics.Qmin 1 x)) eqn:E.
  - split.
    + apply Qlt_le_weak, Qlt_bool_true, E.
    + apply Qmin_le_l.
  - split; [apply Qle_refl | discriminate].
Qed.

(** [round(x, 3)] of a score: the float nearest to [n / 1000], for the
    integer [n] nearest to [1000 x]. *)
Lemma round3_cases x :
  (0 <= x <= 1)%Q ->
  exists n, (0 <= n <= 1000)%Z /\ round3 x = to_float (n # 1000) /\
            ((n # 1) - (1 # 2) <= x * (1000 # 1) <= (n # 1) + (1 # 2))%Q.
Proof.
  intros [H0 H1]. unfold round3.
  set (y := (x * (1000 # 1))%Q).
  assert (Hy0 : (0 <= y)%Q) by (unfold y; lra).
  assert (Hy1 : (y <= 1000 # 1)%Q) by (unfold y; lra).
  set (f := Qfloor y).
  assert (Hf0 : (0 <= f)%Z).
  { change 0%Z with (Qfloor (0 # 1)). apply Qfloor_resp_le, Hy0. }
  assert (Hf1 : (f <= 1000)%Z).
  { change 1000%Z with (Qfloor (1000 # 1)). apply Qfloor_resp_le, Hy1. }
  pose proof (Qfloor_le y) as Hlo. fold f in Hlo.
  pose proof (Qlt_floor y) as Hhi. fold f in Hhi.
  unfold inject_Z in Hlo, Hhi.
  assert (Hs : ((f + 1)%Z # 1 == (f # 1) + 1)%Q).
  { unfold Qeq, Qplus. cbn. lia. }
  rewrite Hs in Hhi.
  set (n := if Qlt_bool (y - (f # 1)) (1 # 2) then f
            else if Qlt_bool (1 # 2) (y - (f # 1)) then (f + 1)%Z
                 else if Z.even f then f else (f + 1)%Z).
  exists n. split; [|split; [reflexivity|]].
  - subst n. destruct (Qlt_bool (y - (f # 1)) (1 # 2)) eqn:E; [lia|].
    apply Qlt_bool_false in E.
    assert (Hlt : (f < 1000)%Z).
    { destruct (Z.eq_dec f 1000) as [Ef|Ef]; [|lia].
      exfalso. rewrite Ef in E. lra. }
    destruct (Qlt_bool (1 # 2) (y - (f # 1))); [lia|].
    destruct (Z.even f); lia.
  - subst n. destruct (Qlt_bool (y - (f # 1)) (1 # 2)) eqn:E1.
    + apply Qlt_bool_true in E1. lra.
    + apply Qlt_bool_false in E1.
      destruct (Qlt_bool (1 # 2) (y - (f # 1))) eqn:E2.
      * rewrite Hs. lra.
      * apply Qlt_bool_false in E2.
        destruct (Z.even f); [lra | rewrite Hs; lra].
Qed.

Lemma round3_bounds x : (0 <= x <= 1)%Q -> (0 <= round3 x <= 1)%Q.
Proof.
  intros H. destruct (round3_cases x H) as (n & Hn & -> & _).
  apply to_float_thousandths, Hn.
Qed.

Ltac split_ifs :=
  repeat match goal with
         | |- context [if ?b then _ else _] => destruct b
         end.

Ltac const_bounds :=
  cbn [fst adds_at_most]; first [ exact I | vm_compute; split; discriminate ].

Lemma token_signal_bounds n : adds_at_most (lit64 (5 # 10)) (fst (token_signal n)).
Proof. unfold token_signal. split_ifs; const_bounds. Qed.

Lemma depth_signal_bounds n : adds_at_most (lit64 (15 # 100)) (fst (depth_signal n)).
Proof. unfold depth_signal. split_ifs; const_bounds. Qed.

Lemma tool_signal_bounds tools : adds_at_most (lit64 (2 # 10)) (fst (tool_signal tools)).
Proof.
  unfold tool_signal. destruct tools as [[|a l]|]; split_ifs; const_bounds.
Qed.

Lemma system_signal_bounds messages sig :
  system_signal messages = Ok sig -> adds_at_most (lit64 (15 # 100)) (fst sig).
Proof.
  unfold system_signal. destruct (filter (has_role "system") messages) as [|m l].
  - intros H. injection H as <-. exact I.
  - destruct (_extract_text (m :: l)) as [text|e]; cbn [rbind]; [|discriminate].
    intros H. injection H as <-. split_ifs; const_bounds.
Qed.

Lemma code_signal_bounds text : adds_at_most (lit64 (15 # 100)) (fst (code_signal text)).
Proof. unfold code_signal. split_ifs; const_bounds. Qed.

Lemma image_signal_bounds text : adds_at_most (lit64 (1 # 10)) (fst (image_signal text)).
Proof. unfold image_signal. split_ifs; const_bounds. Qed.

Lemma float_of_int_nonneg n : (0 <= float_of_int (Z.of_nat n))%Q.
Proof. apply to_float_nonneg. unfold Qle. cbn. lia. Qed.

Lemma complex_signal_bounds l : adds_at_most (lit64 (7 # 10)) (fst (complex_signal l)).
Proof.
  unfold complex_signal. destruct l as [|a l]; [exact I|]. cbn [fst adds_at_most].
  unfold complex_keyword_score. split; [|apply Qmin_le_l].
  apply Qmin_ge; [vm_compute; discriminate|].
  apply to_float_nonneg.
  assert (H1 : (0 <= lit64 (2 # 10))%Q) by (vm_compute; discriminate).
  assert (H2 : (0 <= float_mul (lit64 (15 # 100))
                               (float_of_int (Z.of_nat (List.length (a :: l)))))%Q).
  { apply to_float_nonneg. apply Qmult_le_0_compat; [vm_compute; discriminate|].
    apply float_of_int_nonneg. }
  lra.
Qed.

Lemma moderate_signal_bounds l : adds_at_most (lit64 (2 # 10)) (fst (moderate_signal l)).
Proof.
  unfold moderate_signal. destruct l as [|a l]; [exact I|]. cbn [fst adds_at_most].
  unfold moderate_keyword_score. split; [|apply Qmin_le_l].
  apply Qmin_ge; [vm_compute; discriminate|].
  apply to_float_nonneg. apply Qmult_le_0_compat; [vm_compute; discriminate|].
  apply float_of_int_nonneg.
Qed.

Lemma simple_signal_bounds s c m : deducts (lit64 (15 # 100)) (fst (simple_signal s c m)).
Proof. unfold simple_signal. destruct s, c, m; cbn [fst deducts]; auto. Qed.

Lemma system_signal_ok messages :
  texts_are_str messages = true -> exists sig, system_signal messages = Ok sig.
Proof.
  intros H. unfold system_signal.
  pose proof (texts_are_str_filter (has_role "system") messages H) as Hf.
  destruct (filter (has_role "system") messages) as [|m l]; [eauto|].
  rewrite (extract_text_ok _ Hf). cbn [rbind]. eauto.
Qed.

Lemma raw_score_ok messages tools :
  texts_are_str messages = true -> exists raw, raw_score messages tools = Ok raw.
Proof.
  intros H. unfold raw_score.
  rewrite (extract_text_ok _ H). cbn [rbind].
  destruct (system_signal_ok messages H) as [sig ->]. cbn [rbind].
  pose proof (texts_are_str_filter (has_role "user") messages H) as Hf.
  destruct (filter (has_role "user") messages) as [|m l]; [cbn [rbind]; eauto|].
  unfold last_one.
  rewrite (extract_text_ok _ (texts_are_str_skipn _ _ Hf)). cbn [rbind]. eauto.
Qed.

Lemma raw_score_raises messages tools :
  texts_are_str messages = false -> raw_score messages tools = Raise TypeError.
Proof.
  intros H. unfold raw_score. rewrite (extract_text_raises _ H). reflexivity.
Qed.

(** [score_request] raises [TypeError], from the [join] of
    [_extract_text], when a text part brings a ["text"] that is no
    [str]. *)
Lemma score_request_raises cfg messages tools :
  texts_are_str messages = false -> score_request cfg messages tools = Raise TypeError.
Proof.
  intros H. unfold score_request. rewrite (raw_score_raises _ _ H). reflexivity.
Qed.

(** C8, amended. For messages whose text parts carry a [str],
    [score_request] returns, and its score lies in [0, 1]: it is the sum
    of the signals, clamped to [0, 1] and then rounded to 3 decimals.
    Each signal adds a bounded increment, the simple-keyword signal
    deducts 0.15. *)
Theorem score_request_in_unit_interval (cfg : RouterConfig) (messages : list message)
        (tools : option (list tool)) (H : texts_are_str messages = true) :
  (exists h raw,
     score_request cfg messages tools = Ok h /\
     raw_score messages tools = Ok (raw, reasons h) /\
     score h = round3 (clamp01 raw) /\
     (0 <= score h <= 1)%Q) /\
  (forall n, adds_at_most (lit64 (5 # 10)) (fst (token_signal n))) /\
  (forall n, adds_at_most (lit64 (15 # 100)) (fst (depth_signal n))) /\
  (forall tl, adds_at_most (lit64 (2 # 10)) (fst (tool_signal tl))) /\
  (forall msgs sig, system_signal msgs = Ok sig -> adds_at_most (lit64 (15 # 100)) (fst sig)) /\
  (forall text, adds_at_most (lit64 (15 # 100)) (fst (code_signal text))) /\
  (forall text, adds_at_most (lit64 (1 # 10)) (fst (image_signal text))) /\
  (forall l, adds_at_most (lit64 (7 # 10)) (fst (complex_signal l))) /\
  (forall l, adds_at_most (lit64 (2 # 10)) (fst (moderate_signal l))) /\
  (forall s c m, deducts (lit64 (15 # 100)) (fst (simple_signal s c m))).
Proof.
  split.
  { destruct (raw_score_ok messages tools H) as [[raw rs] E].
    unfold score_request. rewrite E. cbn [rbind].
    eexists. exists raw. split; [reflexivity|]. cbn [reasons score].
    split; [reflexivity|]. split; [reflexivity|].
    apply round3_bounds, clamp01_bounds. }
  split; [exact token_signal_bounds|].
  split; [exact depth_signal_bounds|].
  split; [exact tool_signal_bounds|].
  split; [exact system_signal_bounds|].
  split; [exact code_signal_bounds|].
  split; [exact image_signal_bounds|].
  split; [exact complex_signal_bounds|].
  split; [exact moderate_signal_bounds|].
  exact simple_signal_bounds.
Qed.

(** The one-line question of the test suite scores 0. *)
Lemma score_request_in_unit_interval_witness :
  let messages := [{| role := Some "user"%string; content := Text "What is 2+2?" |}] in
  texts_are_str messages = true /\
  exists h raw,
    score_request Config.default messages None = Ok h /\
    raw_score messages None = Ok (raw, reasons h) /\
    score h = round3 (clamp01 raw) /\
    (0 <= score h <= 1)%Q.
Proof.
  intros messages. split; [reflexivity|].
  exact (proj1 (score_request_in_unit_interval Config.default messages None eq_refl)).
Defined.

Example score_request_simple_question :
  score_request Config.default
    [{| role := Some "user"%string; content := Text "What is 2+2?" |}] None
  = Ok {| score := 0%Q;
          reasons := [VeryShort 3; SimpleKeywords ["What is"%string]];
          confident := true |}.
Proof. vm_compute. reflexivity. Qed.

(** Four tools are "many tools": the count is the length of the list. *)
Example tool_signal_four_tools :
  tool_signal (Some [Tool "a"; Tool "b"; Tool "c"; Tool "d"])
  = (Plus (lit64 (2 # 10)), [ManyTools 4]).
Proof. reflexivity. Qed.

(** C8 as stated fails: a text part whose ["text"] is null makes
    [score_request] raise [TypeError]; it returns no score. *)
Lemma score_request_counterexample : ~ score_in_unit_interval_as_stated.
Proof.
  intros H.
  destruct (H Config.default
              [{| role := Some "user"%string; content := Parts [BadTextBlock] |}] None)
    as (h & E & _).
  rewrite score_request_raises in E by reflexivity. discriminate.
Qed.

(** *** C3 *)

Lemma smallest_id_run l w :
  l <> [] -> exists i, smallest_id l w = (Ok i, w).
Proof.
  destruct l as [|x l]; [congruence|]. intros _.
  unfold smallest_id. cbn [min_by]. eexists. reflexivity.
Qed.

Lemma choose_classifier_model_run w :
  exists chosen, choose_classifier_model w = (Ok chosen, w)
                 /\ (models (deref w (_registry w)) = [] ->
                     classifier_model (_config w) = ""%string -> chosen = None).
Proof.
  unfold choose_classifier_model, get_registry, get_config.
  cbn [bind].
  destruct (String.eqb (classifier_model (_config w)) "") eqn:Ec; cbn [negb].
  - rewrite (bind_run _ (by_tier_run (_registry w) SMALL w)).
    destruct (in_tier (deref w (_registry w)) SMALL) as [|x l] eqn:Es; cbn [is_empty negb].
    + unfold load. cbn [bind].
      destruct (models (deref w (_registry w))) as [|kv rest] eqn:Em; cbn [is_empty negb].
      * exists None. split; [reflexivity|auto].
      * destruct (smallest_id_run (values (kv :: rest)) w) as [i Hi]; [discriminate|].
        rewrite (bind_run _ Hi). exists (Some i). split; [reflexivity|]. discriminate.
    + destruct (smallest_id_run (x :: l) w) as [i Hi]; [discriminate|].
      rewrite (bind_run _ Hi). exists (Some i). split; [reflexivity|].
      intros Hm. unfold in_tier in Es. rewrite Hm in Es. discriminate.
  - exists (Some (classifier_model (_config w))). split; [reflexivity|].
    intros _ Hc. rewrite Hc in Ec. discriminate.
Qed.

Lemma mapM_ok {A B} (f : A -> result B) l :
  (forall x, In x l -> exists y, f x = Ok y) -> exists ys, mapM f l = Ok ys.
Proof.
  induction l as [|a l IH]; intros H; [exists []; reflexivity|].
  destruct (H a (or_introl eq_refl)) as [y Hy].
  destruct IH as [ys Hys]; [intros x Hx; apply H; now right|].
  exists (y :: ys). cbn [mapM]. rewrite Hy. cbn [rbind]. rewrite Hys. reflexivity.
Qed.

Lemma mapM_raises {A B} (f : A -> result B) l e :
  (forall x e', f x = Raise e' -> e' = e) ->
  (exists x, In x l /\ f x = Raise e) -> mapM f l = Raise e.
Proof.
  intros Hone. induction l as [|a l IH]; intros (x & Hx & Hf); [destruct Hx|].
  cbn [mapM]. destruct (f a) as [y|e'] eqn:Ea; cbn [rbind].
  - destruct Hx as [->|Hx]; [congruence|].
    rewrite IH by eauto. reflexivity.
  - rewrite (Hone a e' Ea). reflexivity.
Qed.

Lemma condense_blocks_str blocks :
  forallb text_is_str blocks = true ->
  exists l, flat_map condense_block blocks = map Some l.
Proof.
  induction blocks as [|b blocks IH]; intros H; [exists []; reflexivity|].
  simpl in H. apply andb_true_iff in H. destruct H as [Hb H].
  destruct (IH H) as [l Hl]. cbn [flat_map]. rewrite Hl.
  destruct b; try discriminate.
  - exists (text :: l). reflexivity.
  - exists ("[image]"%string :: l). reflexivity.
  - exists l. reflexivity.
Qed.

Lemma condense_blocks_bad blocks :
  forallb text_is_str blocks = false -> In None (flat_map condense_block blocks).
Proof.
  induction blocks as [|b blocks IH]; intros H; [discriminate|].
  simpl in H. cbn [flat_map]. apply in_or_app.
  destruct b; cbn [text_is_str andb] in H;
    first [ left; left; reflexivity | right; apply IH, H ].
Qed.

Lemma condense_message_raises msg e : condense_message msg = Raise e -> e = TypeError.
Proof.
  unfold condense_message. destruct (content msg) as [s|blocks]; cbn [rbind]; [discriminate|].
  unfold join. destruct (all_str _); cbn [rbind]; [discriminate|]. congruence.
Qed.

Lemma condense_messages_ok messages max_chars :
  texts_are_str messages = true ->
  exists condensed, _condense_messages messages max_chars = Ok condensed.
Proof.
  intros H. unfold _condense_messages.
  destruct (mapM_ok condense_message messages) as [parts ->]; [|cbn [rbind]; eauto].
  intros msg Hmsg. unfold texts_are_str in H. rewrite forallb_forall in H.
  specialize (H msg Hmsg). unfold condense_message.
  destruct (content msg) as [s|blocks]; cbn [rbind]; [eauto|].
  destruct (condense_blocks_str blocks H) as [l ->]. rewrite join_some. cbn [rbind]. eauto.
Qed.

Lemma condense_messages_raises messages max_chars :
  texts_are_str messages = false ->
  _condense_messages messages max_chars = Raise TypeError.
Proof.
  intros H. unfold _condense_messages.
  rewrite (mapM_raises condense_message messages TypeError); [reflexivity| |].
  - apply condense_message_raises.
  - unfold texts_are_str in H.
    induction messages as [|msg messages IH]; [discriminate|].
    cbn [forallb] in H.
    destruct (content msg) as [s|blocks] eqn:Ec.
    + destruct (IH H) as (x & Hx & Hf). exists x. split; [now right|exact Hf].
    + destruct (forallb text_is_str blocks) eqn:Eb.
      * destruct (IH H) as (x & Hx & Hf). exists x. split; [now right|exact Hf].
      * exists msg. split; [now left|]. unfold condense_message. rewrite Ec.
        rewrite (join_none _ _ (condense_blocks_bad _ Eb)). reflexivity.
Qed.

Section ClassifierFacts.

Variable json_loads : string -> result json.
Variable int_of_str : string -> result Z.
Variable backend : string -> string -> result json.

Let classify := classify_complexity json_loads int_of_str backend.
Let body := classify_body json_loads int_of_str backend.

Lemma classify_complexity_run messages w :
  exists chosen,
    choose_classifier_model w = (Ok chosen, w) /\
    classify messages w =
    (match chosen with
     | None => Ok (MEDIUM, JStr "no classifier model available")
     | Some model =>
         match _condense_messages messages 2000 with
         | Ok condensed =>
             Ok (match body model condensed with
                 | Ok v => v
                 | Raise _ => classifier_error
                 end)
         | Raise e => Raise e
         end
     end, w).
Proof.
  destruct (choose_classifier_model_run w) as (chosen & Hrun & _).
  exists chosen. split; [exact Hrun|].
  unfold classify, classify_complexity. rewrite (bind_run _ Hrun).
  destruct chosen as [model|]; [|reflexivity].
  unfold bind, lift.
  destruct (_condense_messages messages 2000) as [condensed|e]; [|reflexivity].
  unfold try_except, body.
  destruct (classify_body json_loads int_of_str backend model condensed); reflexivity.
Qed.

(** The conversation is condensed outside the [try]: with a model to
    ask, a text part whose ["text"] is no [str] makes
    [classify_complexity] raise [TypeError]. *)
Lemma classify_complexity_raises messages w model :
  texts_are_str messages = false ->
  fst (choose_classifier_model w) = Ok (Some model) ->
  classify messages w = (Raise TypeError, w).
Proof.
  intros H Hm.
  destruct (classify_complexity_run messages w) as (chosen & Hch & Hrun).
  rewrite Hch in Hm. cbn [fst] in Hm. injection Hm as ->.
  rewrite Hrun, (condense_messages_raises _ _ H). reflexivity.
Qed.

Lemma classify_complexity_returns messages w :
  texts_are_str messages = true ->
  exists t r, classify messages w = (Ok (t, r), w).
Proof.
  intros H.
  destruct (classify_complexity_run messages w) as (chosen & Hch & Hrun).
  destruct (condense_messages_ok messages 2000 H) as [condensed Hc].
  rewrite Hc in Hrun. rewrite Hrun.
  destruct chosen as [model|]; [|eauto].
  destruct (body model condensed) as [[t r]|e]; [eauto|].
  unfold classifier_error. eauto.
Qed.

(** C3, amended. For messages whose text parts carry a [str],
    [classify_complexity] returns a (tier, reason) pair and raises
    nothing, leaving the process state as it was. Whenever the body of
    its [try] raises, it returns MEDIUM with the reason of the handler;
    the body raises when the backend call fails (transport, timeout,
    error status, undecodable body), when the reply has no message text,
    when that text is no JSON, and when the decoded object has no
    ["tier"]. With an empty registry and no classifier model configured
    it returns MEDIUM with a reason, without calling the backend. *)
Theorem classify_complexity_never_raises (messages : list message) (w : World)
        (H : texts_are_str messages = true) :
  (exists t r, classify messages w = (Ok (t, r), w)) /\
  (exists condensed,
     _condense_messages messages 2000 = Ok condensed /\
     forall model e,
       fst (choose_classifier_model w) = Ok (Some model) ->
       body model condensed = Raise e ->
       fst (classify messages w) = Ok (MEDIUM, JStr "classifier error, defaulting to medium")) /\
  (models (deref w (_registry w)) = [] ->
   classifier_model (_config w) = ""%string ->
   fst (classify messages w) = Ok (MEDIUM, JStr "no classifier model available")) /\
  (forall model condensed e,
     backend model condensed = Raise e -> body model condensed = Raise e) /\
  (forall model condensed resp e,
     backend model condensed = Ok resp -> reply_text resp = Raise e ->
     body model condensed = Raise e) /\
  (forall model condensed resp text e,
     backend model condensed = Ok resp -> reply_text resp = Ok text ->
     json_loads (unfence text) = Raise e ->
     body model condensed = Raise e) /\
  (forall model condensed resp text parsed e,
     backend model condensed = Ok resp -> reply_text resp = Ok text ->
     json_loads (unfence text) = Ok parsed ->
     getitem parsed "tier" = Raise e ->
     body model condensed = Raise e).
Proof.
  destruct (classify_complexity_run messages w) as (chosen & Hch & Hrun).
  destruct (condense_messages_ok messages 2000 H) as [condensed Hc].
  rewrite Hc in Hrun.
  split.
  { rewrite Hrun.
    destruct chosen as [model|]; [|eauto].
    destruct (body model condensed) as [[t r]|e]; [eauto|].
    unfold classifier_error. eauto. }
  split.
  { exists condensed. split; [exact Hc|].
    intros model e Hm Hb. rewrite Hrun. rewrite Hch in Hm. cbn [fst] in Hm.
    injection Hm as ->. rewrite Hb. reflexivity. }
  split.
  { intros Hm Hcm. rewrite Hrun. cbn [fst].
    destruct (choose_classifier_model_run w) as (chosen' & Hch' & Hnone).
    rewrite Hch in Hch'. injection Hch' as <-.
    rewrite (Hnone Hm Hcm). reflexivity. }
  unfold body, classify_body.
  split; [intros model cd e ->; reflexivity|].
  split; [intros model cd resp e -> H1; cbn [rbind]; rewrite H1; reflexivity|].
  split; [intros model cd resp text e -> H1 H2; cbn [rbind]; rewrite H1;
          cbn [rbind]; rewrite H2; reflexivity|].
  intros model cd resp text parsed e -> H1 H2 H3.
  cbn [rbind]. rewrite H1. cbn [rbind]. rewrite H2. cbn [rbind].
  unfold verdict. rewrite H3. reflexivity.
Qed.

End ClassifierFacts.

(** A backend whose every call fails in transport, asked from a process
    that lists one small model: the answer is MEDIUM with the reason of
    the handler. *)
Lemma classify_complexity_never_raises_witness :
  let w := world_listing ["gemma-3-4b"]%string in
  let jl := fun _ : string => @Raise json JSONDecodeError in
  let ios := fun _ : string => @Raise Z ValueError in
  let be := fun _ _ : string => @Raise json HTTPError in
  let messages := [{| role := Some "user"%string; content := Text "What is 2+2?" |}] in
  texts_are_str messages = true /\
  fst (choose_classifier_model w) = Ok (Some "gemma-3-4b"%string) /\
  fst (classify_complexity jl ios be messages w)
  = Ok (MEDIUM, JStr "classifier error, defaulting to medium").
Proof.
  intros w jl ios be messages.
  assert (H1 : fst (choose_classifier_model w) = Ok (Some "gemma-3-4b"%string))
    by (vm_compute; reflexivity).
  split; [reflexivity|]. split; [exact H1|].
  destruct (proj1 (proj2 (classify_complexity_never_raises jl ios be messages w eq_refl)))
    as (condensed & _ & Hf).
  exact (Hf "gemma-3-4b"%string HTTPError H1 eq_refl).
Defined.

(** C3 as stated fails: asked about a message with a text part whose
    ["text"] is null, from a process that lists a model to ask,
    [classify_complexity] raises [TypeError]. *)
Lemma classify_complexity_counterexample : ~ never_raises_as_stated.
Proof.
  intros H.
  destruct (H (fun _ => Raise JSONDecodeError) (fun _ => Raise ValueError)
              (fun _ _ => Raise HTTPError)
              [{| role := Some "user"%string; content := Parts [BadTextBlock] |}]
              (world_listing ["gemma-3-4b"]%string)) as (t & r & E).
  rewrite (classify_complexity_raises _ _ _ _ _ "gemma-3-4b"%string) in E;
    [discriminate | reflexivity | vm_compute; reflexivity].
Qed.

(** *** C4 *)

Lemma refresh_body_run now listing disk w :
  refresh_body now listing disk w =
  match listing with
  | Raise e => (Raise e, w)
  | Ok data =>
      let cfg := loaded_config disk in
      let w1 := {| registries := registries w; _registry := _registry w; _config := cfg |} in
      match built_registry cfg now data with
      | Raise e => (Raise e, w1)
      | Ok r => (Ok tt, {| registries := registries w ++ [r];
                           _registry := List.length (registries w);
                           _config := cfg |})
      end
  end.
Proof.
  unfold refresh_body, built_registry, loaded_config, lift, load_config, get_config, publish.
  destruct listing as [data|e]; [|reflexivity].
  cbn [bind _config registries _registry].
  destruct (rbind (get data "data" (JArr [])) iterate) as [entries|e]; [|reflexivity].
  cbn [rbind].
  destruct (build_models _ _ entries []) as [nm|e]; reflexivity.
Qed.

Lemma refresh_body_failure now listing disk w e w1 :
  refresh_body now listing disk w = (Raise e, w1) ->
  registries w1 = registries w /\ _registry w1 = _registry w.
Proof.
  rewrite refresh_body_run.
  destruct listing as [data|e0].
  - cbn zeta. destruct (built_registry (loaded_config disk) now data); [discriminate|].
    intros H. injection H as _ <-. split; reflexivity.
  - intros H. injection H as _ <-. split; reflexivity.
Qed.

Lemma deref_same_registries w w' a :
  registries w' = registries w -> deref w' a = deref w a.
Proof. unfold deref. intros ->. reflexivity. Qed.

(** C4. When the refresh is due: if fetching or processing the listing
    fails and the current registry has models, [refresh_models] returns
    that registry and no registry object nor the global has changed; if
    it has none, the error reaches the caller. A failed fetch is such a
    failure. On success the global is rebound to a new object, built
    from the listing and the configuration alone, and every object that
    existed before is what it was. *)
Theorem refresh_models_stale_or_replaced (force : bool) (now : Q) (listing : result json)
        (disk : option RouterConfig) (w : World) (due : refresh_due force now w) :
  let cur := deref w (_registry w) in
  let out := refresh_models force now listing disk w in
  (forall e w1,
     refresh_body now listing disk w = (Raise e, w1) ->
     registries (snd out) = registries w /\ _registry (snd out) = _registry w /\
     (models cur <> [] -> fst out = Ok (_registry w)) /\
     (models cur = [] -> fst out = Raise e)) /\
  (forall e, listing = Raise e -> fst (refresh_body now listing disk w) = Raise e) /\
  (forall w1,
     refresh_body now listing disk w = (Ok tt, w1) ->
     fst out = Ok (List.length (registries w)) /\
     _registry (snd out) = List.length (registries w) /\
     (forall a, a < List.length (registries w) -> deref (snd out) a = deref w a) /\
     exists data,
       listing = Ok data /\
       built_registry (loaded_config disk) now data = Ok (deref (snd out) (_registry (snd out)))).
Proof.
  intros cur out.
  assert (Hout : out =
                 match refresh_body now listing disk w with
                 | (Ok _, w') => (Ok (_registry w'), w')
                 | (Raise e, w') =>
                     if is_empty (models (deref w' (_registry w')))
                     then (Raise e, w') else (Ok (_registry w'), w')
                 end).
  { subst out. unfold refresh_models, get_registry, get_config, load.
    cbn [bind]. unfold refresh_due in due. rewrite due.
    unfold try_catch, bind, raise, ret.
    destruct (refresh_body now listing disk w) as [[u|e] w']; [reflexivity|].
    destruct (is_empty (models (deref w' (_registry w')))); reflexivity. }
  split; [|split].
  - intros e w1 Hb. rewrite Hout, Hb.
    destruct (refresh_body_failure _ _ _ _ _ _ Hb) as [Hr Hg].
    assert (Hd : deref w1 (_registry w1) = cur).
    { rewrite Hg. apply deref_same_registries, Hr. }
    rewrite Hd.
    destruct (models cur) as [|kv rest]; cbn [is_empty fst snd];
      (split; [exact Hr|]); (split; [exact Hg|]); split; intros H;
      try congruence; try reflexivity.
  - intros e ->. rewrite refresh_body_run. reflexivity.
  - intros w1 Hb. rewrite Hout, Hb. cbn [fst snd].
    rewrite refresh_body_run in Hb.
    destruct listing as [data|e]; [|discriminate].
    cbn zeta in Hb.
    destruct (built_registry (loaded_config disk) now data) as [r|e] eqn:Er; [|discriminate].
    injection Hb as <-. cbn [_registry registries].
    split; [reflexivity|]. split; [reflexivity|]. split.
    + intros a Ha. unfold deref. cbn [registries]. apply app_nth1, Ha.
    + exists data. split; [reflexivity|]. rewrite Er. f_equal.
      unfold deref. cbn [registries]. symmetry. apply nth_middle.
Qed.

(** A process serving three models whose backend stops answering: the
    forced refresh returns the registry it had, unchanged. *)
Lemma refresh_models_stale_witness :
  let w := world_listing ["mistral-7b"; "qwen2.5-coder-14b"; "llama-70b"]%string in
  let out := refresh_models true (2000 # 1) (Raise HTTPError) None w in
  refresh_due true (2000 # 1) w /\
  refresh_body (2000 # 1) (Raise HTTPError) None w = (Raise HTTPError, w) /\
  models (deref w (_registry w)) <> [] /\
  fst out = Ok (_registry w) /\
  registries (snd out) = registries w /\ _registry (snd out) = _registry w.
Proof.
  intros w out.
  assert (D : refresh_due true (2000 # 1) w) by reflexivity.
  assert (B : refresh_body (2000 # 1) (Raise HTTPError) None w = (Raise HTTPError, w))
    by reflexivity.
  assert (N : models (deref w (_registry w)) <> []) by (vm_compute; discriminate).
  split; [exact D|]. split; [exact B|]. split; [exact N|].
  destruct (proj1 (refresh_models_stale_or_replaced true (2000 # 1) (Raise HTTPError) None w D)
                  HTTPError w B) as (Hr & Hg & Hs & _).
  split; [exact (Hs N)|]. split; [exact Hr | exact Hg].
Defined.

(** *** C9 *)

Section RouterFacts.

Variable json_loads : string -> result json.
Variable int_of_str : string -> result Z.
Variable backend : string -> string -> result json.
Variable now : Q.
Variable listing : result json.
Variable disk : option RouterConfig.

Let route := route_request json_loads int_of_str backend now listing disk.
Let classify := classify_complexity json_loads int_of_str backend.

(** C9, amended. A request routed explicitly returns metadata holding
    the routing method and the requested model only. Every other routed
    request returns metadata holding the routing method, the heuristic
    score, the reasons, the resolved tier, the id of the selected model
    and the coder preference: the method is ["heuristic"] when the
    heuristic is confident, and the tier is then the tier of its score;
    otherwise the method is ["classifier"], the tier is the one
    [classify_complexity] returned, and its reason is recorded when it
    is not empty; the selected model is the one [get_model_for_tier]
    returns for that tier and the coder preference. *)
Theorem route_request_metadata (messages : list message) (tools : option (list tool))
        (requested_model : option string) (w w' : World)
        (model : ModelInfo) (md : metadata)
        (routed : route messages tools requested_model w = (Ok (model, md), w')) :
  (exists name,
     requested_model = Some name /\ name <> ""%string /\
     md = [("routing"%string, VStr "explicit"); ("requested_model"%string, VStr name)] /\
     assoc name (models (deref w' (_registry w'))) = Some model)
  \/
  (exists heuristic t prefer_coder,
     score_request (_config w') messages tools = Ok heuristic /\
     _is_coding_request messages = Ok prefer_coder /\
     ((confident heuristic = true /\
       t = _score_to_tier (_config w') (score heuristic) /\
       assoc "routing" md = Some (VStr "heuristic") /\
       assoc "classifier_reason" md = None)
      \/
      (confident heuristic = false /\
       exists reason,
         classify messages w' = (Ok (t, reason), w') /\
         assoc "routing" md = Some (VStr "classifier") /\
         assoc "classifier_reason" md
         = if json_truthy reason then Some (VJson reason) else None)) /\
     fst (get_model_for_tier (_registry w') t prefer_coder w') = Ok (Some model) /\
     assoc "heuristic_score" md = Some (VFloat (score heuristic)) /\
     assoc "heuristic_reasons" md = Some (VReasons (reasons heuristic)) /\
     assoc "tier" md = Some (VStr (tier_name t)) /\
     assoc "selected_model" md = Some (VStr (id model)) /\
     assoc "prefer_coder" md = Some (VBool prefer_coder) /\
     forall k, In k audit_keys -> has_key k md).
Proof.
  unfold route, route_request in routed.
  unfold bind at 1 in routed.
  destruct (refresh_models false now listing disk w) as [[registry|e] w1] eqn:R;
    [|discriminate].
  assert (Hreg : registry = _registry w1).
  { revert R. unfold refresh_models, get_registry, get_config, load, try_catch.
    cbn [bind].
    destruct (negb false && _); [intros H; injection H as <- <-; reflexivity|].
    unfold bind, raise, ret.
    destruct (refresh_body now listing disk w) as [[u|e] w2].
    - intros H. injection H as <- <-. reflexivity.
    - destruct (is_empty (models (deref w2 (_registry w2)))); [discriminate|].
      intros H. injection H as <- <-. reflexivity. }
  unfold bind at 1, load at 1 in routed.
  set (reg := deref w1 registry) in routed.
  set (explicit := match requested_model with
                   | Some name => _ | None => None end) in routed.
  destruct explicit as [[name m]|] eqn:Ex.
  - left. unfold ret in routed. injection routed as <- <- <-.
    subst explicit reg.
    destruct requested_model as [name'|]; [|discriminate].
    destruct (String.eqb name' "") eqn:En; [discriminate|].
    destruct (assoc name' (models (deref w1 registry))) as [m'|] eqn:A; [|discriminate].
    injection Ex as <- <-. exists name'. rewrite <- Hreg.
    split; [reflexivity|]. split; [|auto].
    intros ->. discriminate.
  - right. clear Ex explicit.
    unfold bind at 1, get_config at 1 in routed.
    unfold bind at 1, lift at 1 in routed.
    destruct (score_request (_config w1) messages tools) as [h|e] eqn:Hh; [|discriminate].
    assert (Hd : exists t method reason,
               (if confident h
                then ret (_score_to_tier (_config w1) (score h), "heuristic"%string, JStr "")
                else bind (classify_complexity json_loads int_of_str backend messages)
                          (fun tr => ret (fst tr, "classifier"%string, snd tr))) w1
               = (Ok (t, method, reason), w1)
               /\ ((confident h = true /\ t = _score_to_tier (_config w1) (score h)
                    /\ method = "heuristic"%string /\ reason = JStr "")
                   \/ (confident h = false /\ classify messages w1 = (Ok (t, reason), w1)
                       /\ method = "classifier"%string))).
    { destruct (confident h) eqn:Ec.
      - do 3 eexists. split; [reflexivity|]. left. auto.
      - unfold classify in *.
        destruct (classify_complexity_run json_loads int_of_str backend messages w1)
          as (chosen & _ & Hc).
        destruct (classify_complexity json_loads int_of_str backend messages w1)
          as [[[t r]|e] w2] eqn:Hcl.
        + assert (w2 = w1) by (rewrite Hc in Hcl; congruence). subst w2.
          exists t, "classifier"%string, r.
          split; [unfold bind; rewrite Hcl; reflexivity|]. right. auto.
        + exfalso. unfold bind at 1 in routed. unfold bind at 1 in routed.
          rewrite Hcl in routed. discriminate. }
    destruct Hd as (t & method & reason & Hd & Hcase).
    rewrite (bind_run _ Hd) in routed.
    unfold bind at 1, lift at 1 in routed.
    destruct (_is_coding_request messages) as [pc|e] eqn:Hpc; [|discriminate].
    rewrite (bind_run _ (get_model_for_tier_run registry t pc w1)) in routed.
    destruct (get_model_pure (deref w1 registry) t pc) as [m|] eqn:Hsel; [|discriminate].
    unfold ret in routed. injection routed as <- <- <-.
    exists h, t, pc.
    split; [exact Hh|]. split; [reflexivity|].
    assert (Hkeys : forall tail : metadata,
              let md := ([("routing"%string, VStr method);
                          ("heuristic_score"%string, VFloat (score h));
                          ("heuristic_reasons"%string, VReasons (reasons h));
                          ("tier"%string, VStr (tier_name t));
                          ("selected_model"%string, VStr (id m));
                          ("prefer_coder"%string, VBool pc)]
                         ++ tail)%list in
              assoc "routing" md = Some (VStr method) /\
              assoc "classifier_reason" md = assoc "classifier_reason" tail /\
              assoc "heuristic_score" md = Some (VFloat (score h)) /\
              assoc "heuristic_reasons" md = Some (VReasons (reasons h)) /\
              assoc "tier" md = Some (VStr (tier_name t)) /\
              assoc "selected_model" md = Some (VStr (id m)) /\
              assoc "prefer_coder" md = Some (VBool pc) /\
              forall k, In k audit_keys -> has_key k md).
    { intros tail md0. subst md0. cbn [app].
      split; [reflexivity|]. split; [reflexivity|].
      split; [reflexivity|]. split; [reflexivity|].
      split; [reflexivity|]. split; [reflexivity|]. split; [reflexivity|].
      intros k Hk. unfold has_key, audit_keys in *.
      repeat (destruct Hk as [<-|Hk];
              [cbn [assoc String.eqb Ascii.eqb Bool.eqb]; discriminate|]).
      destruct Hk. }
    assert (Hmodel : fst (get_model_for_tier (_registry w1) t pc w1) = Ok (Some m)).
    { rewrite <- Hreg, get_model_for_tier_run. cbn [fst]. rewrite Hsel. reflexivity. }
    destruct (json_truthy reason) eqn:Etr.
    + destruct (Hkeys [("classifier_reason"%string, VJson reason)])
        as (K1 & K2 & K3 & K4 & K5 & K6 & K7 & K8).
      split; [|repeat split; assumption].
      destruct Hcase as [(Hc & Ht & Hm & Hr)|(Hc & Hcl & Hm)].
      * subst reason. discriminate Etr.
      * right. split; [exact Hc|]. exists reason.
        split; [exact Hcl|]. subst method. split; [exact K1|].
        rewrite Etr. exact K2.
    + destruct (Hkeys []) as (K1 & K2 & K3 & K4 & K5 & K6 & K7 & K8).
      cbn [app] in K1, K2, K3, K4, K5, K6, K7, K8.
      split; [|repeat split; assumption].
      destruct Hcase as [(Hc & Ht & Hm & Hr)|(Hc & Hcl & Hm)].
      * left. split; [exact Hc|]. split; [exact Ht|].
        subst method. split; [exact K1|exact K2].
      * right. split; [exact Hc|]. exists reason.
        split; [exact Hcl|]. subst method. split; [exact K1|].
        rewrite Etr. exact K2.
Qed.

End RouterFacts.

(** The one-line question of the test suite, routed by the heuristic to
    the small model of a process that serves three. *)
Lemma route_request_metadata_witness :
  let w := world_listing ["mistral-7b"; "qwen2.5-coder-14b"; "llama-70b"]%string in
  let jl := fun _ : string => @Raise json JSONDecodeError in
  let ios := fun _ : string => @Raise Z ValueError in
  let be := fun _ _ : string => @Raise json HTTPError in
  let messages := [{| role := Some "user"%string; content := Text "What is 2+2?" |}] in
  exists model md,
    route_request jl ios be (1001 # 1) (Raise HTTPError) None messages None None w
    = (Ok (model, md), w) /\
    assoc "routing" md = Some (VStr "heuristic") /\
    assoc "tier" md = Some (VStr "SMALL") /\
    assoc "selected_model" md = Some (VStr "mistral-7b") /\
    forall k, In k audit_keys -> has_key k md.
Proof.
  intros w jl ios be messages.
  eexists. eexists.
  assert (R : route_request jl ios be (1001 # 1) (Raise HTTPError) None messages None None w
              = (Ok ({| id := "mistral-7b"; total_params := Some (7 # 1)%Q;
                        active_params := None; tier := SMALL; is_coder := false |},
                     [("routing"%string, VStr "heuristic");
                      ("heuristic_score"%string, VFloat (0 # 1)%Q);
                      ("heuristic_reasons"%string,
                       VReasons [VeryShort 3; SimpleKeywords ["What is"%string]]);
                      ("tier"%string, VStr "SMALL");
                      ("selected_model"%string, VStr "mistral-7b");
                      ("prefer_coder"%string, VBool false)]), w))
    by (vm_compute; reflexivity).
  split; [exact R|]. split; [reflexivity|]. split; [reflexivity|]. split; [reflexivity|].
  destruct (route_request_metadata jl ios be (1001 # 1) (Raise HTTPError) None
              messages None None w w _ _ R) as [(name & Hn & _) | (h & t & pc & H)].
  - discriminate Hn.
  - exact (proj2 (proj2 (proj2 (proj2 (proj2 (proj2 (proj2 (proj2 (proj2 H))))))))).
Defined.

(** A score of 0.8 under the default thresholds is confident, the sum
    [0.7 + 0.1] being 0.7999999999999999 in binary64: the request is
    routed by the heuristic, to the LARGE tier. *)
Example is_confident_at_point_eight :
  is_confident Config.default (lit64 (8 # 10)) = true /\
  _score_to_tier Config.default (lit64 (8 # 10)) = LARGE.
Proof. split; vm_compute; reflexivity. Qed.

(** C9 as stated fails: a request that names a model of the registry is
    routed explicitly, and its metadata holds no heuristic score. *)
Lemma metadata_complete_counterexample : ~ metadata_complete_as_stated.
Proof.
  intros H.
  pose (w := world_listing ["mistral-7b"; "qwen2.5-coder-14b"; "llama-70b"]%string).
  specialize (H (fun _ => Raise JSONDecodeError) (fun _ => Raise ValueError)
                (fun _ _ => Raise HTTPError) (1001 # 1)%Q (Raise HTTPError) None
                [{| role := Some "user"%string; content := Text "What is 2+2?" |}] None
                (Some "llama-70b"%string) w
                {| id := "llama-70b"; total_params := Some (70 # 1)%Q;
                   active_params := None; tier := LARGE; is_coder := false |}
                [("routing"%string, VStr "explicit");
                 ("requested_model"%string, VStr "llama-70b")] w).
  assert (K : has_key "heuristic_score"
                [("routing"%string, VStr "explicit");
                 ("requested_model"%string, VStr "llama-70b")]).
  { apply H; [vm_compute; reflexivity|]. unfold audit_keys. right. left. reflexivity. }
  apply K. reflexivity.
Qed.

(* ===================================================================== *)
(** ** Further properties of the code                                    *)
(* ===================================================================== *)

(** *** models.py: selection *)

Lemma filter_is_coder_nil l :
  (forall x, In x l -> is_coder x = false) -> filter is_coder l = [].
Proof.
  induction l as [|a l IH]; intros H; simpl; [reflexivity|].
  rewrite (H a (or_introl eq_refl)). apply IH. intros x Hx. apply H. now right.
Qed.

(** X1. A request that prefers a coder, on a registry with models: if some
    candidate is a coder model the largest coder candidate is returned,
    and if none is, the largest candidate. *)
Theorem get_model_for_tier_coder_request (w : World) (self : nat) (t : Tier) :
  let reg := deref w self in
  let c := spec_candidates reg t in
  let result := fst (get_model_for_tier self t true w) in
  models reg <> [] ->
  ((exists x, In x c /\ is_coder x = true) ->
   exists m, result = Ok (Some m) /\ largest_of (filter is_coder c) m /\ is_coder m = true) /\
  ((forall x, In x c -> is_coder x = false) ->
   exists m, result = Ok (Some m) /\ largest_of c m).
Proof.
  intros reg c result Hne. subst result.
  rewrite get_model_for_tier_run. cbn [fst]. fold reg.
  unfold get_model_pure. fold c.
  assert (Hc : c <> []).
  { intros E. apply Hne. exact (candidates_empty reg t E). }
  destruct (is_empty c) eqn:Ec; [apply is_empty_true in Ec; contradiction|].
  split.
  - intros (x & Hx & Hcx).
    assert (Hf : filter is_coder c <> []).
    { intros E. assert (Hin : In x (filter is_coder c)) by (apply filter_In; auto).
      rewrite E in Hin. exact Hin. }
    destruct (is_empty (filter is_coder c)) eqn:E;
      [apply is_empty_true in E; contradiction|].
    destruct (max_by_some effective_params _ Hf) as [m Hm].
    exists m. rewrite Hm. split; [reflexivity|].
    pose proof (max_by_spec _ _ _ Hm) as Hs. split; [exact Hs|].
    destruct Hs as [Hin _]. apply filter_In in Hin. tauto.
  - intros Hall. rewrite (filter_is_coder_nil c Hall). cbn [is_empty].
    destruct (max_by_some effective_params _ Hc) as [m Hm].
    exists m. rewrite Hm. split; [reflexivity|]. exact (max_by_spec _ _ _ Hm).
Qed.

(** The registry of the test suite's coder case, as a backend lists it:
    the LARGE coder is returned although the LARGE general model is as
    large or larger in total. *)
Lemma get_model_for_tier_coder_request_witness :
  let w := world_listing ["llama-70b"; "qwen2.5-coder-32b"]%string in
  models (deref w (_registry w)) <> [] /\
  exists m, fst (get_model_for_tier (_registry w) LARGE true w) = Ok (Some m)
            /\ largest_of (filter is_coder (spec_candidates (deref w (_registry w)) LARGE)) m
            /\ is_coder m = true.
Proof.
  intros w.
  assert (Hne : models (deref w (_registry w)) <> []) by (vm_compute; discriminate).
  split; [exact Hne|].
  refine (proj1 (get_model_for_tier_coder_request w (_registry w) LARGE Hne) _).
  exists {| id := "qwen2.5-coder-32b"; total_params := Some (32 # 1)%Q;
            active_params := None; tier := LARGE; is_coder := true |}.
  split; [vm_compute; right; left; reflexivity | reflexivity].
Defined.

(** X2. The requested tier is kept whenever it can be: if the tier has a
    model and the request prefers a coder, or the tier has a non-coder
    model, the model returned is of the requested tier. *)
Theorem get_model_for_tier_keeps_tier (w : World) (self : nat) (t : Tier)
        (prefer_coder : bool) :
  let reg := deref w self in
  in_tier reg t <> [] ->
  (prefer_coder = true \/ exists x, In x (in_tier reg t) /\ is_coder x = false) ->
  exists m, fst (get_model_for_tier self t prefer_coder w) = Ok (Some m) /\ tier m = t.
Proof.
  intros reg Hne Hcase.
  rewrite get_model_for_tier_run. cbn [fst]. fold reg.
  unfold get_model_pure.
  assert (Hc : spec_candidates reg t = in_tier reg t).
  { unfold spec_candidates. destruct (in_tier reg t); [congruence|reflexivity]. }
  rewrite Hc.
  destruct (is_empty (in_tier reg t)) eqn:Ec; [apply is_empty_true in Ec; contradiction|].
  assert (Hsub : forall l m, (forall x, In x l -> In x (in_tier reg t)) ->
                             max_by effective_params l = Some m -> tier m = t).
  { intros l m Hl Hm. apply max_by_spec in Hm. destruct Hm as [Hm _].
    apply Hl, in_tier_sub in Hm. tauto. }
  assert (Hfil : forall (p : ModelInfo -> bool) x, In x (filter p (in_tier reg t)) ->
                                                   In x (in_tier reg t)).
  { intros p x Hx. apply filter_In in Hx. tauto. }
  destruct prefer_coder.
  - destruct (is_empty (filter is_coder (in_tier reg t))) eqn:E.
    + destruct (max_by_some effective_params _ Hne) as [m Hm].
      exists m. rewrite Hm. split; [reflexivity|]. eapply Hsub; [|exact Hm]. auto.
    + apply is_empty_false in E.
      destruct (max_by_some effective_params _ E) as [m Hm].
      exists m. rewrite Hm. split; [reflexivity|]. eapply Hsub; [|exact Hm]. apply Hfil.
  - destruct Hcase as [Hpc|Hex]; [discriminate|].
    pose proof (filter_non_coder_nonempty _ Hex) as Hf.
    destruct (is_empty (filter non_coder (in_tier reg t))) eqn:E;
      [apply is_empty_true in E; contradiction|].
    destruct (max_by_some effective_params _ Hf) as [m Hm].
    exists m. rewrite Hm. split; [reflexivity|]. eapply Hsub; [|exact Hm]. apply Hfil.
Qed.

Lemma get_model_for_tier_keeps_tier_witness :
  let w := world_listing ["mistral-7b"; "qwen2.5-coder-14b"; "llama-70b"]%string in
  in_tier (deref w (_registry w)) MEDIUM <> [] /\
  exists m, fst (get_model_for_tier (_registry w) MEDIUM true w) = Ok (Some m)
            /\ tier m = MEDIUM.
Proof.
  intros w.
  assert (Hne : in_tier (deref w (_registry w)) MEDIUM <> []) by (vm_compute; discriminate).
  split; [exact Hne|].
  exact (get_model_for_tier_keeps_tier w (_registry w) MEDIUM true Hne (or_introl eq_refl)).
Defined.

(** *** classifier.py: the model that classifies *)

Lemma fold_min_spec {A} (key : A -> Q) (t : list A) : forall x,
  let m := fold_left (fun best y => if Qlt_bool (key y) (key best) then y else best) t x in
  (m = x \/ In m t) /\ (key m <= key x)%Q /\ forall y, In y t -> (key m <= key y)%Q.
Proof.
  induction t as [|a t IH]; intros x; simpl.
  - split; [now left|]. split; [apply Qle_refl|]. intros y [].
  - specialize (IH (if Qlt_bool (key a) (key x) then a else x)).
    simpl in IH. destruct IH as (Hin & Hle & Hall).
    destruct (Qlt_bool (key a) (key x)) eqn:E.
    + apply Qlt_bool_true in E.
      split; [destruct Hin as [->|Hin]; auto|].
      split; [eapply Qle_trans; [exact Hle | apply Qlt_le_weak, E]|].
      intros y [<-|Hy]; auto.
    + apply Qlt_bool_false in E.
      split; [destruct Hin as [->|Hin]; auto|].
      split; [exact Hle|].
      intros y [<-|Hy]; auto. eapply Qle_trans; eauto.
Qed.

Lemma min_by_spec {A} (key : A -> Q) (l : list A) m :
  min_by key l = Some m -> In m l /\ forall x, In x l -> (key m <= key x)%Q.
Proof.
  destruct l as [|x t]; simpl; [discriminate|].
  intros H. injection H as <-.
  destruct (fold_min_spec key t x) as (Hin & Hle & Hall).
  split; [destruct Hin as [->|Hin]; auto|].
  intros y [<-|Hy]; auto.
Qed.

(** X3. A configured classifier model is used whatever the registry holds;
    with none configured and a SMALL model in the registry, the SMALL
    model of least [effective_params] classifies. *)
Theorem choose_classifier_model_policy (w : World) :
  let reg := deref w (_registry w) in
  (classifier_model (_config w) <> ""%string ->
   fst (choose_classifier_model w) = Ok (Some (classifier_model (_config w)))) /\
  (classifier_model (_config w) = ""%string -> in_tier reg SMALL <> [] ->
   exists m, fst (choose_classifier_model w) = Ok (Some (id m))
             /\ In m (in_tier reg SMALL)
             /\ forall x, In x (in_tier reg SMALL) ->
                          (effective_params m <= effective_params x)%Q).
Proof.
  intros reg. unfold choose_classifier_model, get_registry, get_config. cbn [bind].
  split.
  - intros Hc. destruct (String.eqb (classifier_model (_config w)) "") eqn:E.
    + apply String.eqb_eq in E. contradiction.
    + reflexivity.
  - intros Hc Hs. rewrite Hc. cbn [String.eqb negb].
    rewrite (bind_run _ (by_tier_run (_registry w) SMALL w)). fold reg.
    destruct (in_tier reg SMALL) as [|x l] eqn:Es; [congruence|]. cbn [is_empty negb].
    unfold smallest_id.
    destruct (min_by effective_params (x :: l)) as [m|] eqn:Em; [|discriminate].
    exists m. split; [reflexivity|]. exact (min_by_spec _ _ _ Em).
Qed.

Lemma choose_classifier_model_policy_witness :
  let w := world_listing ["mistral-7b"; "gemma-3-4b"; "llama-70b"]%string in
  classifier_model (_config w) = ""%string /\
  in_tier (deref w (_registry w)) SMALL <> [] /\
  fst (choose_classifier_model w) = Ok (Some "gemma-3-4b"%string).
Proof.
  intros w.
  assert (Hc : classifier_model (_config w) = ""%string) by reflexivity.
  assert (Hs : in_tier (deref w (_registry w)) SMALL <> []) by (vm_compute; discriminate).
  split; [exact Hc|]. split; [exact Hs|].
  destruct (proj2 (choose_classifier_model_policy w) Hc Hs) as (m & Hm & _ & _).
  vm_compute. reflexivity.
Defined.

(** *** models.py: refreshing *)

Lemma refresh_models_gate force now listing disk w :
  refresh_models force now listing disk w =
  if negb force
     && Qlt_bool (now - _last_refresh (deref w (_registry w)))%Q (model_cache_ttl (_config w))
  then (Ok (_registry w), w)
  else match refresh_body now listing disk w with
       | (Ok _, w') => (Ok (_registry w'), w')
       | (Raise e, w') =>
           if is_empty (models (deref w' (_registry w')))
           then (Raise e, w') else (Ok (_registry w'), w')
       end.
Proof.
  unfold refresh_models, get_registry, get_config, load. cbn [bind].
  destruct (negb force && _); [reflexivity|].
  unfold try_catch, bind, raise, ret.
  destruct (refresh_body now listing disk w) as [[u|e] w']; [reflexivity|].
  destruct (is_empty (models (deref w' (_registry w')))); reflexivity.
Qed.

(** X4. Within the TTL an unforced [refresh_models] asks nothing of the
    backend: whatever the listing would be, it returns the current
    registry and leaves the process state as it is. *)
Theorem refresh_models_within_ttl (now : Q) (listing : result json)
        (disk : option RouterConfig) (w : World) :
  (now - _last_refresh (deref w (_registry w)) < model_cache_ttl (_config w))%Q ->
  refresh_models false now listing disk w = (Ok (_registry w), w).
Proof.
  intros H. rewrite refresh_models_gate. cbn [negb andb].
  assert (E : Qlt_bool (now - _last_refresh (deref w (_registry w)))%Q
                       (model_cache_ttl (_config w)) = true).
  { unfold Qlt_bool. apply negb_true_iff.
    destruct (Qle_bool _ _) eqn:L; [|reflexivity].
    apply Qle_bool_iff in L. exfalso. exact (Qlt_not_le _ _ H L). }
  rewrite E. reflexivity.
Qed.

Lemma refresh_models_within_ttl_witness :
  let w := world_listing ["mistral-7b"; "llama-70b"]%string in
  ((1200 # 1) - _last_refresh (deref w (_registry w)) < model_cache_ttl (_config w))%Q /\
  refresh_models false (1200 # 1) (Raise HTTPError) None w = (Ok (_registry w), w).
Proof.
  intros w.
  assert (H : ((1200 # 1) - _last_refresh (deref w (_registry w))
               < model_cache_ttl (_config w))%Q) by (vm_compute; reflexivity).
  split; [exact H|].
  exact (refresh_models_within_ttl (1200 # 1) (Raise HTTPError) None w H).
Defined.

(** X5. A failed fetch changes nothing at all: neither a registry object,
    nor the global registry, nor the configuration (the configuration
    file is not even read). *)
Theorem refresh_models_fetch_failure_frame (force : bool) (now : Q) (e : exn)
        (disk : option RouterConfig) (w : World) :
  snd (refresh_models force now (Raise e) disk w) = w.
Proof.
  rewrite refresh_models_gate.
  destruct (negb force && _); [reflexivity|].
  rewrite refresh_body_run.
  destruct (is_empty (models (deref w (_registry w)))); reflexivity.
Qed.

(** X6. A refresh that succeeded is not repeated within the TTL of the
    configuration it loaded: the next unforced call returns the registry
    just built, whatever the backend and the configuration file have
    become. *)
Theorem refresh_models_then_cached (force : bool) (now now' : Q) (data : json)
        (disk disk' : option RouterConfig) (listing' : result json)
        (w w1 : World) (r : nat) (reg : ModelRegistry) :
  refresh_due force now w ->
  built_registry (loaded_config disk) now data = Ok reg ->
  refresh_models force now (Ok data) disk w = (Ok r, w1) ->
  (now' - now < model_cache_ttl (loaded_config disk))%Q ->
  deref w1 r = reg /\
  refresh_models false now' listing' disk' w1 = (Ok r, w1).
Proof.
  intros Hdue Hbuilt Hrun Hlt.
  rewrite refresh_models_gate in Hrun. unfold refresh_due in Hdue. rewrite Hdue in Hrun.
  rewrite refresh_body_run in Hrun. cbn zeta in Hrun. rewrite Hbuilt in Hrun.
  injection Hrun as <- <-. cbn [_registry].
  assert (Hd : deref {| registries := registries w ++ [reg];
                        _registry := List.length (registries w);
                        _config := loaded_config disk |} (List.length (registries w)) = reg).
  { unfold deref. cbn [registries]. apply nth_middle. }
  split; [exact Hd|].
  apply (refresh_models_within_ttl now' listing' disk').
  cbn [_registry _config]. rewrite Hd.
  unfold built_registry in Hbuilt.
  destruct (rbind (get data "data" (JArr [])) iterate) as [entries|e0]; [|discriminate].
  cbn [rbind] in Hbuilt.
  destruct (build_models _ _ entries []) as [nm|e0]; [|discriminate].
  cbn [rbind] in Hbuilt. injection Hbuilt as <-. cbn [_last_refresh]. exact Hlt.
Qed.

Lemma refresh_models_then_cached_witness :
  let data := listing_of ["mistral-7b"; "llama-70b"]%string in
  let w1 := world_listing ["mistral-7b"; "llama-70b"]%string in
  exists reg,
    refresh_due true (1000 # 1) initial_world /\
    built_registry (loaded_config None) (1000 # 1) data = Ok reg /\
    refresh_models true (1000 # 1) (Ok data) None initial_world = (Ok 1, w1) /\
    ((1200 # 1) - (1000 # 1) < model_cache_ttl (loaded_config None))%Q /\
    deref w1 1 = reg /\
    refresh_models false (1200 # 1) (Raise HTTPError) None w1 = (Ok 1, w1).
Proof.
  intros data w1.
  eexists.
  assert (D : refresh_due true (1000 # 1) initial_world) by reflexivity.
  assert (B : built_registry (loaded_config None) (1000 # 1) data
              = Ok {| models :=
                        [("mistral-7b"%string,
                          {| id := "mistral-7b"; total_params := Some (7 # 1)%Q;
                             active_params := None; tier := SMALL; is_coder := false |});
                         ("llama-70b"%string,
                          {| id := "llama-70b"; total_params := Some (70 # 1)%Q;
                             active_params := None; tier := LARGE; is_coder := false |})];
                      _last_refresh := (1000 # 1)%Q |}) by (vm_compute; reflexivity).
  assert (R : refresh_models true (1000 # 1) (Ok data) None initial_world = (Ok 1, w1))
    by (vm_compute; reflexivity).
  assert (L : ((1200 # 1) - (1000 # 1) < model_cache_ttl (loaded_config None))%Q)
    by (vm_compute; reflexivity).
  split; [exact D|]. split; [exact B|]. split; [exact R|]. split; [exact L|].
  exact (refresh_models_then_cached true (1000 # 1) (1200 # 1) data None None
           (Raise HTTPError) initial_world w1 1 _ D B R L).
Defined.

(** *** models.py: what a refresh puts into the registry *)

Lemma setitem_in d k v k' v' :
  In (k', v') (setitem d k v) -> (k' = k /\ v' = v) \/ In (k', v') d.
Proof.
  induction d as [|[k0 v0] d IH]; simpl.
  - intros [H|[]]. injection H as <- <-. auto.
  - destruct (String.eqb k k0) eqn:E.
    + apply String.eqb_eq in E. subst k0.
      intros [H|H]; [injection H as <- <-; auto | right; right; exact H].
    + intros [H|H]; [right; left; exact H|].
      destruct (IH H) as [?|?]; [auto | right; right; assumption].
Qed.

Lemma setitem_keys d k v :
  forall k', In k' (map fst (setitem d k v)) -> k' = k \/ In k' (map fst d).
Proof.
  induction d as [|[k0 v0] d IH]; simpl; intros k'.
  - intros [H|[]]; auto.
  - destruct (String.eqb k k0) eqn:E; simpl.
    + intros [H|H]; auto.
    + intros [H|H]; [auto|]. destruct (IH _ H); auto.
Qed.

Lemma setitem_nodup d k v : NoDup (map fst d) -> NoDup (map fst (setitem d k v)).
Proof.
  induction d as [|[k0 v0] d IH]; simpl; intros H.
  - constructor; [intros []|constructor].
  - inversion H as [|? ? Hnin Hnd]; subst.
    destruct (String.eqb k k0) eqn:E; simpl.
    + constructor; assumption.
    + constructor; [|apply IH, Hnd].
      intros Hin. destruct (setitem_keys d k v k0 Hin) as [->|Hin'].
      * rewrite String.eqb_refl in E. discriminate.
      * contradiction.
Qed.

Lemma build_model_info_facts cfg model_id info :
  _build_model_info cfg model_id = Ok (Some info) ->
  id info = model_id /\ _is_chat_model model_id = true.
Proof.
  unfold _build_model_info.
  destruct (_is_chat_model model_id); cbn [negb]; [|discriminate].
  destruct (_extract_params model_id) as [[tp ap]|e]; cbn [rbind]; [|discriminate].
  intros H. injection H as <-. split; reflexivity.
Qed.

Lemma apply_tier_override_id cfg k info : id (apply_tier_override cfg k info) = id info.
Proof.
  unfold apply_tier_override.
  destruct (get_tier_override cfg k) as [o|]; [|reflexivity].
  destruct (String.eqb o ""); [reflexivity|].
  destruct (tier_by_name o); reflexivity.
Qed.

Lemma build_models_invariant cfg rcfg entries :
  forall acc out,
    build_models cfg rcfg entries acc = Ok out ->
    NoDup (map fst acc) ->
    (forall k m, In (k, m) acc -> registered cfg rcfg k m) ->
    NoDup (map fst out) /\ forall k m, In (k, m) out -> registered cfg rcfg k m.
Proof.
  induction entries as [|entry rest IH]; intros acc out; simpl.
  - intros H. injection H as <-. auto.
  - destruct (model_id_of entry) as [model_id|e]; cbn [rbind]; [|discriminate].
    destruct (_build_model_info cfg model_id) as [[info|]|e] eqn:B; cbn [rbind];
      [| apply IH | discriminate].
    destruct (is_model_enabled rcfg model_id) eqn:En; cbn [negb]; [|apply IH].
    intros H Hnd Hall. apply (IH _ _ H).
    + apply setitem_nodup, Hnd.
    + intros k m Hin. destruct (setitem_in _ _ _ _ _ Hin) as [[-> ->]|Hin'].
      * exists info. auto.
      * apply Hall, Hin'.
Qed.

(** X7. Every entry of a registry built from a listing is keyed by its own
    id, names a chat model that the configuration enables, and carries
    the [ModelInfo] built from the id with the configured tier override
    applied; no id occurs twice; and the registry is stamped with the
    time of the refresh. *)
Theorem built_registry_entries (cfg : RouterConfig) (now : Q) (data : json)
        (reg : ModelRegistry) :
  built_registry cfg now data = Ok reg ->
  NoDup (map fst (models reg)) /\
  _last_refresh reg = now /\
  forall k m, In (k, m) (models reg) ->
    id m = k /\ _is_chat_model k = true /\ is_model_enabled cfg k = true /\
    exists info, _build_model_info cfg k = Ok (Some info)
                 /\ m = apply_tier_override cfg k info.
Proof.
  unfold built_registry.
  destruct (rbind (get data "data" (JArr [])) iterate) as [entries|e]; [|discriminate].
  cbn [rbind].
  destruct (build_models cfg cfg entries []) as [nm|e] eqn:B; [|discriminate].
  cbn [rbind]. intros H. injection H as <-. cbn [models _last_refresh].
  destruct (build_models_invariant cfg cfg entries [] nm B) as [Hnd Hall].
  { constructor. }
  { intros k m []. }
  split; [exact Hnd|]. split; [reflexivity|].
  intros k m Hin. destruct (Hall k m Hin) as (info & Hb & Hen & ->).
  destruct (build_model_info_facts _ _ _ Hb) as [Hid Hchat].
  split; [rewrite apply_tier_override_id; exact Hid|].
  split; [exact Hchat|]. split; [exact Hen|].
  exists info. auto.
Qed.

Lemma built_registry_entries_witness :
  exists reg,
    built_registry Config.default (1000 # 1)
      (listing_of ["gemma-3-4b"; "nomic-embed-text:latest"; "gemma-3-4b"]%string) = Ok reg /\
    NoDup (map fst (models reg)) /\
    map fst (models reg) = ["gemma-3-4b"%string].
Proof.
  eexists.
  assert (B : built_registry Config.default (1000 # 1)
                (listing_of ["gemma-3-4b"; "nomic-embed-text:latest"; "gemma-3-4b"]%string)
              = Ok {| models :=
                        [("gemma-3-4b"%string,
                          {| id := "gemma-3-4b"; total_params := Some (4 # 1)%Q;
                             active_params := None; tier := SMALL; is_coder := false |})];
                      _last_refresh := (1000 # 1)%Q |}) by (vm_compute; reflexivity).
  split; [exact B|].
  split; [exact (proj1 (built_registry_entries _ _ _ _ B)) | reflexivity].
Defined.

(** X8. A tier override of the configuration wins over the parameter count:
    a model whose id the configuration maps to the name of a tier is
    registered in that tier. *)
Theorem built_registry_tier_override (cfg : RouterConfig) (now : Q) (data : json)
        (reg : ModelRegistry) (k : string) (m : ModelInfo) (t : Tier) :
  built_registry cfg now data = Ok reg ->
  In (k, m) (models reg) ->
  get_tier_override cfg k = Some (tier_name t) ->
  tier m = t.
Proof.
  unfold built_registry.
  destruct (rbind (get data "data" (JArr [])) iterate) as [entries|e]; [|discriminate].
  cbn [rbind].
  destruct (build_models cfg cfg entries []) as [nm|e] eqn:B; [|discriminate].
  cbn [rbind]. intros H Hin Hov. injection H as <-. cbn [models] in Hin.
  destruct (build_models_invariant cfg cfg entries [] nm B) as [_ Hall].
  { constructor. }
  { intros k0 m0 []. }
  destruct (Hall k m Hin) as (info & _ & _ & ->).
  unfold apply_tier_override. rewrite Hov.
  destruct t; reflexivity.
Qed.

Lemma built_registry_tier_override_witness :
  let cfg := {| tier1_max_params := 8 # 1; tier2_max_params := 27 # 1;
                heuristic_low_threshold := 3 # 10; heuristic_high_threshold := 7 # 10;
                classifier_model := ""; model_cache_ttl := 300 # 1;
                filter_mode := "blocklist"; allowed_models := []; excluded_models := [];
                tier_overrides := [("gemma-3-4b"%string, "LARGE"%string)] |} in
  exists reg m,
    built_registry cfg (1000 # 1) (listing_of ["gemma-3-4b"]%string) = Ok reg /\
    In ("gemma-3-4b"%string, m) (models reg) /\
    get_tier_override cfg "gemma-3-4b" = Some (tier_name LARGE) /\
    tier m = LARGE.
Proof.
  intros cfg. eexists. eexists.
  assert (B : built_registry cfg (1000 # 1) (listing_of ["gemma-3-4b"]%string)
              = Ok {| models :=
                        [("gemma-3-4b"%string,
                          {| id := "gemma-3-4b"; total_params := Some (4 # 1)%Q;
                             active_params := None; tier := LARGE; is_coder := false |})];
                      _last_refresh := (1000 # 1)%Q |}) by (vm_compute; reflexivity).
  assert (I : In ("gemma-3-4b"%string,
                  {| id := "gemma-3-4b"; total_params := Some (4 # 1)%Q;
                     active_params := None; tier := LARGE; is_coder := false |})
                 (models {| models :=
                              [("gemma-3-4b"%string,
                                {| id := "gemma-3-4b"; total_params := Some (4 # 1)%Q;
                                   active_params := None; tier := LARGE; is_coder := false |})];
                            _last_refresh := (1000 # 1)%Q |})) by (left; reflexivity).
  assert (O : get_tier_override cfg "gemma-3-4b" = Some (tier_name LARGE)) by reflexivity.
  split; [exact B|]. split; [exact I|]. split; [exact O|].
  exact (built_registry_tier_override cfg (1000 # 1) _ _ _ _ LARGE B I O).
Defined.

(** *** router.py: from score to tier *)

(** X9. [_score_to_tier] is monotonic in the score, whatever the thresholds. *)
Theorem score_to_tier_monotone (cfg : RouterConfig) (s1 s2 : Q) :
  (s1 <= s2)%Q -> tier_le (_score_to_tier cfg s1) (_score_to_tier cfg s2).
Proof.
  intros H. unfold _score_to_tier, tier_le.
  destruct (Qle_bool s1 (heuristic_low_threshold cfg)) eqn:A1.
  - destruct (Qle_bool s2 (heuristic_low_threshold cfg)); [cbn; lia|].
    destruct (Qle_bool (heuristic_high_threshold cfg) s2); cbn; lia.
  - assert (A2 : Qle_bool s2 (heuristic_low_threshold cfg) = false).
    { destruct (Qle_bool s2 (heuristic_low_threshold cfg)) eqn:E; [|reflexivity].
      apply Qle_bool_iff in E.
      assert (C : Qle_bool s1 (heuristic_low_threshold cfg) = true)
        by (apply Qle_bool_iff; eapply Qle_trans; eauto).
      congruence. }
    rewrite A2.
    destruct (Qle_bool (heuristic_high_threshold cfg) s1) eqn:B1.
    + apply Qle_bool_iff in B1.
      assert (B2 : Qle_bool (heuristic_high_threshold cfg) s2 = true)
        by (apply Qle_bool_iff; eapply Qle_trans; eauto).
      rewrite B2. cbn. lia.
    + destruct (Qle_bool (heuristic_high_threshold cfg) s2); cbn; lia.
Qed.

Lemma score_to_tier_monotone_witness :
  ((1 # 10) <= (5 # 10))%Q /\
  tier_le (_score_to_tier Config.default (1 # 10)) (_score_to_tier Config.default (5 # 10)).
Proof.
  assert (H : ((1 # 10) <= (5 # 10))%Q) by (vm_compute; discriminate).
  split; [exact H|]. exact (score_to_tier_monotone Config.default _ _ H).
Defined.

Lemma Qlt_bool_iff a b : Qlt_bool a b = true <-> (a < b)%Q.
Proof.
  split; [apply Qlt_bool_true|].
  intros H. unfold Qlt_bool. apply negb_true_iff.
  destruct (Qle_bool b a) eqn:E; [|reflexivity].
  apply Qle_bool_iff in E. exfalso. exact (Qlt_not_le _ _ H E).
Qed.

Lemma Qle_bool_false a b : Qle_bool a b = false -> (b < a)%Q.
Proof.
  intros H. apply Qnot_le_lt. intros L. apply Qle_bool_iff in L. congruence.
Qed.

(** The bounds of the confidence test under the default thresholds. *)
Lemma default_confidence_bounds :
  float_sub (heuristic_low_threshold Config.default) (lit64 (1 # 10)) = small_below /\
  float_add (heuristic_low_threshold Config.default) (lit64 (1 # 10)) = medium_from /\
  float_sub (heuristic_high_threshold Config.default) (lit64 (1 # 10)) = medium_upto /\
  float_add (heuristic_high_threshold Config.default) (lit64 (1 # 10)) = large_above.
Proof. vm_compute. repeat split; reflexivity. Qed.

Lemma is_confident_default s :
  is_confident Config.default s
  = Qlt_bool s small_below
    || (Qle_bool medium_from s && Qle_bool s medium_upto)
    || Qlt_bool large_above s.
Proof.
  destruct default_confidence_bounds as (B1 & B2 & B3 & B4).
  unfold is_confident. rewrite B1, B2, B3, B4. reflexivity.
Qed.

(** The tier of every decimal with 3 places between 0 and 1, read back
    as a float, under the default thresholds. *)
Lemma score_to_tier_thousandths (n : Z) :
  (0 <= n <= 1000)%Z ->
  _score_to_tier Config.default (to_float (n # 1000))
  = if (n <=? 300)%Z then SMALL else if (700 <=? n)%Z then LARGE else MEDIUM.
Proof.
  intros Hn.
  assert (H : forallb (fun k =>
                         tier_eqb (_score_to_tier Config.default
                                     (to_float (Z.of_nat k # 1000)))
                                  (if (Z.of_nat k <=? 300)%Z then SMALL
                                   else if (700 <=? Z.of_nat k)%Z then LARGE else MEDIUM))
                      (seq 0 1001) = true) by (vm_compute; reflexivity).
  rewrite forallb_forall in H.
  specialize (H (Z.to_nat n)).
  rewrite Z2Nat.id in H by lia.
  assert (Hin : In (Z.to_nat n) (seq 0 1001)) by (apply in_seq; lia).
  apply H in Hin.
  destruct (_score_to_tier Config.default (to_float (n # 1000)));
    destruct (n <=? 300)%Z; destruct (700 <=? n)%Z; first [reflexivity | discriminate].
Qed.

(** X10. Under the default thresholds the heuristic and the router
    agree: a confident score lies in one of three regions, judged on the
    clamped sum before rounding against the bounds binary64 computes
    (below 0.19999999999999998, from 0.4 to 0.6, above
    0.7999999999999999), and the tier the router then reads off the
    rounded score is the tier of that region. *)
Theorem confident_score_tier (messages : list message) (tools : option (list tool))
        (h : HeuristicResult) :
  score_request Config.default messages tools = Ok h ->
  confident h = true ->
  exists raw,
    raw_score messages tools = Ok (raw, reasons h) /\
    let s := clamp01 raw in
    ((s < small_below)%Q /\ _score_to_tier Config.default (score h) = SMALL) \/
    ((medium_from <= s <= medium_upto)%Q /\ _score_to_tier Config.default (score h) = MEDIUM) \/
    ((large_above < s)%Q /\ _score_to_tier Config.default (score h) = LARGE).
Proof.
  unfold score_request.
  destruct (raw_score messages tools) as [[raw rs]|e]; cbn [rbind]; [|discriminate].
  intros H. injection H as <-. cbn [confident score reasons].
  intros Hc. exists raw. split; [reflexivity|]. cbv zeta.
  set (s := clamp01 raw) in *.
  destruct (round3_cases s (clamp01_bounds raw)) as (n & Hn & -> & Hlo & Hhi).
  rewrite (score_to_tier_thousandths n Hn).
  rewrite is_confident_default in Hc.
  unfold small_below, medium_from, medium_upto, large_above in *.
  apply orb_true_iff in Hc. destruct Hc as [Hc|Hc];
    [apply orb_true_iff in Hc; destruct Hc as [Hc|Hc]|].
  - left. apply Qlt_bool_true in Hc. split; [exact Hc|].
    assert (Hq : ((n # 1) < 401 # 2)%Q) by lra.
    assert (Hz : (n <= 200)%Z) by (unfold Qlt in Hq; cbn in Hq; lia).
    destruct (Z.leb_spec n 300); [reflexivity|lia].
  - right. left. apply andb_true_iff in Hc. destruct Hc as [H1 H2].
    apply Qle_bool_iff in H1, H2. split; [split; assumption|].
    assert (Hq1 : ((799 # 2) < (n # 1))%Q) by lra.
    assert (Hq2 : ((n # 1) < 1201 # 2)%Q) by lra.
    assert (Hz : (400 <= n <= 600)%Z)
      by (unfold Qlt in Hq1, Hq2; cbn in Hq1, Hq2; lia).
    destruct (Z.leb_spec n 300); [lia|].
    destruct (Z.leb_spec 700 n); [lia|reflexivity].
  - right. right. apply Qlt_bool_true in Hc. split; [exact Hc|].
    assert (Hq : ((799 # 1) < (n # 1))%Q) by lra.
    assert (Hz : (800 <= n)%Z) by (unfold Qlt in Hq; cbn in Hq; lia).
    destruct (Z.leb_spec n 300); [lia|].
    destruct (Z.leb_spec 700 n); [reflexivity|lia].
Qed.

Lemma confident_score_tier_witness :
  let messages := [{| role := Some "user"%string; content := Text "What is 2+2?" |}] in
  let h := {| score := 0%Q;
              reasons := [VeryShort 3; SimpleKeywords ["What is"%string]];
              confident := true |} in
  score_request Config.default messages None = Ok h /\
  confident h = true /\
  exists raw,
    raw_score messages None = Ok (raw, reasons h) /\
    let s := clamp01 raw in
    ((s < small_below)%Q /\ _score_to_tier Config.default (score h) = SMALL) \/
    ((medium_from <= s <= medium_upto)%Q /\ _score_to_tier Config.default (score h) = MEDIUM) \/
    ((large_above < s)%Q /\ _score_to_tier Config.default (score h) = LARGE).
Proof.
  intros messages h.
  assert (S : score_request Config.default messages None = Ok h) by (vm_compute; reflexivity).
  split; [exact S|]. split; [reflexivity|].
  exact (confident_score_tier messages None h S eq_refl).
Defined.

(** X11. Escalation is triggered near a threshold. Under the default
    thresholds a clamped sum is not confident exactly from
    0.19999999999999998 to below 0.4 and from above 0.6 to
    0.7999999999999999, the bounds binary64 computes for [0.3 - 0.1],
    [0.3 + 0.1], [0.7 - 0.1] and [0.7 + 0.1]; so 0.2 is not confident
    and 0.8 is. *)
Theorem near_threshold_not_confident (s : Q) :
  (is_confident Config.default s = false <->
   ((small_below <= s)%Q /\ (s < medium_from)%Q)
   \/ ((medium_upto < s)%Q /\ (s <= large_above)%Q)) /\
  is_confident Config.default (lit64 (2 # 10)) = false /\
  is_confident Config.default (lit64 (8 # 10)) = true.
Proof.
  split; [|split; vm_compute; reflexivity].
  rewrite is_confident_default.
  unfold small_below, medium_from, medium_upto, large_above.
  split.
  - intros H. apply orb_false_iff in H. destruct H as [H H3].
    apply orb_false_iff in H. destruct H as [H1 H2].
    apply Qlt_bool_false in H1, H3.
    apply andb_false_iff in H2. destruct H2 as [H2|H2]; apply Qle_bool_false in H2.
    + left. split; assumption.
    + right. split; assumption.
  - intros Hs.
    assert (E1 : Qlt_bool s (7205759403792793 # 36028797018963968) = false).
    { destruct (Qlt_bool s _) eqn:E; [|reflexivity].
      apply Qlt_bool_true in E. exfalso. destruct Hs as [[? ?]|[? ?]]; lra. }
    assert (E2 : Qle_bool (3602879701896397 # 9007199254740992) s
                 && Qle_bool s (5404319552844595 # 9007199254740992) = false).
    { destruct (Qle_bool (3602879701896397 # 9007199254740992) s) eqn:A; [|reflexivity].
      destruct (Qle_bool s (5404319552844595 # 9007199254740992)) eqn:B; [|reflexivity].
      apply Qle_bool_iff in A, B. exfalso. destruct Hs as [[? ?]|[? ?]]; lra. }
    assert (E3 : Qlt_bool (7205759403792793 # 9007199254740992) s = false).
    { destruct (Qlt_bool _ s) eqn:E; [|reflexivity].
      apply Qlt_bool_true in E. exfalso. destruct Hs as [[? ?]|[? ?]]; lra. }
    rewrite E1, E2, E3. reflexivity.
Qed.

(** *** router.py: the coder preference *)

Lemma last_three_app {A} (older recent : list A) :
  3 <= List.length recent -> last_three (older ++ recent) = last_three recent.
Proof.
  intros H. unfold last_three. rewrite length_app.
  replace (List.length older + List.length recent - 3)
    with (List.length older + (List.length recent - 3)) by lia.
  rewrite skipn_app.
  rewrite skipn_all2 by lia. cbn [app].
  f_equal. lia.
Qed.

(** X12. Only the last three user messages decide the coder preference:
    whatever precedes three user messages, of any role and content, does
    not change it. *)
Theorem is_coding_request_last_three (older recent : list message) :
  3 <= List.length (filter (has_role "user") recent) ->
  _is_coding_request (older ++ recent) = _is_coding_request recent.
Proof.
  intros H. unfold _is_coding_request.
  rewrite filter_app, (last_three_app _ _ H). reflexivity.
Qed.

Lemma is_coding_request_last_three_witness :
  let u := fun s => {| role := Some "user"%string; content := Text s |} in
  let older := [u "here is my python code"%string] in
  let recent := [u "thanks"%string; u "and the weather?"%string; u "ok"%string] in
  3 <= List.length (filter (has_role "user") recent) /\
  _is_coding_request older = Ok true /\
  _is_coding_request (older ++ recent) = Ok false.
Proof.
  intros u older recent.
  assert (H : 3 <= List.length (filter (has_role "user") recent)) by (vm_compute; lia).
  split; [exact H|]. split; [vm_compute; reflexivity|].
  rewrite (is_coding_request_last_three older recent H). vm_compute. reflexivity.
Defined.

Lemma scan_blocks_returns blocks :
  forallb text_is_str blocks = true -> exists hit, scan_blocks blocks = Ok hit.
Proof.
  induction blocks as [|b blocks IH]; intros H; [exists false; reflexivity|].
  simpl in H. apply andb_true_iff in H. destruct H as [Hb H].
  destruct b; try discriminate; cbn [scan_blocks]; try (apply IH, H).
  destruct (looks_like_code text); [eauto|apply IH, H].
Qed.

Lemma scan_messages_returns messages :
  texts_are_str messages = true -> exists hit, scan_messages messages = Ok hit.
Proof.
  induction messages as [|msg messages IH]; intros H; [exists false; reflexivity|].
  unfold texts_are_str in H. cbn [forallb] in H.
  apply andb_true_iff in H. destruct H as [Hm H].
  cbn [scan_messages]. destruct (content msg) as [s|blocks].
  - destruct (looks_like_code s); [eauto|apply IH, H].
  - destruct (scan_blocks_returns blocks Hm) as [hit ->]. cbn [rbind].
    destruct hit; [eauto|apply IH, H].
Qed.

Lemma is_coding_request_returns messages :
  texts_are_str messages = true -> exists pc, _is_coding_request messages = Ok pc.
Proof.
  intros H. unfold _is_coding_request, last_three.
  apply scan_messages_returns, texts_are_str_skipn, texts_are_str_filter, H.
Qed.

Lemma score_request_returns cfg messages tools :
  texts_are_str messages = true -> exists h, score_request cfg messages tools = Ok h.
Proof.
  intros H. destruct (raw_score_ok messages tools H) as [[raw rs] E].
  unfold score_request. rewrite E. cbn [rbind]. eauto.
Qed.

(** *** router.py: the two ends of [route_request] *)

Section RouteEnds.

Variable json_loads : string -> result json.
Variable int_of_str : string -> result Z.
Variable backend : string -> string -> result json.
Variable now : Q.
Variable listing : result json.
Variable disk : option RouterConfig.

Let route := route_request json_loads int_of_str backend now listing disk.

Lemma refresh_models_returns_global force w r w1 :
  refresh_models force now listing disk w = (Ok r, w1) -> r = _registry w1.
Proof.
  rewrite refresh_models_gate.
  destruct (negb force && _); [intros H; injection H as <- <-; reflexivity|].
  destruct (refresh_body now listing disk w) as [[u|e] w2].
  - intros H. injection H as <- <-. reflexivity.
  - destruct (is_empty (models (deref w2 (_registry w2)))); [discriminate|].
    intros H. injection H as <- <-. reflexivity.
Qed.

(** X13. A request that names a model of the refreshed registry gets that
    model, whatever its messages and tools and whatever the classifier
    backend would answer: nothing is scored and nothing is asked. *)
Theorem route_request_explicit (messages : list message) (tools : option (list tool))
        (name : string) (model : ModelInfo) (w w1 : World) (r : nat) :
  refresh_models false now listing disk w = (Ok r, w1) ->
  name <> ""%string ->
  assoc name (models (deref w1 r)) = Some model ->
  route messages tools (Some name) w
  = (Ok (model, [("routing"%string, VStr "explicit");
                 ("requested_model"%string, VStr name)]), w1).
Proof.
  intros R Hn Ha. unfold route, route_request.
  rewrite (bind_run _ R). unfold bind at 1, load at 1.
  apply String.eqb_neq in Hn. rewrite Hn, Ha. reflexivity.
Qed.

(** X14. With no model in the refreshed registry the request ends in the
    [RuntimeError] "No models available for routing", whatever model it
    names: the classifier, if asked, has answered MEDIUM by then. (A
    request with a text part whose ["text"] is no [str] ends in the
    [TypeError] of the scoring instead.) *)
Theorem route_request_no_models (messages : list message) (tools : option (list tool))
        (requested_model : option string) (w w1 : World) (r : nat) :
  refresh_models false now listing disk w = (Ok r, w1) ->
  models (deref w1 r) = [] ->
  route messages tools requested_model w
  = (Raise (if texts_are_str messages
            then RuntimeError "No models available for routing"
            else TypeError), w1).
Proof.
  intros R Hm. unfold route, route_request.
  rewrite (bind_run _ R). unfold bind at 1, load at 1.
  rewrite Hm.
  assert (Ex : match requested_model with
               | Some name =>
                   if String.eqb name "" then None
                   else match @assoc ModelInfo name [] with
                        | Some model => Some (name, model)
                        | None => None
                        end
               | None => None
               end = None).
  { destruct requested_model as [name|]; [|reflexivity].
    destruct (String.eqb name ""); reflexivity. }
  rewrite Ex.
  unfold bind at 1, get_config at 1.
  unfold bind at 1, lift at 1.
  destruct (texts_are_str messages) eqn:Ht;
    [|rewrite (score_request_raises _ _ _ Ht); reflexivity].
  destruct (score_request_returns (_config w1) messages tools Ht) as [h ->].
  destruct (is_coding_request_returns messages Ht) as [pc Hpc].
  assert (Hd : exists d,
             (if confident h
              then ret (_score_to_tier (_config w1) (score h), "heuristic"%string, JStr "")
              else bind (classify_complexity json_loads int_of_str backend messages)
                        (fun tr => ret (fst tr, "classifier"%string, snd tr))) w1
             = (Ok d, w1)).
  { destruct (confident h).
    - eexists. reflexivity.
    - destruct (classify_complexity_returns json_loads int_of_str backend messages w1 Ht)
        as (t & reason & Hc).
      eexists. exact (bind_run _ Hc). }
  destruct Hd as ([[t method] reason] & Hd).
  rewrite (bind_run _ Hd).
  unfold bind at 1, lift at 1. rewrite Hpc.
  rewrite (bind_run _ (get_model_for_tier_run r t pc w1)).
  assert (N : get_model_pure (deref w1 r) t pc = None) by (apply get_model_pure_none, Hm).
  rewrite N. reflexivity.
Qed.

End RouteEnds.

Lemma route_request_explicit_witness :
  let w := world_listing ["mistral-7b"; "llama-70b"]%string in
  let jl := fun _ : string => @Raise json JSONDecodeError in
  let ios := fun _ : string => @Raise Z ValueError in
  let be := fun _ _ : string => @Raise json HTTPError in
  exists model,
    refresh_models false (1001 # 1) (Raise HTTPError) None w = (Ok 1, w) /\
    "llama-70b"%string <> ""%string /\
    assoc "llama-70b" (models (deref w 1)) = Some model /\
    route_request jl ios be (1001 # 1) (Raise HTTPError) None [] None
                  (Some "llama-70b"%string) w
    = (Ok (model, [("routing"%string, VStr "explicit");
                   ("requested_model"%string, VStr "llama-70b")]), w).
Proof.
  intros w jl ios be. eexists.
  assert (R : refresh_models false (1001 # 1) (Raise HTTPError) None w = (Ok 1, w))
    by (vm_compute; reflexivity).
  assert (N : "llama-70b"%string <> ""%string) by discriminate.
  assert (A : assoc "llama-70b" (models (deref w 1))
              = Some {| id := "llama-70b"; total_params := Some (70 # 1)%Q;
                        active_params := None; tier := LARGE; is_coder := false |})
    by (vm_compute; reflexivity).
  split; [exact R|]. split; [exact N|]. split; [exact A|].
  exact (route_request_explicit jl ios be (1001 # 1) (Raise HTTPError) None
           [] None "llama-70b" _ w w 1 R N A).
Defined.

Lemma route_request_no_models_witness :
  let data := listing_of ["nomic-embed-text:latest"]%string in
  let jl := fun _ : string => @Raise json JSONDecodeError in
  let ios := fun _ : string => @Raise Z ValueError in
  let be := fun _ _ : string => @Raise json HTTPError in
  let messages := [{| role := Some "user"%string; content := Text "What is 2+2?" |}] in
  exists w1,
    refresh_models false (1000 # 1) (Ok data) None initial_world = (Ok 1, w1) /\
    models (deref w1 1) = [] /\
    fst (route_request jl ios be (1000 # 1) (Ok data) None messages None None initial_world)
    = Raise (RuntimeError "No models available for routing").
Proof.
  intros data jl ios be messages. eexists.
  assert (R : refresh_models false (1000 # 1) (Ok data) None initial_world
              = (Ok 1, {| registries := [empty_registry;
                                         {| models := []; _last_refresh := (1000 # 1)%Q |}];
                          _registry := 1; _config := Config.default |}))
    by (vm_compute; reflexivity).
  assert (M : models (deref {| registries := [empty_registry;
                                              {| models := []; _last_refresh := (1000 # 1)%Q |}];
                               _registry := 1; _config := Config.default |} 1) = [])
    by reflexivity.
  split; [exact R|]. split; [exact M|].
  rewrite (route_request_no_models jl ios be (1000 # 1) (Ok data) None
             messages None None initial_world _ 1 R M).
  reflexivity.
Defined.

(** *** classifier.py: the transcript and the verdict *)

Lemma string_length_append s1 s2 :
  String.length (s1 ++ s2)%string = String.length s1 + String.length s2.
Proof. induction s1 as [|c s1 IH]; simpl; [reflexivity|]. rewrite IH. reflexivity. Qed.

Lemma string_length_substring n m s : String.length (substring n m s) <= m.
Proof.
  revert n m. induction s as [|c s IH]; intros n m.
  - destruct n, m; simpl; lia.
  - destruct n as [|n].
    + destruct m as [|m]; simpl; [lia|]. specialize (IH 0 m). lia.
    + simpl. apply IH.
Qed.

Lemma string_length_substring_full n m s :
  n + m <= String.length s -> String.length (substring n m s) = m.
Proof.
  revert n m. induction s as [|c s IH]; intros n m H.
  - simpl in H. assert (n = 0) by lia. assert (m = 0) by lia. subst. reflexivity.
  - destruct n as [|n].
    + destruct m as [|m]; simpl; [reflexivity|]. rewrite IH; [reflexivity|simpl in H; lia].
    + simpl. apply IH. simpl in H. lia.
Qed.

(** X15. The condensed transcript is bounded, but not by [max_chars]: a
    conversation longer than [max_chars] is cut to its first 500 and last
    1500 characters around a 5-character marker, so the transcript never
    exceeds the larger of [max_chars] and 2005 characters, and with the
    limit of 2000 that the classifier uses a cut transcript has exactly
    2005. There is a transcript whenever the text parts carry a [str]. *)
Theorem condense_messages_length (messages : list message) (max_chars : nat) :
  (texts_are_str messages = true ->
   exists condensed, _condense_messages messages max_chars = Ok condensed) /\
  (forall condensed,
     _condense_messages messages max_chars = Ok condensed ->
     String.length condensed <= Nat.max max_chars 2005 /\
     (max_chars = 2000 ->
      String.length condensed <= 2000 \/ String.length condensed = 2005)).
Proof.
  split; [apply condense_messages_ok|].
  intros condensed. unfold _condense_messages.
  destruct (mapM condense_message messages) as [parts|e]; cbn [rbind]; [|discriminate].
  intros H. injection H as <-.
  set (full_text := String.concat nl parts).
  destruct (Nat.ltb max_chars (String.length full_text)) eqn:E.
  - apply Nat.ltb_lt in E.
    rewrite !string_length_append. unfold prefix_of, suffix_of, nl. cbn [String.length].
    pose proof (string_length_substring 0 500 full_text).
    pose proof (string_length_substring (String.length full_text - 1500) 1500 full_text).
    split; [lia|].
    intros ->. right.
    rewrite (string_length_substring_full 0 500 full_text) by lia.
    rewrite (string_length_substring_full (String.length full_text - 1500) 1500 full_text)
      by lia.
    reflexivity.
  - apply Nat.ltb_ge in E. split; [lia|]. intros ->. left. exact E.
Qed.

Section VerdictFacts.

Variable int_of_str : string -> result Z.

(** X16. A verdict with an integer tier never fails and is clamped: 1 or less
    is SMALL, 2 is MEDIUM, 3 or more is LARGE; the reason is the
    ["reason"] of the object, the empty string when it has none. *)
Theorem verdict_clamps_tier (fields : list (string * json)) (n : Z) :
  assoc "tier" fields = Some (JInt n) ->
  verdict int_of_str (JObj fields)
  = Ok (if (n <=? 1)%Z then SMALL else if (n =? 2)%Z then MEDIUM else LARGE,
        match assoc "reason" fields with Some v => v | None => JStr "" end).
Proof.
  intros H. unfold verdict, getitem, get, py_int. rewrite H. cbn [rbind].
  destruct (Z.leb_spec n 1) as [L|L].
  - replace (Z.max 1 (Z.min 3 n)) with 1%Z by lia. reflexivity.
  - destruct (Z.eqb_spec n 2) as [->|N]; [reflexivity|].
    replace (Z.max 1 (Z.min 3 n)) with 3%Z by lia. reflexivity.
Qed.

End VerdictFacts.

Lemma verdict_clamps_tier_witness :
  let ios := fun _ : string => @Raise Z ValueError in
  let fields := [("tier"%string, JInt 7); ("reason"%string, JStr "hard")] in
  assoc "tier" fields = Some (JInt 7) /\
  verdict ios (JObj fields) = Ok (LARGE, JStr "hard").
Proof.
  intros ios fields.
  assert (H : assoc "tier" fields = Some (JInt 7)) by reflexivity.
  split; [exact H|].
  rewrite (verdict_clamps_tier ios fields 7 H). reflexivity.
Defined.

(** *** models.py: total and active parameters *)

Lemma max_float_except_differs a ps q :
  max_float_except a ps = Ok q -> Qeq_bool q a = false.
Proof.
  unfold max_float_except.
  destruct (mapM float_of ps) as [qs|e]; cbn [rbind]; [|discriminate].
  destruct (max_by (fun q0 => q0) (filter (fun q0 => negb (Qeq_bool q0 a)) qs)) as [m|] eqn:E;
    [|discriminate].
  intros H. injection H as <-.
  apply max_by_spec in E. destruct E as [E _]. apply filter_In in E.
  destruct E as [_ E]. apply negb_true_iff in E. exact E.
Qed.

(** X17. When [_extract_params] returns with more than one total candidate
    and a non-zero active count, the total it returns is not the active
    count: the disambiguation has taken another candidate. *)
Theorem extract_params_total_is_not_active (model_id : string) (t a : Q) :
  _extract_params model_id = Ok (Some t, Some a) ->
  truthy a = true ->
  1 < List.length (findall1 PARAM_PATTERN model_id) ->
  ~ (t == a)%Q.
Proof.
  unfold _extract_params. intros H Ha Hlen.
  destruct (match search MOE_ACTIVE_PATTERN model_id with
            | Some m => _ | None => Ok None end) as [active|e]; cbn [rbind] in H;
    [|discriminate].
  destruct (is_empty (findall1 PARAM_PATTERN model_id)); cbn [negb] in H; [discriminate|].
  destruct (max_float (findall1 PARAM_PATTERN model_id)) as [total|e]; cbn [rbind] in H;
    [|discriminate].
  destruct active as [a0|]; [|discriminate].
  apply Nat.ltb_lt in Hlen.
  destruct (truthy a0 && Qeq_bool total a0
            && (1 <? List.length (findall1 PARAM_PATTERN model_id))) eqn:C.
  - destruct (max_float_except a0 (findall1 PARAM_PATTERN model_id)) as [t'|e] eqn:M;
      cbn [rbind] in H; [|discriminate].
    injection H as <- <-. apply max_float_except_differs in M.
    intros Q. apply Qeq_bool_iff in Q. congruence.
  - injection H as <- <-. rewrite Ha, Hlen in C. cbn [andb] in C.
    rewrite andb_true_r in C.
    intros Q. apply Qeq_bool_iff in Q. congruence.
Qed.

Lemma extract_params_total_is_not_active_witness :
  _extract_params "2b-a3b" = Ok (Some (2 # 1)%Q, Some (3 # 1)%Q) /\
  truthy (3 # 1) = true /\
  1 < List.length (findall1 PARAM_PATTERN "2b-a3b") /\
  ~ ((2 # 1) == (3 # 1))%Q.
Proof.
  assert (H : _extract_params "2b-a3b" = Ok (Some (2 # 1)%Q, Some (3 # 1)%Q))
    by (vm_compute; reflexivity).
  assert (T : truthy (3 # 1) = true) by reflexivity.
  assert (L : 1 < List.length (findall1 PARAM_PATTERN "2b-a3b")) by (vm_compute; lia).
  split; [exact H|]. split; [exact T|]. split; [exact L|].
  exact (extract_params_total_is_not_active "2b-a3b" _ _ H T L).
Defined.

(** *** heuristics.py: the image sentinel *)

Lemma run_literal p : forall pre rest g k,
  run (seqs (map chr p)) (Pos pre (p ++ rest) g) k = k (Pos (rev p ++ pre) rest g).
Proof.
  induction p as [|c p IH]; intros pre rest g k.
  - reflexivity.
  - destruct p as [|c' p'].
    + cbn [map seqs chr run after before group1 app rev].
      rewrite Ascii.eqb_refl. reflexivity.
    + change (seqs (map chr (c :: c' :: p')))
        with (Seq (chr c) (seqs (map chr (c' :: p')))).
      cbn [run chr after before group1 app].
      rewrite Ascii.eqb_refl.
      change (c' :: p' ++ rest) with ((c' :: p') ++ rest).
      rewrite IH. f_equal. f_equal.
      cbn [rev]. rewrite <- !app_assoc. reflexivity.
Qed.

Lemma search_from_unfold r pre rest :
  search_from r pre rest =
  match run r (Pos pre rest None) Some with
  | Some s' => Some (Found (List.length rest) s')
  | None => match rest with
            | [] => None
            | c :: rest' => search_from r (c :: pre) rest'
            end
  end.
Proof. destruct rest; reflexivity. Qed.

Lemma search_literal p a : forall pre b,
  exists m, search_from (seqs (map chr p)) pre (a ++ p ++ b) = Some m.
Proof.
  induction a as [|c a IH]; intros pre b; rewrite search_from_unfold.
  - cbn [app]. rewrite run_literal. eauto.
  - cbn [app].
    destruct (run (seqs (map chr p)) (Pos pre (c :: a ++ p ++ b) None) Some); eauto.
Qed.

Lemma chars_append s1 s2 : chars (s1 ++ s2)%string = chars s1 ++ chars s2.
Proof.
  unfold chars. induction s1 as [|c s1 IH]; simpl; [reflexivity|]. rewrite IH. reflexivity.
Qed.

Lemma contains_literal p a b : contains (lit p) (a ++ p ++ b)%string = true.
Proof.
  unfold contains, search, lit. rewrite !chars_append.
  destruct (search_literal (chars p) (chars a) [] (chars b)) as [m ->]. reflexivity.
Qed.

Lemma string_append_assoc (s1 s2 s3 : string) :
  ((s1 ++ s2) ++ s3 = s1 ++ (s2 ++ s3))%string.
Proof. induction s1 as [|c s1 IH]; simpl; [reflexivity|]. rewrite IH. reflexivity. Qed.

Lemma string_append_empty (s : string) : (s ++ "" = s)%string.
Proof. induction s as [|c s IH]; simpl; [reflexivity|]. rewrite IH. reflexivity. Qed.

Lemma concat_has_part sep (x : string) l :
  In x l -> exists a b, String.concat sep l = (a ++ x ++ b)%string.
Proof.
  induction l as [|h t IH]; intros H; [destruct H|].
  destruct H as [->|H].
  - destruct t as [|h' t'].
    + exists ""%string, ""%string. cbn. rewrite string_append_empty. reflexivity.
    + exists ""%string, (sep ++ String.concat sep (h' :: t'))%string. reflexivity.
  - destruct (IH H) as (a & b & E).
    destruct t as [|h' t']; [destruct H|].
    exists (h ++ sep ++ a)%string, b.
    change (String.concat sep (h :: h' :: t'))
      with (h ++ sep ++ String.concat sep (h' :: t'))%string.
    rewrite E, !string_append_assoc. reflexivity.
Qed.

Lemma all_str_in parts l x :
  all_str parts = Some l -> In (Some x) parts -> In x l.
Proof.
  revert l. induction parts as [|p parts IH]; intros l H Hin; [destruct Hin|].
  destruct p as [s|]; [|discriminate].
  cbn [all_str] in H. destruct (all_str parts) as [l'|]; [|discriminate].
  injection H as <-. destruct Hin as [Hin|Hin].
  - injection Hin as ->. now left.
  - right. apply IH; [reflexivity|exact Hin].
Qed.

(** X18. Image detection goes by the sentinel: a structured content with an
    image part adds the image increment, and so does a plain message
    that merely contains the text "[IMAGE]". *)
Theorem image_signal_by_sentinel (messages : list message) (full_text : string) :
  _extract_text messages = Ok full_text ->
  (exists msg, In msg messages /\
     ((exists blocks, content msg = Parts blocks /\ In ImageBlock blocks)
      \/ (exists a b, content msg = Text (a ++ "[IMAGE]" ++ b)%string))) ->
  image_signal full_text = (Plus (lit64 (1 # 10)), [ContainsImages]).
Proof.
  intros Hx (msg & Hin & Hc).
  assert (Hp : exists part a b,
             In (Some part)
                (flat_map (fun msg0 => match content msg0 with
                                       | Text s => [Some s]
                                       | Parts blocks => flat_map block_text blocks
                                       end) messages)
             /\ part = (a ++ "[IMAGE]" ++ b)%string).
  { destruct Hc as [(blocks & Hb & Hi)|(a & b & Ht)].
    - exists "[IMAGE]"%string, ""%string, ""%string. split; [|reflexivity].
      apply in_flat_map. exists msg. split; [exact Hin|]. rewrite Hb.
      apply in_flat_map. exists ImageBlock. split; [exact Hi|]. left. reflexivity.
    - exists (a ++ "[IMAGE]" ++ b)%string, a, b. split; [|reflexivity].
      apply in_flat_map. exists msg. split; [exact Hin|]. rewrite Ht. left. reflexivity. }
  destruct Hp as (part & a & b & Hpart & ->).
  unfold _extract_text, join in Hx.
  destruct (all_str _) as [l|] eqn:El; [|discriminate].
  injection Hx as <-.
  destruct (concat_has_part nl _ _ (all_str_in _ _ _ El Hpart)) as (a' & b' & ->).
  unfold image_signal.
  assert (E : ((a' ++ (a ++ "[IMAGE]" ++ b) ++ b')
               = (a' ++ a) ++ "[IMAGE]" ++ (b ++ b'))%string).
  { rewrite !string_append_assoc. reflexivity. }
  rewrite E, contains_literal. reflexivity.
Qed.

Lemma image_signal_by_sentinel_witness :
  let messages := [{| role := Some "user"%string;
                      content := Text "see [IMAGE] here" |}] in
  _extract_text messages = Ok "see [IMAGE] here"%string /\
  (exists msg, In msg messages /\
     ((exists blocks, content msg = Parts blocks /\ In ImageBlock blocks)
      \/ (exists a b, content msg = Text (a ++ "[IMAGE]" ++ b)%string))) /\
  image_signal "see [IMAGE] here"%string = (Plus (lit64 (1 # 10)), [ContainsImages]).
Proof.
  intros messages.
  assert (X : _extract_text messages = Ok "see [IMAGE] here"%string) by reflexivity.
  assert (H : exists msg, In msg messages /\
     ((exists blocks, content msg = Parts blocks /\ In ImageBlock blocks)
      \/ (exists a b, content msg = Text (a ++ "[IMAGE]" ++ b)%string))).
  { eexists. split; [left; reflexivity|]. right.
    exists "see "%string, " here"%string. reflexivity. }
  split; [exact X|]. split; [exact H|].
  exact (image_signal_by_sentinel messages _ X H).
Defined.

(** *** models.py and config.py: the model filter *)

Lemma mem_true_in x l : Config.mem x l = true <-> In x l.
Proof.
  unfold Config.mem. rewrite existsb_exists. split.
  - intros (y & Hy & E). apply String.eqb_eq in E. subst. exact Hy.
  - intros H. exists x. split; [exact H | apply String.eqb_refl].
Qed.

(** X19. The filter of the configuration is enforced on every refresh: in
    allowlist mode only allowed ids enter the registry, in any other
    mode no excluded id does. *)
Theorem built_registry_filter (cfg : RouterConfig) (now : Q) (data : json)
        (reg : ModelRegistry) (k : string) (m : ModelInfo) :
  built_registry cfg now data = Ok reg ->
  In (k, m) (models reg) ->
  (filter_mode cfg = "allowlist"%string -> In k (allowed_models cfg)) /\
  (filter_mode cfg <> "allowlist"%string -> ~ In k (excluded_models cfg)).
Proof.
  unfold built_registry.
  destruct (rbind (get data "data" (JArr [])) iterate) as [entries|e]; [|discriminate].
  cbn [rbind].
  destruct (build_models cfg cfg entries []) as [nm|e] eqn:B; [|discriminate].
  cbn [rbind]. intros H Hin. injection H as <-. cbn [models] in Hin.
  destruct (build_models_invariant cfg cfg entries [] nm B) as [_ Hall].
  { constructor. }
  { intros k0 m0 []. }
  destruct (Hall k m Hin) as (info & _ & Hen & _).
  unfold is_model_enabled in Hen. split.
  - intros Hm. rewrite Hm in Hen. cbn in Hen. apply mem_true_in, Hen.
  - intros Hm. apply String.eqb_neq in Hm. rewrite Hm in Hen.
    intros Hx. apply mem_true_in in Hx. rewrite Hx in Hen. discriminate.
Qed.

Lemma built_registry_filter_witness :
  let cfg := {| tier1_max_params := 8 # 1; tier2_max_params := 27 # 1;
                heuristic_low_threshold := 3 # 10; heuristic_high_threshold := 7 # 10;
                classifier_model := ""; model_cache_ttl := 300 # 1;
                filter_mode := "allowlist"; allowed_models := ["gemma-3-4b"%string];
                excluded_models := []; tier_overrides := [] |} in
  exists reg m,
    built_registry cfg (1000 # 1) (listing_of ["llama-70b"; "gemma-3-4b"]%string) = Ok reg /\
    In ("gemma-3-4b"%string, m) (models reg) /\
    map fst (models reg) = ["gemma-3-4b"%string] /\
    In "gemma-3-4b"%string (allowed_models cfg).
Proof.
  intros cfg. eexists. eexists.
  assert (B : built_registry cfg (1000 # 1) (listing_of ["llama-70b"; "gemma-3-4b"]%string)
              = Ok {| models :=
                        [("gemma-3-4b"%string,
                          {| id := "gemma-3-4b"; total_params := Some (4 # 1)%Q;
                             active_params := None; tier := SMALL; is_coder := false |})];
                      _last_refresh := (1000 # 1)%Q |}) by (vm_compute; reflexivity).
  assert (I : In ("gemma-3-4b"%string,
                  {| id := "gemma-3-4b"; total_params := Some (4 # 1)%Q;
                     active_params := None; tier := SMALL; is_coder := false |})
                 (models {| models :=
                              [("gemma-3-4b"%string,
                                {| id := "gemma-3-4b"; total_params := Some (4 # 1)%Q;
                                   active_params := None; tier := SMALL; is_coder := false |})];
                            _last_refresh := (1000 # 1)%Q |})) by (left; reflexivity).
  split; [exact B|]. split; [exact I|]. split; [reflexivity|].
  exact (proj1 (built_registry_filter cfg (1000 # 1) _ _ _ _ B I) eq_refl).
Defined.

(** *** router.py: a refresh that fails *)

Section RouteRefresh.

Variable json_loads : string -> result json.
Variable int_of_str : string -> result Z.
Variable backend : string -> string -> result json.
Variable now : Q.
Variable listing : result json.
Variable disk : option RouterConfig.

(** When the refresh at the head of a request raises (the listing failed
    and there is no registry to fall back on), the request ends in that
    same exception, before anything is scored. *)
Theorem route_request_refresh_error (messages : list message) (tools : option (list tool))
        (requested_model : option string) (w w1 : World) (e : exn) :
  refresh_models false now listing disk w = (Raise e, w1) ->
  route_request json_loads int_of_str backend now listing disk
                messages tools requested_model w = (Raise e, w1).
Proof.
  intros R. unfold route_request. unfold bind at 1. rewrite R. reflexivity.
Qed.

End RouteRefresh.

Lemma route_request_refresh_error_witness :
  let jl := fun _ : string => @Raise json JSONDecodeError in
  let ios := fun _ : string => @Raise Z ValueError in
  let be := fun _ _ : string => @Raise json HTTPError in
  refresh_models false (1000 # 1) (Raise HTTPError) None initial_world
  = (Raise HTTPError, initial_world) /\
  route_request jl ios be (1000 # 1) (Raise HTTPError) None [] None None initial_world
  = (Raise HTTPError, initial_world).
Proof.
  intros jl ios be.
  assert (R : refresh_models false (1000 # 1) (Raise HTTPError) None initial_world
              = (Raise HTTPError, initial_world)) by (vm_compute; reflexivity).
  split; [exact R|].
  exact (route_request_refresh_error jl ios be (1000 # 1) (Raise HTTPError) None
           [] None None initial_world initial_world HTTPError R).
Defined.

(** *** Text parts that are no [str] *)

Section TextParts.

Variable json_loads : string -> result json.
Variable int_of_str : string -> result Z.
Variable backend : string -> string -> result json.
Variable now : Q.
Variable listing : result json.
Variable disk : option RouterConfig.

(** X20. Nothing checks the type of a text part: when some text part
    brings a ["text"] that is no [str], [_extract_text] and
    [score_request] raise [TypeError], and so do [_condense_messages],
    [classify_complexity] when it has a model to ask (the conversation
    is condensed before the [try] is entered), and [route_request] for
    a request that names no model. *)
Theorem non_str_text_raises (messages : list message)
        (H : texts_are_str messages = false) :
  _extract_text messages = Raise TypeError /\
  (forall cfg tools, score_request cfg messages tools = Raise TypeError) /\
  (forall max_chars, _condense_messages messages max_chars = Raise TypeError) /\
  (forall w model,
     fst (choose_classifier_model w) = Ok (Some model) ->
     classify_complexity json_loads int_of_str backend messages w = (Raise TypeError, w)) /\
  (forall tools w r w1,
     refresh_models false now listing disk w = (Ok r, w1) ->
     route_request json_loads int_of_str backend now listing disk messages tools None w
     = (Raise TypeError, w1)).
Proof.
  split; [apply extract_text_raises, H|].
  split; [intros cfg tools; apply score_request_raises, H|].
  split; [intros max_chars; apply condense_messages_raises, H|].
  split; [intros w model; apply classify_complexity_raises, H|].
  intros tools w r w1 R. unfold route_request.
  rewrite (bind_run _ R). unfold bind at 1, load at 1.
  unfold bind at 1, get_config at 1. unfold bind at 1, lift at 1.
  rewrite (score_request_raises _ _ _ H). reflexivity.
Qed.

End TextParts.

Lemma non_str_text_raises_witness :
  let messages := [{| role := Some "user"%string;
                      content := Parts [TextBlock "hello"; BadTextBlock] |}] in
  texts_are_str messages = false /\
  score_request Config.default messages None = Raise TypeError.
Proof.
  intros messages. split; [reflexivity|].
  exact (proj1 (proj2 (non_str_text_raises
                         (fun _ => Raise JSONDecodeError) (fun _ => Raise ValueError)
                         (fun _ _ => Raise HTTPError) (1000 # 1) (Raise HTTPError) None
                         messages eq_refl))
               Config.default None).
Defined.

(** *** models.py: numerals beyond the precision of a float *)

(** X21. Parameter counts are floats: a numeral is read to the nearest
    binary64 number. ["8.0000000000000001"] reads as 8.0, so the model
    is SMALL under the default boundary of 8; ["0.3"] and
    ["0.30000000000000001"] read as the same float, so an id that
    carries both as active and total count leaves no other candidate
    and [_extract_params] raises [ValueError]. *)
Theorem extract_params_rounds_numerals :
  _build_model_info Config.default "x-8.0000000000000001b"
  = Ok (Some {| id := "x-8.0000000000000001b"; total_params := Some (8 # 1)%Q;
                active_params := None; tier := SMALL; is_coder := false |}) /\
  float_of (chars "0.3") = float_of (chars "0.30000000000000001") /\
  _extract_params "a0.3b-0.30000000000000001b" = Raise ValueError.
Proof. vm_compute. repeat split; reflexivity. Qed.
